(** * Frame presentation in the learn-wgpu tutorials

    A shallow embedding of the Go programs

      - [src/unnamed/part_000]  (the textured pentagon with two textures),
      - [learn-wgpu/beginner/tutorial4-challenge/main.go],
      - [learn-wgpu/beginner/tutorial6-challenge/main.go],
      - [learn-wgpu/beginner/tutorial9-models/texture.go],

    together with the properties of their resize / render / destroy code.

    The programs are glue code around the [wgpu] binding.  The binding is an
    external collaborator: it is modelled as a world that hands out fresh
    object handles, answers every fallible call from a script of replies and
    records every call in a chronological log.  The Go code itself is
    translated function by function into a state-and-panic monad over that
    world. *)

From Stdlib Require Import String Ascii List NArith ZArith Lia Bool.
From stdpp Require Import base list.
Import ListNotations.

Local Open Scope string_scope.
Local Open Scope list_scope.

(* ===================================================================== *)
(** ** Go: strings, errors, panics                                        *)
(* ===================================================================== *)

Module strings.

  (** [strings.Contains(s, substr)]: [substr] occurs somewhere within [s]. *)
Fixpoint Contains (s substr : string) : bool :=
    if String.prefix substr s then true
    else match s with
         | EmptyString => false
         | String _ s' => Contains s' substr
         end.

End strings.

(** A Go [error] value: [None] is [nil], [Some msg] is an error whose
    [Error()] text is [msg]. *)
Definition error := option string.

(** The value carried by a Go panic. *)
Inductive panicval :=
| PanicError (msg : string)   (* panic(err) *)
| PanicNilDeref               (* a nil pointer was dereferenced *)
| PanicIndex.                 (* index out of range *)

(* ===================================================================== *)
(** ** The wgpu binding, as a recorded world                              *)
(* ===================================================================== *)

Definition handle := nat.

Module dpi.
  (** [dpi.PhysicalSize[uint32]] *)
Record PhysicalSize := { Width : N; Height : N }.
End dpi.

Module wgpu.

Inductive kind :=
  | Instance | Surface | Adapter | Device | SwapChain
  | BindGroupLayout | BindGroup | ShaderModule | PipelineLayout
  | RenderPipeline | Buffer | Texture | TextureView | Sampler
  | CommandEncoder | RenderPassEncoder | CommandBuffer.

  (** Enumerations of the binding.  Values that the driver chooses are kept
      as opaque codes. *)
Definition TextureFormat := N.
Inductive PresentMode := PresentMode_Fifo | PresentMode_code (c : N).
Inductive AlphaMode := AlphaMode_unset | AlphaMode_code (c : N).
Inductive TextureUsage := TextureUsage_RenderAttachment.
Inductive LoadOp := LoadOp_Clear | LoadOp_Load.
Inductive StoreOp := StoreOp_Store | StoreOp_Discard.
Inductive BufferUsage := BufferUsage_Vertex | BufferUsage_Index.
Inductive IndexFormat := IndexFormat_Uint16 | IndexFormat_Uint32.

Record SwapChainDescriptor := {
    Usage : TextureUsage;
    Format : TextureFormat;
    Width : N;
    Height : N;
    PresentMode_ : PresentMode;
    AlphaMode_ : AlphaMode
  }.

  (** [wgpu.Color]; the components are written in tenths, so that the
      literal 0.1 is [1] and 1.0 is [10]. *)
Record Color := { R : N; G : N; B : N; A : N }.

Record RenderPassColorAttachment := {
    View : handle;
    LoadOp_ : LoadOp;
    ClearValue : Color;
    StoreOp_ : StoreOp
  }.

  (** What a buffer is initialised with.  Vertex data are floating point and
      only their number is kept; index data are kept in full. *)
Inductive contents :=
  | VertexData (count : nat)
  | IndexData (indices : list N).

  (** The parameters of a creation call that the properties below look at. *)
Inductive descr :=
  | NoDescr
  | Labelled (label : string)
  | ForSwapChain (surface : option handle) (cfg : SwapChainDescriptor)
  | ForBufferInit (label : string) (usage : BufferUsage) (data : contents)
  | ForTexture (label : string) (width height : N)
  | ForBindGroup (label : string) (layout view sampler : option handle)
  | ForPipelineLayout (label : string) (layouts : list (option handle))
  | ForRenderPipeline (label : string) (layout shader : option handle)
                      (format : TextureFormat).

  (** One entry of the log: a call into the binding. *)
Inductive event :=
  | Created (k : kind) (h : handle) (d : descr)
  | Rejected (k : kind) (msg : string)
  | Dropped (k : kind) (h : handle)
  | GotQueue (device queue : handle)
  | WroteTexture (queue : handle) (texture : option handle)
                 (bytesPerRow rowsPerImage : N)
  | WroteBuffer (queue : handle) (buffer : option handle) (offset : N)
  | BeganRenderPass (encoder pass : handle)
                    (attachments : list RenderPassColorAttachment)
  | SetPipeline (pass : handle) (pipeline : option handle)
  | SetBindGroup (pass : handle) (index : N) (group : option handle)
  | SetVertexBuffer (pass : handle) (slot : N) (buffer : option handle)
  | SetIndexBuffer (pass : handle) (buffer : option handle)
                   (format : IndexFormat)
  | DrawIndexed (pass : handle)
                (indexCount instanceCount firstIndex : N)
                (baseVertex : Z) (firstInstance : N)
  | Ended (pass : handle)
  | Finished (encoder buffer : handle)
  | Submitted (queue : handle) (buffers : list handle)
  | Presented (swapChain : handle)
  (* what the program itself does, observed next to the calls *)
  | Printed (line : string)
  | EnteredResize (newSize : dpi.PhysicalSize).

  (** The world: the next unused handle, the scripted replies to fallible
      calls ([None]: the call succeeds, [Some msg]: it fails with [msg]; an
      exhausted script means a healthy backend), what the surface reports
      as its formats and modes, and the log. *)
Record World := {
    fresh : handle;
    replies : list (option string);
    preferredFormat : TextureFormat;
    capFormats : list TextureFormat;
    capPresentModes : list PresentMode;
    capAlphaModes : list AlphaMode;
    log : list event
  }.

End wgpu.

Import wgpu.

Definition with_log (l : list event) (g : World) : World :=
  {| fresh := fresh g; replies := replies g;
     preferredFormat := preferredFormat g; capFormats := capFormats g;
     capPresentModes := capPresentModes g; capAlphaModes := capAlphaModes g;
     log := l |}.

Definition with_fresh (n : handle) (g : World) : World :=
  {| fresh := n; replies := replies g;
     preferredFormat := preferredFormat g; capFormats := capFormats g;
     capPresentModes := capPresentModes g; capAlphaModes := capAlphaModes g;
     log := log g |}.

Definition with_replies (r : list (option string)) (g : World) : World :=
  {| fresh := fresh g; replies := r;
     preferredFormat := preferredFormat g; capFormats := capFormats g;
     capPresentModes := capPresentModes g; capAlphaModes := capAlphaModes g;
     log := log g |}.

(** *** The monad of Go code: a world is threaded through, and a call either
    returns or panics. *)

Inductive outcome (A : Type) :=
| Ret (a : A) (g : World)
| Panic (p : panicval) (g : World).
Arguments Ret {A} a g.
Arguments Panic {A} p g.

Definition M (A : Type) := World -> outcome A.

Definition ret {A} (a : A) : M A := fun g => Ret a g.

Definition bind {A B} (m : M A) (k : A -> M B) : M B :=
  fun g => match m g with
           | Ret a g' => k a g'
           | Panic p g' => Panic p g'
           end.

Definition panic {A} (p : panicval) : M A := fun g => Panic p g.

Notation "x <- m ; k" := (bind m (fun x => k))
  (at level 20, m at level 100, k at level 200, only parsing).
Notation "' pat <- m ; k" := (bind m (fun x => match x with pat => k end))
  (at level 20, pat pattern, m at level 100, k at level 200, only parsing).

(** [defer cleanup; body]: the cleanup runs when the body is left, by a
    return or by a panic. *)
Definition defer {A} (cleanup : M unit) (body : M A) : M A :=
  fun g => match body g with
           | Ret a g' => match cleanup g' with
                         | Ret _ g'' => Ret a g''
                         | Panic p g'' => Panic p g''
                         end
           | Panic p g' => match cleanup g' with
                           | Ret _ g'' => Panic p g''
                           | Panic p' g'' => Panic p' g''
                           end
           end.

(** Reading through a pointer. *)
Definition deref {A} (p : option A) : M A :=
  match p with
  | Some a => ret a
  | None => panic PanicNilDeref
  end.

(** [l[0]] on a slice. *)
Definition index0 {A} (l : list A) : M A :=
  match l with
  | a :: _ => ret a
  | [] => panic PanicIndex
  end.

Definition emit (e : event) : M unit :=
  fun g => Ret tt (with_log (log g ++ [e]) g).

Definition alloc : M handle :=
  fun g => Ret (fresh g) (with_fresh (S (fresh g)) g).

(** The next scripted reply. *)
Definition reply : M (option string) :=
  fun g => match replies g with
           | [] => Ret None g
           | r :: rest => Ret r (with_replies rest g)
           end.

Definition ask {A} (f : World -> A) : M A := fun g => Ret (f g) g.

(** A creation that cannot fail. *)
Definition create (k : kind) (d : descr) : M handle :=
  h <- alloc; _ <- emit (Created k h d); ret h.

(** A creation that returns [(object, err)]: on failure the object is nil. *)
Definition try_create (k : kind) (d : descr) : M (option handle * error) :=
  r <- reply;
  match r with
  | Some msg => _ <- emit (Rejected k msg); ret (None, Some msg)
  | None => h <- create k d; ret (Some h, None)
  end.

(** [x.Drop()] on an object of kind [k]. *)
Definition Drop (k : kind) (h : handle) : M unit := emit (Dropped k h).

(** *** Methods of the binding

    A method called through a nil handle dereferences it and panics; handles
    passed as arguments are recorded as they are. *)

Definition CreateInstance : M (option handle) :=
  h <- create Instance NoDescr; ret (Some h).

Definition Instance_CreateSurface (instance : option handle)
  : M (option handle) :=
  _ <- deref instance; h <- create Surface NoDescr; ret (Some h).

Definition Instance_RequestAdapter (instance surface : option handle)
  : M (option handle * error) :=
  _ <- deref instance; try_create Adapter NoDescr.

Definition Adapter_RequestDevice (adapter : option handle)
  : M (option handle * error) :=
  _ <- deref adapter; try_create Device NoDescr.

(** The queue belongs to its device; the binding has no release for it. *)
Definition Device_GetQueue (device : option handle) : M (option handle) :=
  d <- deref device; q <- alloc; _ <- emit (GotQueue d q); ret (Some q).

Definition Surface_GetPreferredFormat (surface adapter : option handle)
  : M TextureFormat :=
  _ <- deref surface; ask preferredFormat.

Definition Device_CreateSwapChain (device surface : option handle)
    (cfg : SwapChainDescriptor) : M (option handle * error) :=
  _ <- deref device; try_create SwapChain (ForSwapChain surface cfg).

Definition Device_CreateBindGroupLayout (device : option handle)
    (label : string) : M (option handle * error) :=
  _ <- deref device; try_create BindGroupLayout (Labelled label).

Definition Device_CreateBindGroup (device : option handle) (label : string)
    (layout view sampler : option handle) : M (option handle * error) :=
  _ <- deref device; try_create BindGroup (ForBindGroup label layout view sampler).

Definition Device_CreateShaderModule (device : option handle)
    (label : string) : M (option handle * error) :=
  _ <- deref device; try_create ShaderModule (Labelled label).

Definition Device_CreatePipelineLayout (device : option handle)
    (label : string) (layouts : list (option handle))
  : M (option handle * error) :=
  _ <- deref device; try_create PipelineLayout (ForPipelineLayout label layouts).

Definition Device_CreateRenderPipeline (device : option handle)
    (label : string) (layout shader : option handle) (format : TextureFormat)
  : M (option handle * error) :=
  _ <- deref device;
  try_create RenderPipeline (ForRenderPipeline label layout shader format).

Definition Device_CreateBufferInit (device : option handle) (label : string)
    (usage : BufferUsage) (data : contents) : M (option handle * error) :=
  _ <- deref device; try_create Buffer (ForBufferInit label usage data).

Definition Device_CreateTexture (device : option handle) (label : string)
    (width height : N) : M (option handle * error) :=
  _ <- deref device; try_create wgpu.Texture (ForTexture label width height).

Definition Device_CreateSampler (device : option handle)
  : M (option handle * error) :=
  _ <- deref device; try_create Sampler NoDescr.

Definition Queue_WriteTexture (queue texture : option handle)
    (bytesPerRow rowsPerImage : N) : M unit :=
  q <- deref queue; emit (WroteTexture q texture bytesPerRow rowsPerImage).

Definition Queue_WriteBuffer (queue buffer : option handle) (offset : N)
  : M unit :=
  q <- deref queue; emit (WroteBuffer q buffer offset).

Definition Texture_CreateView (texture : option handle) : M (option handle) :=
  _ <- deref texture; h <- create TextureView NoDescr; ret (Some h).

Definition SwapChain_GetCurrentTextureView (swapChain : option handle)
  : M (option handle * error) :=
  _ <- deref swapChain; try_create TextureView NoDescr.

Definition SwapChain_Present (swapChain : option handle) : M unit :=
  sc <- deref swapChain; emit (Presented sc).

Definition Device_CreateCommandEncoder (device : option handle)
  : M (option handle * error) :=
  _ <- deref device; try_create CommandEncoder NoDescr.

Definition CommandEncoder_BeginRenderPass (encoder : option handle)
    (view : option handle) (loadOp : LoadOp) (clear : Color)
    (storeOp : StoreOp) : M handle :=
  e <- deref encoder; v <- deref view; p <- alloc;
  _ <- emit (BeganRenderPass e p
               [{| View := v; LoadOp_ := loadOp; ClearValue := clear;
                   StoreOp_ := storeOp |}]);
  ret p.

Definition CommandEncoder_Finish (encoder : option handle) : M handle :=
  e <- deref encoder; b <- alloc; _ <- emit (Finished e b); ret b.

Definition Queue_Submit (queue : option handle) (buffers : list handle)
  : M unit :=
  q <- deref queue; emit (Submitted q buffers).

(** [x.Drop()] through a pointer that may be nil. *)
Definition Drop_ptr (k : kind) (p : option handle) : M unit :=
  h <- deref p; Drop k h.

(** [wgpu.WholeSize] only appears as an argument that is not recorded. *)

(* ===================================================================== *)
(** ** texture.go                                                         *)
(* ===================================================================== *)

Module image.
  (** What the code reads of an [image.Image]: the extent of its bounds and
      whether its dynamic type is [*image.RGBA]. *)
Record Image := { Dx : Z; Dy : Z; isRGBA : bool }.
End image.

(** Conversion of an [int] to [uint32]. *)
Definition uint32 (z : Z) : N := Z.to_N (z mod 2 ^ 32).

(** Multiplication on [uint32]. *)
Definition mul32 (a b : N) : N := ((a * b) mod 2 ^ 32)%N.

Record Texture := {
  texture : option handle;
  view : option handle;
  sampler : option handle
}.

Definition Texture_zero : Texture :=
  {| texture := None; view := None; sampler := None |}.

(** [func (t *Texture) Destroy()].  The three guarded releases, each followed
    by the reset of its field. *)
Definition Texture_Destroy (t : Texture) : M Texture :=
  t <- match sampler t with
       | Some h => _ <- Drop Sampler h;
                   ret {| texture := texture t; view := view t; sampler := None |}
       | None => ret t
       end;
  t <- match view t with
       | Some h => _ <- Drop TextureView h;
                   ret {| texture := texture t; view := None; sampler := sampler t |}
       | None => ret t
       end;
  match texture t with
  | Some h => _ <- Drop wgpu.Texture h;
              ret {| texture := None; view := view t; sampler := sampler t |}
  | None => ret t
  end.

(** The deferred closure of the constructors: on an error the object built
    so far is destroyed and the result pointer is reset to nil. *)
Definition Texture_cleanup (r : Texture * error) : M (option Texture * error) :=
  let '(t, err) := r in
  match err with
  | Some _ => _ <- Texture_Destroy t; ret (None, err)
  | None => ret (Some t, err)
  end.

Definition TextureFromImage_body (device queue : option handle)
    (img : image.Image) (label : string) : M (Texture * error) :=
  let t := Texture_zero in
  let width := image.Dx img in
  let height := image.Dy img in
  (* the conversion to RGBA happens on the CPU and leaves no trace *)
  '(tex, err) <- Device_CreateTexture device label (uint32 width) (uint32 height);
  let t := {| texture := tex; view := view t; sampler := sampler t |} in
  match err with
  | Some _ => ret (t, err)
  | None =>
    _ <- Queue_WriteTexture queue (texture t)
           (mul32 4 (uint32 width)) (uint32 height);
    v <- Texture_CreateView (texture t);
    let t := {| texture := texture t; view := v; sampler := sampler t |} in
    '(smp, err) <- Device_CreateSampler device;
    let t := {| texture := texture t; view := view t; sampler := smp |} in
    match err with
    | Some _ => ret (t, err)
    | None => ret (t, None)
    end
  end.

(** [func TextureFromImage(device, queue, img, label) (t *Texture, err error)] *)
Definition TextureFromImage (device queue : option handle)
    (img : image.Image) (label : string) : M (option Texture * error) :=
  r <- TextureFromImage_body device queue img label; Texture_cleanup r.

(** The decoder of [image/png] and the embedded files are not part of the
    sources; they are parameters of the development. *)
Class Assets := {
  png_Decode : list Byte.byte -> image.Image + string;
  happyTreePng : list Byte.byte;
  happyTreeCartoonPng : list Byte.byte
}.

(** [func TextureFromPNGBytes(device, queue, buf, label)], returning a
    texture pointer and an error. *)
Definition TextureFromPNGBytes `{Assets} (device queue : option handle)
    (buf : list Byte.byte) (label : string) : M (option Texture * error) :=
  match png_Decode buf with
  | inr msg => ret (None, Some msg)
  | inl img => TextureFromImage device queue img label
  end.

(* ===================================================================== *)
(** ** The window system                                                  *)
(* ===================================================================== *)

Module events.
Inductive ButtonState := ButtonStatePressed | ButtonStateReleased.
Inductive VirtualKey :=
| VirtualKeySpace
| VirtualKeyW | VirtualKeyA | VirtualKeyS | VirtualKeyD
| VirtualKeyUp | VirtualKeyLeft | VirtualKeyDown | VirtualKeyRight
| VirtualKeyOther (code : N).

Definition isPressed (state : ButtonState) : bool :=
  match state with ButtonStatePressed => true | ButtonStateReleased => false end.

Definition isSpace (k : VirtualKey) : bool :=
  match k with VirtualKeySpace => true | _ => false end.
End events.

Module display.
Record Window := { InnerSize : dpi.PhysicalSize }.

(** What one [Poll] delivers to the callbacks registered on the window.
    The scale factor of a resize is a float that no callback reads. *)
Inductive Event :=
| KeyboardInput (state : events.ButtonState) (scanCode : N)
                (virtualKeyCode : events.VirtualKey)
| Resized (physicalWidth physicalHeight : N)
| CloseRequested.
End display.

(** [if err != nil { return r, err }], then the rest of the function. *)
Notation "'check' err 'returning' r ; k" :=
  (match err with Some _ => ret (r, err) | None => k end)
  (at level 20, err at level 9, r at level 100, k at level 200, only parsing).

(** The guarded release of the destroy chains:
    [if p != nil { p.Drop(); p = nil }]. *)
Definition release {S} (k : kind) (p : option handle) (reset s : S) : M S :=
  match p with
  | Some h => _ <- Drop k h; ret reset
  | None => ret s
  end.

(** [if p != nil { p = nil }], for what is only forgotten. *)
Definition forget {S A} (p : option A) (reset s : S) : M S :=
  match p with
  | Some _ => ret reset
  | None => ret s
  end.

(** [if p != nil { p.Destroy(); p = nil }], for an owned texture. *)
Definition release_texture {S} (p : option Texture) (reset s : S) : M S :=
  match p with
  | Some t => _ <- Texture_Destroy t; ret reset
  | None => ret s
  end.

(** Assignments to the fields of [*s.config]. *)
Definition set_Width (w : N) (c : SwapChainDescriptor) : SwapChainDescriptor :=
  {| Usage := Usage c; Format := Format c; Width := w; Height := Height c;
     PresentMode_ := PresentMode_ c; AlphaMode_ := AlphaMode_ c |}.

Definition set_Height (h : N) (c : SwapChainDescriptor) : SwapChainDescriptor :=
  {| Usage := Usage c; Format := Format c; Width := Width c; Height := h;
     PresentMode_ := PresentMode_ c; AlphaMode_ := AlphaMode_ c |}.

(** The clear colour of every render pass: 0.1, 0.2, 0.3, 1.0. *)
Definition clearColor : Color := {| R := 1; G := 2; B := 3; A := 10 |}.

(* ===================================================================== *)
(** ** src/unnamed/part_000                                               *)
(* ===================================================================== *)

Module Part000.

Definition INDICES : list N := [0; 1; 4; 1; 2; 4; 2; 3; 4]%N.
Definition VERTICES_len : nat := 5.

Record State := {
  surface : option handle;
  swapChain : option handle;
  device : option handle;
  queue : option handle;
  config : option SwapChainDescriptor;
  size : dpi.PhysicalSize;
  renderPipeline : option handle;
  vertexBuffer : option handle;
  indexBuffer : option handle;
  numIndices : N;
  diffuseTexture : option Texture;
  diffuseBindGroup : option handle;
  cartoonTexture : option Texture;
  cartoonBindGroup : option handle;
  isSpacePressed : bool
}.

(** [&State{}] *)
Definition State_zero : State :=
  {| surface := None; swapChain := None; device := None; queue := None;
     config := None; size := {| dpi.Width := 0; dpi.Height := 0 |};
     renderPipeline := None; vertexBuffer := None; indexBuffer := None;
     numIndices := 0; diffuseTexture := None; diffuseBindGroup := None;
     cartoonTexture := None; cartoonBindGroup := None;
     isSpacePressed := false |}.

Definition set_surface (v : option handle) (s : State) : State :=
  {| surface := v; swapChain := swapChain s; device := device s;
     queue := queue s; config := config s; size := size s;
     renderPipeline := renderPipeline s; vertexBuffer := vertexBuffer s;
     indexBuffer := indexBuffer s; numIndices := numIndices s;
     diffuseTexture := diffuseTexture s;
     diffuseBindGroup := diffuseBindGroup s;
     cartoonTexture := cartoonTexture s;
     cartoonBindGroup := cartoonBindGroup s;
     isSpacePressed := isSpacePressed s |}.
Definition set_swapChain (v : option handle) (s : State) : State :=
  {| surface := surface s; swapChain := v; device := device s;
     queue := queue s; config := config s; size := size s;
     renderPipeline := renderPipeline s; vertexBuffer := vertexBuffer s;
     indexBuffer := indexBuffer s; numIndices := numIndices s;
     diffuseTexture := diffuseTexture s;
     diffuseBindGroup := diffuseBindGroup s;
     cartoonTexture := cartoonTexture s;
     cartoonBindGroup := cartoonBindGroup s;
     isSpacePressed := isSpacePressed s |}.
Definition set_device (v : option handle) (s : State) : State :=
  {| surface := surface s; swapChain := swapChain s; device := v;
     queue := queue s; config := config s; size := size s;
     renderPipeline := renderPipeline s; vertexBuffer := vertexBuffer s;
     indexBuffer := indexBuffer s; numIndices := numIndices s;
     diffuseTexture := diffuseTexture s;
     diffuseBindGroup := diffuseBindGroup s;
     cartoonTexture := cartoonTexture s;
     cartoonBindGroup := cartoonBindGroup s;
     isSpacePressed := isSpacePressed s |}.
Definition set_queue (v : option handle) (s : State) : State :=
  {| surface := surface s; swapChain := swapChain s; device := device s;
     queue := v; config := config s; size := size s;
     renderPipeline := renderPipeline s; vertexBuffer := vertexBuffer s;
     indexBuffer := indexBuffer s; numIndices := numIndices s;
     diffuseTexture := diffuseTexture s;
     diffuseBindGroup := diffuseBindGroup s;
     cartoonTexture := cartoonTexture s;
     cartoonBindGroup := cartoonBindGroup s;
     isSpacePressed := isSpacePressed s |}.
Definition set_config (v : option SwapChainDescriptor) (s : State) : State :=
  {| surface := surface s; swapChain := swapChain s; device := device s;
     queue := queue s; config := v; size := size s;
     renderPipeline := renderPipeline s; vertexBuffer := vertexBuffer s;
     indexBuffer := indexBuffer s; numIndices := numIndices s;
     diffuseTexture := diffuseTexture s;
     diffuseBindGroup := diffuseBindGroup s;
     cartoonTexture := cartoonTexture s;
     cartoonBindGroup := cartoonBindGroup s;
     isSpacePressed := isSpacePressed s |}.
Definition set_size (v : dpi.PhysicalSize) (s : State) : State :=
  {| surface := surface s; swapChain := swapChain s; device := device s;
     queue := queue s; config := config s; size := v;
     renderPipeline := renderPipeline s; vertexBuffer := vertexBuffer s;
     indexBuffer := indexBuffer s; numIndices := numIndices s;
     diffuseTexture := diffuseTexture s;
     diffuseBindGroup := diffuseBindGroup s;
     cartoonTexture := cartoonTexture s;
     cartoonBindGroup := cartoonBindGroup s;
     isSpacePressed := isSpacePressed s |}.
Definition set_renderPipeline (v : option handle) (s : State) : State :=
  {| surface := surface s; swapChain := swapChain s; device := device s;
     queue := queue s; config := config s; size := size s;
     renderPipeline := v; vertexBuffer := vertexBuffer s;
     indexBuffer := indexBuffer s; numIndices := numIndices s;
     diffuseTexture := diffuseTexture s;
     diffuseBindGroup := diffuseBindGroup s;
     cartoonTexture := cartoonTexture s;
     cartoonBindGroup := cartoonBindGroup s;
     isSpacePressed := isSpacePressed s |}.
Definition set_vertexBuffer (v : option handle) (s : State) : State :=
  {| surface := surface s; swapChain := swapChain s; device := device s;
     queue := queue s; config := config s; size := size s;
     renderPipeline := renderPipeline s; vertexBuffer := v;
     indexBuffer := indexBuffer s; numIndices := numIndices s;
     diffuseTexture := diffuseTexture s;
     diffuseBindGroup := diffuseBindGroup s;
     cartoonTexture := cartoonTexture s;
     cartoonBindGroup := cartoonBindGroup s;
     isSpacePressed := isSpacePressed s |}.
Definition set_indexBuffer (v : option handle) (s : State) : State :=
  {| surface := surface s; swapChain := swapChain s; device := device s;
     queue := queue s; config := config s; size := size s;
     renderPipeline := renderPipeline s; vertexBuffer := vertexBuffer s;
     indexBuffer := v; numIndices := numIndices s;
     diffuseTexture := diffuseTexture s;
     diffuseBindGroup := diffuseBindGroup s;
     cartoonTexture := cartoonTexture s;
     cartoonBindGroup := cartoonBindGroup s;
     isSpacePressed := isSpacePressed s |}.
Definition set_numIndices (v : N) (s : State) : State :=
  {| surface := surface s; swapChain := swapChain s; device := device s;
     queue := queue s; config := config s; size := size s;
     renderPipeline := renderPipeline s; vertexBuffer := vertexBuffer s;
     indexBuffer := indexBuffer s; numIndices := v;
     diffuseTexture := diffuseTexture s;
     diffuseBindGroup := diffuseBindGroup s;
     cartoonTexture := cartoonTexture s;
     cartoonBindGroup := cartoonBindGroup s;
     isSpacePressed := isSpacePressed s |}.
Definition set_diffuseTexture (v : option Texture) (s : State) : State :=
  {| surface := surface s; swapChain := swapChain s; device := device s;
     queue := queue s; config := config s; size := size s;
     renderPipeline := renderPipeline s; vertexBuffer := vertexBuffer s;
     indexBuffer := indexBuffer s; numIndices := numIndices s;
     diffuseTexture := v; diffuseBindGroup := diffuseBindGroup s;
     cartoonTexture := cartoonTexture s;
     cartoonBindGroup := cartoonBindGroup s;
     isSpacePressed := isSpacePressed s |}.
Definition set_diffuseBindGroup (v : option handle) (s : State) : State :=
  {| surface := surface s; swapChain := swapChain s; device := device s;
     queue := queue s; config := config s; size := size s;
     renderPipeline := renderPipeline s; vertexBuffer := vertexBuffer s;
     indexBuffer := indexBuffer s; numIndices := numIndices s;
     diffuseTexture := diffuseTexture s; diffuseBindGroup := v;
     cartoonTexture := cartoonTexture s;
     cartoonBindGroup := cartoonBindGroup s;
     isSpacePressed := isSpacePressed s |}.
Definition set_cartoonTexture (v : option Texture) (s : State) : State :=
  {| surface := surface s; swapChain := swapChain s; device := device s;
     queue := queue s; config := config s; size := size s;
     renderPipeline := renderPipeline s; vertexBuffer := vertexBuffer s;
     indexBuffer := indexBuffer s; numIndices := numIndices s;
     diffuseTexture := diffuseTexture s;
     diffuseBindGroup := diffuseBindGroup s; cartoonTexture := v;
     cartoonBindGroup := cartoonBindGroup s;
     isSpacePressed := isSpacePressed s |}.
Definition set_cartoonBindGroup (v : option handle) (s : State) : State :=
  {| surface := surface s; swapChain := swapChain s; device := device s;
     queue := queue s; config := config s; size := size s;
     renderPipeline := renderPipeline s; vertexBuffer := vertexBuffer s;
     indexBuffer := indexBuffer s; numIndices := numIndices s;
     diffuseTexture := diffuseTexture s;
     diffuseBindGroup := diffuseBindGroup s;
     cartoonTexture := cartoonTexture s; cartoonBindGroup := v;
     isSpacePressed := isSpacePressed s |}.
Definition set_isSpacePressed (v : bool) (s : State) : State :=
  {| surface := surface s; swapChain := swapChain s; device := device s;
     queue := queue s; config := config s; size := size s;
     renderPipeline := renderPipeline s; vertexBuffer := vertexBuffer s;
     indexBuffer := indexBuffer s; numIndices := numIndices s;
     diffuseTexture := diffuseTexture s;
     diffuseBindGroup := diffuseBindGroup s;
     cartoonTexture := cartoonTexture s;
     cartoonBindGroup := cartoonBindGroup s; isSpacePressed := v |}.

Section WithAssets.
Context `{Assets}.

(** [func (s *State) Destroy()] *)
Definition Destroy (s : State) : M State :=
  s <- release Buffer (indexBuffer s) (set_indexBuffer None s) s;
  s <- release Buffer (vertexBuffer s) (set_vertexBuffer None s) s;
  s <- release RenderPipeline (renderPipeline s) (set_renderPipeline None s) s;
  s <- release BindGroup (cartoonBindGroup s) (set_cartoonBindGroup None s) s;
  s <- release_texture (cartoonTexture s) (set_cartoonTexture None s) s;
  s <- release BindGroup (diffuseBindGroup s) (set_diffuseBindGroup None s) s;
  s <- release_texture (diffuseTexture s) (set_diffuseTexture None s) s;
  s <- release SwapChain (swapChain s) (set_swapChain None s) s;
  s <- forget (config s) (set_config None s) s;
  s <- forget (queue s) (set_queue None s) s;
  s <- release Device (device s) (set_device None s) s;
  release Surface (surface s) (set_surface None s) s.

(** The body of [InitState], between the registration of the first deferred
    closure and the return: it yields the values of the named results
    [(s, err)] at the return statement that is taken. *)
Definition InitState_body (window : display.Window) : M (State * error) :=
  let s := State_zero in
  let s := set_size (display.InnerSize window) s in
  instance <- CreateInstance;
  defer (Drop_ptr Instance instance) (
  surf <- Instance_CreateSurface instance;
  let s := set_surface surf s in
  '(adaper, err) <- Instance_RequestAdapter instance (surface s);
  check err returning s;
  defer (Drop_ptr Adapter adaper) (
  '(dev, err) <- Adapter_RequestDevice adaper;
  let s := set_device dev s in
  check err returning s;
  q <- Device_GetQueue (device s);
  let s := set_queue q s in
  format <- Surface_GetPreferredFormat (surface s) adaper;
  let cfg := {| Usage := TextureUsage_RenderAttachment;
                Format := format;
                Width := dpi.Width (size s);
                Height := dpi.Height (size s);
                PresentMode_ := PresentMode_Fifo;
                AlphaMode_ := AlphaMode_unset |} in
  let s := set_config (Some cfg) s in
  '(sc, err) <- Device_CreateSwapChain (device s) (surface s) cfg;
  let s := set_swapChain sc s in
  check err returning s;
  '(textureBindGroupLayout, err) <-
     Device_CreateBindGroupLayout (device s) "TextureBindGroupLayout";
  check err returning s;
  defer (Drop_ptr BindGroupLayout textureBindGroupLayout) (
  '(t, err) <- TextureFromPNGBytes (device s) (queue s) happyTreePng
                 "happy-tree.png";
  let s := set_diffuseTexture t s in
  check err returning s;
  dt <- deref (diffuseTexture s);
  '(bg, err) <- Device_CreateBindGroup (device s) "DiffuseBindGroup"
                  textureBindGroupLayout (view dt) (sampler dt);
  let s := set_diffuseBindGroup bg s in
  check err returning s;
  '(t, err) <- TextureFromPNGBytes (device s) (queue s) happyTreeCartoonPng
                 "happy-tree-cartoon.png";
  let s := set_cartoonTexture t s in
  check err returning s;
  ct <- deref (cartoonTexture s);
  '(bg, err) <- Device_CreateBindGroup (device s) "CartoonBindGroup"
                  textureBindGroupLayout (view ct) (sampler ct);
  let s := set_cartoonBindGroup bg s in
  check err returning s;
  '(shader, err) <- Device_CreateShaderModule (device s) "shader.wgsl";
  check err returning s;
  defer (Drop_ptr ShaderModule shader) (
  '(renderPipelineLayout, err) <-
     Device_CreatePipelineLayout (device s) "Render Pipeline Layout"
       [textureBindGroupLayout];
  check err returning s;
  defer (Drop_ptr PipelineLayout renderPipelineLayout) (
  c <- deref (config s);
  '(rp, err) <- Device_CreateRenderPipeline (device s) "Render Pipeline"
                  renderPipelineLayout shader (Format c);
  let s := set_renderPipeline rp s in
  check err returning s;
  '(vb, err) <- Device_CreateBufferInit (device s) "Vertex Buffer"
                  BufferUsage_Vertex (VertexData VERTICES_len);
  let s := set_vertexBuffer vb s in
  check err returning s;
  '(ib, err) <- Device_CreateBufferInit (device s) "Index Buffer"
                  BufferUsage_Index (IndexData INDICES);
  let s := set_indexBuffer ib s in
  check err returning s;
  let s := set_numIndices (N.of_nat (length INDICES)) s in
  ret (s, None)))))).

(** [func InitState(window display.Window) (s *State, err error)].  The
    closure deferred first runs last: if [err] is not nil it destroys [s]
    and resets the result pointer. *)
Definition InitState (window : display.Window) : M (option State * error) :=
  '(s, err) <- InitState_body window;
  match err with
  | Some _ => _ <- Destroy s; ret (None, err)
  | None => ret (Some s, err)
  end.

(** [func (s *State) Resize(newSize dpi.PhysicalSize[uint32])].  The entry
    into the function is noted in the log, so that calls can be counted. *)
Definition Resize (newSize : dpi.PhysicalSize) (s : State) : M State :=
  _ <- emit (EnteredResize newSize);
  if (0 <? dpi.Width newSize)%N && (0 <? dpi.Height newSize)%N then
    let s := set_size newSize s in
    c <- deref (config s);
    let s := set_config (Some (set_Width (dpi.Width newSize) c)) s in
    c <- deref (config s);
    let s := set_config (Some (set_Height (dpi.Height newSize) c)) s in
    _ <- match swapChain s with
         | Some h => Drop SwapChain h
         | None => ret tt
         end;
    c <- deref (config s);
    '(sc, err) <- Device_CreateSwapChain (device s) (surface s) c;
    let s := set_swapChain sc s in
    match err with
    | Some msg => panic (PanicError msg)
    | None => ret s
    end
  else ret s.

(** [func (s *State) Render() error] *)
Definition Render (s : State) : M error :=
  '(view, err) <- SwapChain_GetCurrentTextureView (swapChain s);
  match err with
  | Some _ => ret err
  | None =>
    defer (Drop_ptr TextureView view) (
    '(encoder, err) <- Device_CreateCommandEncoder (device s);
    match err with
    | Some _ => ret err
    | None =>
      renderPass <- CommandEncoder_BeginRenderPass encoder view
                      LoadOp_Clear clearColor StoreOp_Store;
      _ <- emit (SetPipeline renderPass (renderPipeline s));
      _ <- (if isSpacePressed s
            then emit (SetBindGroup renderPass 0 (cartoonBindGroup s))
            else emit (SetBindGroup renderPass 0 (diffuseBindGroup s)));
      _ <- emit (SetVertexBuffer renderPass 0 (vertexBuffer s));
      _ <- emit (SetIndexBuffer renderPass (indexBuffer s) IndexFormat_Uint16);
      _ <- emit (DrawIndexed renderPass (numIndices s) 1 0 0 0);
      _ <- emit (Ended renderPass);
      commands <- CommandEncoder_Finish encoder;
      _ <- Queue_Submit (queue s) [commands];
      _ <- SwapChain_Present (swapChain s);
      ret None
    end)
  end.

(** The callbacks that [main] registers on the window. *)
Definition onEvent (e : display.Event) (s : State) : M State :=
  match e with
  | display.KeyboardInput state _ virtualKeyCode =>
    if events.isSpace virtualKeyCode
    then ret (set_isSpacePressed (events.isPressed state) s)
    else ret s
  | display.Resized w h => Resize {| dpi.Width := w; dpi.Height := h |} s
  | display.CloseRequested => ret s
  end.

(** The switch of the loop of [main] on the text of a render error. *)
Definition recover (err : error) (s : State) : M State :=
  match err with
  | Some errstr =>
    _ <- emit (Printed errstr);
    if strings.Contains errstr "Lost" then Resize (size s) s
    else if strings.Contains errstr "Outdated" then Resize (size s) s
    else if strings.Contains errstr "Timeout" then ret s
    else panic (PanicError errstr)
  | None => ret s
  end.

(** One turn of the loop of [main] after a [Poll] that returned true. *)
Definition frame (s : State) : M State :=
  err <- Render s; recover err s.

(** [d.Poll()]: the pending events are handed to the callbacks in order.
    The close request destroys the display, after which [Poll] reports
    false. *)
Fixpoint Poll (evs : list display.Event) (s : State) : M (State * bool) :=
  match evs with
  | [] => ret (s, true)
  | display.CloseRequested :: _ => ret (s, false)
  | e :: rest => s <- onEvent e s; Poll rest s
  end.

(** The loop of [main], driven by what each [Poll] delivers; when nothing is
    left to deliver the host has closed the display. *)
Fixpoint mainLoop (ticks : list (list display.Event)) (s : State) : M State :=
  match ticks with
  | [] => ret s
  | evs :: ticks' =>
    '(s, alive) <- Poll evs s;
    if alive then (s <- frame s; mainLoop ticks' s) else ret s
  end.

End WithAssets.

(** The setters unfold under [simpl]. *)
Arguments set_surface v s /.
Arguments set_swapChain v s /.
Arguments set_device v s /.
Arguments set_queue v s /.
Arguments set_config v s /.
Arguments set_size v s /.
Arguments set_renderPipeline v s /.
Arguments set_vertexBuffer v s /.
Arguments set_indexBuffer v s /.
Arguments set_numIndices v s /.
Arguments set_diffuseTexture v s /.
Arguments set_diffuseBindGroup v s /.
Arguments set_cartoonTexture v s /.
Arguments set_cartoonBindGroup v s /.
Arguments set_isSpacePressed v s /.

End Part000.

(* ===================================================================== *)
(** ** learn-wgpu/beginner/tutorial4-challenge/main.go                    *)
(* ===================================================================== *)

Module Tutorial4Challenge.

Definition INDICES : list N := [0; 1; 4; 1; 2; 4; 2; 3; 4]%N.
Definition VERTICES_len : nat := 5.

Record State := {
  surface : option handle;
  swapChain : option handle;
  device : option handle;
  queue : option handle;
  config : option SwapChainDescriptor;
  size : dpi.PhysicalSize;
  renderPipeline : option handle;
  vertexBuffer : option handle;
  indexBuffer : option handle;
  numIndices : N;
  challengeVertexBuffer : option handle;
  challengeIndexBuffer : option handle;
  numChallengeIndices : N;
  useComplex : bool
}.

(** [&State{}] *)
Definition State_zero : State :=
  {| surface := None; swapChain := None; device := None; queue := None;
     config := None; size := {| dpi.Width := 0; dpi.Height := 0 |};
     renderPipeline := None; vertexBuffer := None; indexBuffer := None;
     numIndices := 0; challengeVertexBuffer := None;
     challengeIndexBuffer := None; numChallengeIndices := 0;
     useComplex := false |}.

Definition set_surface (v : option handle) (s : State) : State :=
  {| surface := v; swapChain := swapChain s; device := device s;
     queue := queue s; config := config s; size := size s;
     renderPipeline := renderPipeline s; vertexBuffer := vertexBuffer s;
     indexBuffer := indexBuffer s; numIndices := numIndices s;
     challengeVertexBuffer := challengeVertexBuffer s;
     challengeIndexBuffer := challengeIndexBuffer s;
     numChallengeIndices := numChallengeIndices s;
     useComplex := useComplex s |}.
Definition set_swapChain (v : option handle) (s : State) : State :=
  {| surface := surface s; swapChain := v; device := device s;
     queue := queue s; config := config s; size := size s;
     renderPipeline := renderPipeline s; vertexBuffer := vertexBuffer s;
     indexBuffer := indexBuffer s; numIndices := numIndices s;
     challengeVertexBuffer := challengeVertexBuffer s;
     challengeIndexBuffer := challengeIndexBuffer s;
     numChallengeIndices := numChallengeIndices s;
     useComplex := useComplex s |}.
Definition set_device (v : option handle) (s : State) : State :=
  {| surface := surface s; swapChain := swapChain s; device := v;
     queue := queue s; config := config s; size := size s;
     renderPipeline := renderPipeline s; vertexBuffer := vertexBuffer s;
     indexBuffer := indexBuffer s; numIndices := numIndices s;
     challengeVertexBuffer := challengeVertexBuffer s;
     challengeIndexBuffer := challengeIndexBuffer s;
     numChallengeIndices := numChallengeIndices s;
     useComplex := useComplex s |}.
Definition set_queue (v : option handle) (s : State) : State :=
  {| surface := surface s; swapChain := swapChain s; device := device s;
     queue := v; config := config s; size := size s;
     renderPipeline := renderPipeline s; vertexBuffer := vertexBuffer s;
     indexBuffer := indexBuffer s; numIndices := numIndices s;
     challengeVertexBuffer := challengeVertexBuffer s;
     challengeIndexBuffer := challengeIndexBuffer s;
     numChallengeIndices := numChallengeIndices s;
     useComplex := useComplex s |}.
Definition set_config (v : option SwapChainDescriptor) (s : State) : State :=
  {| surface := surface s; swapChain := swapChain s; device := device s;
     queue := queue s; config := v; size := size s;
     renderPipeline := renderPipeline s; vertexBuffer := vertexBuffer s;
     indexBuffer := indexBuffer s; numIndices := numIndices s;
     challengeVertexBuffer := challengeVertexBuffer s;
     challengeIndexBuffer := challengeIndexBuffer s;
     numChallengeIndices := numChallengeIndices s;
     useComplex := useComplex s |}.
Definition set_size (v : dpi.PhysicalSize) (s : State) : State :=
  {| surface := surface s; swapChain := swapChain s; device := device s;
     queue := queue s; config := config s; size := v;
     renderPipeline := renderPipeline s; vertexBuffer := vertexBuffer s;
     indexBuffer := indexBuffer s; numIndices := numIndices s;
     challengeVertexBuffer := challengeVertexBuffer s;
     challengeIndexBuffer := challengeIndexBuffer s;
     numChallengeIndices := numChallengeIndices s;
     useComplex := useComplex s |}.
Definition set_renderPipeline (v : option handle) (s : State) : State :=
  {| surface := surface s; swapChain := swapChain s; device := device s;
     queue := queue s; config := config s; size := size s;
     renderPipeline := v; vertexBuffer := vertexBuffer s;
     indexBuffer := indexBuffer s; numIndices := numIndices s;
     challengeVertexBuffer := challengeVertexBuffer s;
     challengeIndexBuffer := challengeIndexBuffer s;
     numChallengeIndices := numChallengeIndices s;
     useComplex := useComplex s |}.
Definition set_vertexBuffer (v : option handle) (s : State) : State :=
  {| surface := surface s; swapChain := swapChain s; device := device s;
     queue := queue s; config := config s; size := size s;
     renderPipeline := renderPipeline s; vertexBuffer := v;
     indexBuffer := indexBuffer s; numIndices := numIndices s;
     challengeVertexBuffer := challengeVertexBuffer s;
     challengeIndexBuffer := challengeIndexBuffer s;
     numChallengeIndices := numChallengeIndices s;
     useComplex := useComplex s |}.
Definition set_indexBuffer (v : option handle) (s : State) : State :=
  {| surface := surface s; swapChain := swapChain s; device := device s;
     queue := queue s; config := config s; size := size s;
     renderPipeline := renderPipeline s; vertexBuffer := vertexBuffer s;
     indexBuffer := v; numIndices := numIndices s;
     challengeVertexBuffer := challengeVertexBuffer s;
     challengeIndexBuffer := challengeIndexBuffer s;
     numChallengeIndices := numChallengeIndices s;
     useComplex := useComplex s |}.
Definition set_numIndices (v : N) (s : State) : State :=
  {| surface := surface s; swapChain := swapChain s; device := device s;
     queue := queue s; config := config s; size := size s;
     renderPipeline := renderPipeline s; vertexBuffer := vertexBuffer s;
     indexBuffer := indexBuffer s; numIndices := v;
     challengeVertexBuffer := challengeVertexBuffer s;
     challengeIndexBuffer := challengeIndexBuffer s;
     numChallengeIndices := numChallengeIndices s;
     useComplex := useComplex s |}.
Definition set_challengeVertexBuffer (v : option handle) (s : State) : State :=
  {| surface := surface s; swapChain := swapChain s; device := device s;
     queue := queue s; config := config s; size := size s;
     renderPipeline := renderPipeline s; vertexBuffer := vertexBuffer s;
     indexBuffer := indexBuffer s; numIndices := numIndices s;
     challengeVertexBuffer := v;
     challengeIndexBuffer := challengeIndexBuffer s;
     numChallengeIndices := numChallengeIndices s;
     useComplex := useComplex s |}.
Definition set_challengeIndexBuffer (v : option handle) (s : State) : State :=
  {| surface := surface s; swapChain := swapChain s; device := device s;
     queue := queue s; config := config s; size := size s;
     renderPipeline := renderPipeline s; vertexBuffer := vertexBuffer s;
     indexBuffer := indexBuffer s; numIndices := numIndices s;
     challengeVertexBuffer := challengeVertexBuffer s;
     challengeIndexBuffer := v;
     numChallengeIndices := numChallengeIndices s;
     useComplex := useComplex s |}.
Definition set_numChallengeIndices (v : N) (s : State) : State :=
  {| surface := surface s; swapChain := swapChain s; device := device s;
     queue := queue s; config := config s; size := size s;
     renderPipeline := renderPipeline s; vertexBuffer := vertexBuffer s;
     indexBuffer := indexBuffer s; numIndices := numIndices s;
     challengeVertexBuffer := challengeVertexBuffer s;
     challengeIndexBuffer := challengeIndexBuffer s;
     numChallengeIndices := v; useComplex := useComplex s |}.
Definition set_useComplex (v : bool) (s : State) : State :=
  {| surface := surface s; swapChain := swapChain s; device := device s;
     queue := queue s; config := config s; size := size s;
     renderPipeline := renderPipeline s; vertexBuffer := vertexBuffer s;
     indexBuffer := indexBuffer s; numIndices := numIndices s;
     challengeVertexBuffer := challengeVertexBuffer s;
     challengeIndexBuffer := challengeIndexBuffer s;
     numChallengeIndices := numChallengeIndices s; useComplex := v |}.

(** *** The procedural geometry of [InitState] *)

Definition numVertices : N := 100.
Definition numTriangles : N := numVertices - 2.

(** Addition on [uint16]. *)
Definition add16 (a b : N) : N := ((a + b) mod 2 ^ 16)%N.

(** How a Go loop over an array ends in the model. *)
Inductive filled :=
| Filled (a : list N)     (* the loop ended, this is the array *)
| OutOfRange              (* an index was outside the array: a panic *)
| OutOfFuel.              (* the model was given too few steps *)

(** [a[i] = v] on an array: in range, or a panic. *)
Definition store (a : list N) (i : nat) (v : N) : option (list N) :=
  if decide (i < length a)%nat then Some (<[i := v]> a) else None.

(** The loop
    [for i := uint16(1); i < numTriangles+1; i++ { ...; index += 3 }],
    started at the given [i] and [index]; [bound] is [numTriangles+1]. *)
Fixpoint fillIndices (fuel : nat) (bound i : N) (index : nat) (a : list N)
  : filled :=
  match fuel with
  | O => OutOfFuel
  | S fuel' =>
    if (i <? bound)%N then
      match store a index (add16 i 1) with
      | None => OutOfRange
      | Some a =>
        match store a (index + 1) i with
        | None => OutOfRange
        | Some a =>
          match store a (index + 2) 0%N with
          | None => OutOfRange
          | Some a => fillIndices fuel' bound (add16 i 1) (index + 3) a
          end
        end
      end
    else Filled a
  end.

(** [var challengeIndices [numTriangles * 3]uint16] after the loop.  The
    counter is a [uint16], so the loop has at most [2^16] turns before it
    either ends or repeats a state. *)
Definition challengeIndices : filled :=
  fillIndices (2 ^ 16) (numTriangles + 1) 1 0
    (repeat 0%N (N.to_nat (numTriangles * 3))).

(** [func (s *State) Destroy()] *)
Definition Destroy (s : State) : M State :=
  s <- release Buffer (challengeIndexBuffer s)
         (set_challengeIndexBuffer None s) s;
  s <- release Buffer (challengeVertexBuffer s)
         (set_challengeVertexBuffer None s) s;
  s <- release Buffer (indexBuffer s) (set_indexBuffer None s) s;
  s <- release Buffer (vertexBuffer s) (set_vertexBuffer None s) s;
  s <- release RenderPipeline (renderPipeline s) (set_renderPipeline None s) s;
  s <- release SwapChain (swapChain s) (set_swapChain None s) s;
  s <- forget (config s) (set_config None s) s;
  s <- forget (queue s) (set_queue None s) s;
  s <- release Device (device s) (set_device None s) s;
  release Surface (surface s) (set_surface None s) s.

(** The body of [InitState]; see [Part000.InitState_body]. *)
Definition InitState_body (window : display.Window) : M (State * error) :=
  let s := State_zero in
  let s := set_size (display.InnerSize window) s in
  instance <- CreateInstance;
  defer (Drop_ptr Instance instance) (
  surf <- Instance_CreateSurface instance;
  let s := set_surface surf s in
  '(adaper, err) <- Instance_RequestAdapter instance (surface s);
  check err returning s;
  defer (Drop_ptr Adapter adaper) (
  '(dev, err) <- Adapter_RequestDevice adaper;
  let s := set_device dev s in
  check err returning s;
  q <- Device_GetQueue (device s);
  let s := set_queue q s in
  _ <- deref (surface s);
  formats <- ask capFormats;
  presentModes <- ask capPresentModes;
  alphaModes <- ask capAlphaModes;
  format <- index0 formats;
  presentMode <- index0 presentModes;
  alphaMode <- index0 alphaModes;
  let cfg := {| Usage := TextureUsage_RenderAttachment;
                Format := format;
                Width := dpi.Width (size s);
                Height := dpi.Height (size s);
                PresentMode_ := presentMode;
                AlphaMode_ := alphaMode |} in
  let s := set_config (Some cfg) s in
  '(sc, err) <- Device_CreateSwapChain (device s) (surface s) cfg;
  let s := set_swapChain sc s in
  check err returning s;
  '(shader, err) <- Device_CreateShaderModule (device s) "shader.wgsl";
  check err returning s;
  defer (Drop_ptr ShaderModule shader) (
  '(renderPipelineLayout, err) <-
     Device_CreatePipelineLayout (device s) "Render Pipeline Layout" [];
  check err returning s;
  defer (Drop_ptr PipelineLayout renderPipelineLayout) (
  c <- deref (config s);
  '(rp, err) <- Device_CreateRenderPipeline (device s) "Render Pipeline"
                  renderPipelineLayout shader (Format c);
  let s := set_renderPipeline rp s in
  check err returning s;
  '(vb, err) <- Device_CreateBufferInit (device s) "Vertex Buffer"
                  BufferUsage_Vertex (VertexData VERTICES_len);
  let s := set_vertexBuffer vb s in
  check err returning s;
  '(ib, err) <- Device_CreateBufferInit (device s) "Index Buffer"
                  BufferUsage_Index (IndexData INDICES);
  let s := set_indexBuffer ib s in
  check err returning s;
  let s := set_numIndices (N.of_nat (length INDICES)) s in
  (* the circle: [numVertices] vertices of floating-point data *)
  let challengeVerts := VertexData (N.to_nat numVertices) in
  match challengeIndices with
  | OutOfRange | OutOfFuel => panic PanicIndex
  | Filled indices =>
    '(cvb, err) <- Device_CreateBufferInit (device s)
                     "Challenge Vertex Buffer"
                     BufferUsage_Vertex challengeVerts;
    let s := set_challengeVertexBuffer cvb s in
    check err returning s;
    '(cib, err) <- Device_CreateBufferInit (device s)
                     "Challenge Index Buffer"
                     BufferUsage_Index (IndexData indices);
    let s := set_challengeIndexBuffer cib s in
    check err returning s;
    ret (s, None)
  end)))).

(** [func InitState(window display.Window) (s *State, err error)] *)
Definition InitState (window : display.Window) : M (option State * error) :=
  '(s, err) <- InitState_body window;
  match err with
  | Some _ => _ <- Destroy s; ret (None, err)
  | None => ret (Some s, err)
  end.

(** [func (s *State) Resize(newSize dpi.PhysicalSize[uint32])] *)
Definition Resize (newSize : dpi.PhysicalSize) (s : State) : M State :=
  _ <- emit (EnteredResize newSize);
  if (0 <? dpi.Width newSize)%N && (0 <? dpi.Height newSize)%N then
    let s := set_size newSize s in
    c <- deref (config s);
    let s := set_config (Some (set_Width (dpi.Width newSize) c)) s in
    c <- deref (config s);
    let s := set_config (Some (set_Height (dpi.Height newSize) c)) s in
    _ <- match swapChain s with
         | Some h => Drop SwapChain h
         | None => ret tt
         end;
    c <- deref (config s);
    '(sc, err) <- Device_CreateSwapChain (device s) (surface s) c;
    let s := set_swapChain sc s in
    match err with
    | Some msg => panic (PanicError msg)
    | None => ret s
    end
  else ret s.

(** [func (s *State) Render() error] *)
Definition Render (s : State) : M error :=
  '(view, err) <- SwapChain_GetCurrentTextureView (swapChain s);
  match err with
  | Some _ => ret err
  | None =>
    defer (Drop_ptr TextureView view) (
    '(encoder, err) <- Device_CreateCommandEncoder (device s);
    match err with
    | Some _ => ret err
    | None =>
      renderPass <- CommandEncoder_BeginRenderPass encoder view
                      LoadOp_Clear clearColor StoreOp_Store;
      _ <- emit (SetPipeline renderPass (renderPipeline s));
      _ <- (if useComplex s then
              _ <- emit (SetVertexBuffer renderPass 0 (challengeVertexBuffer s));
              _ <- emit (SetIndexBuffer renderPass (challengeIndexBuffer s)
                           IndexFormat_Uint16);
              emit (DrawIndexed renderPass (numChallengeIndices s) 1 0 0 0)
            else
              _ <- emit (SetVertexBuffer renderPass 0 (vertexBuffer s));
              _ <- emit (SetIndexBuffer renderPass (indexBuffer s)
                           IndexFormat_Uint16);
              emit (DrawIndexed renderPass (numIndices s) 1 0 0 0));
      _ <- emit (Ended renderPass);
      commands <- CommandEncoder_Finish encoder;
      _ <- Queue_Submit (queue s) [commands];
      _ <- SwapChain_Present (swapChain s);
      ret None
    end)
  end.

(** The callbacks that [main] registers on the window. *)
Definition onEvent (e : display.Event) (s : State) : M State :=
  match e with
  | display.KeyboardInput state _ virtualKeyCode =>
    if events.isSpace virtualKeyCode
    then ret (set_useComplex (events.isPressed state) s)
    else ret s
  | display.Resized w h => Resize {| dpi.Width := w; dpi.Height := h |} s
  | display.CloseRequested => ret s
  end.

(** The switch of the loop of [main] on the text of a render error. *)
Definition recover (err : error) (s : State) : M State :=
  match err with
  | Some errstr =>
    _ <- emit (Printed errstr);
    if strings.Contains errstr "Lost" then Resize (size s) s
    else if strings.Contains errstr "Outdated" then Resize (size s) s
    else if strings.Contains errstr "Timeout" then ret s
    else panic (PanicError errstr)
  | None => ret s
  end.

(** One turn of the loop of [main] after a [Poll] that returned true. *)
Definition frame (s : State) : M State :=
  err <- Render s; recover err s.

(** [d.Poll()], as in [Part000.Poll]. *)
Fixpoint Poll (evs : list display.Event) (s : State) : M (State * bool) :=
  match evs with
  | [] => ret (s, true)
  | display.CloseRequested :: _ => ret (s, false)
  | e :: rest => s <- onEvent e s; Poll rest s
  end.

(** The loop of [main]. *)
Fixpoint mainLoop (ticks : list (list display.Event)) (s : State) : M State :=
  match ticks with
  | [] => ret s
  | evs :: ticks' =>
    '(s, alive) <- Poll evs s;
    if alive then (s <- frame s; mainLoop ticks' s) else ret s
  end.

(** The setters unfold under [simpl]. *)
Arguments set_surface v s /.
Arguments set_swapChain v s /.
Arguments set_device v s /.
Arguments set_queue v s /.
Arguments set_config v s /.
Arguments set_size v s /.
Arguments set_renderPipeline v s /.
Arguments set_vertexBuffer v s /.
Arguments set_indexBuffer v s /.
Arguments set_numIndices v s /.
Arguments set_challengeVertexBuffer v s /.
Arguments set_challengeIndexBuffer v s /.
Arguments set_numChallengeIndices v s /.
Arguments set_useComplex v s /.

End Tutorial4Challenge.

(* ===================================================================== *)
(** ** learn-wgpu/beginner/tutorial6-challenge/main.go                    *)
(* ===================================================================== *)

(** The package [internal/glm] and the arithmetic of [float32] are not part
    of the sources; the operations the camera code uses are parameters. *)
Class Glm := {
  float32 : Type;
  Vec3 : Type;
  Mat4 : Type;
  f32_of_uint32 : N -> float32;
  f32_lit : Z -> float32;
  f32_add : float32 -> float32 -> float32;
  f32_div : float32 -> float32 -> float32;
  f32_gt : float32 -> float32 -> bool;
  Vec3_Add : Vec3 -> Vec3 -> Vec3;
  Vec3_Sub : Vec3 -> Vec3 -> Vec3;
  Vec3_Cross : Vec3 -> Vec3 -> Vec3;
  Vec3_MulScalar : Vec3 -> float32 -> Vec3;
  Vec3_Normalize : Vec3 -> Vec3;
  Vec3_Magnitude : Vec3 -> float32;
  LookAtRH : Vec3 -> Vec3 -> Vec3 -> Mat4;
  Perspective : float32 -> float32 -> float32 -> float32 -> Mat4;
  Mat4_Mul4 : Mat4 -> Mat4 -> Mat4;
  Mat4FromAngleZ : float32 -> Mat4;
  DegToRad : float32 -> float32;
  OpenGlToWgpuMatrix : Mat4
}.

Module Tutorial6Challenge.
Section WithGlm.
Context `{Glm}.

Record Camera := {
  eye : Vec3;
  target : Vec3;
  up : Vec3;
  aspect : float32;
  fovYRad : float32;
  znear : float32;
  zfar : float32
}.

Definition set_eye (v : Vec3) (c : Camera) : Camera :=
  {| eye := v; target := target c; up := up c; aspect := aspect c;
     fovYRad := fovYRad c; znear := znear c; zfar := zfar c |}.

Definition set_aspect (v : float32) (c : Camera) : Camera :=
  {| eye := eye c; target := target c; up := up c; aspect := v;
     fovYRad := fovYRad c; znear := znear c; zfar := zfar c |}.

(** [func (c *Camera) buildViewProjectionMatrix() glm.Mat4[float32]] *)
Definition buildViewProjectionMatrix (c : Camera) : Mat4 :=
  let view := LookAtRH (eye c) (target c) (up c) in
  let proj := Perspective (fovYRad c) (aspect c) (znear c) (zfar c) in
  Mat4_Mul4 proj view.

Record CameraStaging := {
  camera : option Camera;
  modelRotationDeg : float32
}.

Record CameraUniform := { modelViewProj : Mat4 }.

(** [func (c *CameraStaging) UpdateCamera(cameraUniform *CameraUniform)] *)
Definition CameraStaging_UpdateCamera (c : CameraStaging)
    (cameraUniform : option CameraUniform) : M CameraUniform :=
  cam <- deref (camera c);
  _ <- deref cameraUniform;
  ret {| modelViewProj :=
           Mat4_Mul4
             (Mat4_Mul4 OpenGlToWgpuMatrix (buildViewProjectionMatrix cam))
             (Mat4FromAngleZ (DegToRad (modelRotationDeg c))) |}.

Record CameraController := {
  speed : float32;
  isForwardPressed : bool;
  isBackwardPressed : bool;
  isLeftPressed : bool;
  isRightPressed : bool
}.

Definition set_isForwardPressed (v : bool) (c : CameraController) :=
  {| speed := speed c; isForwardPressed := v;
     isBackwardPressed := isBackwardPressed c;
     isLeftPressed := isLeftPressed c; isRightPressed := isRightPressed c |}.

Definition set_isBackwardPressed (v : bool) (c : CameraController) :=
  {| speed := speed c; isForwardPressed := isForwardPressed c;
     isBackwardPressed := v;
     isLeftPressed := isLeftPressed c; isRightPressed := isRightPressed c |}.

Definition set_isLeftPressed (v : bool) (c : CameraController) :=
  {| speed := speed c; isForwardPressed := isForwardPressed c;
     isBackwardPressed := isBackwardPressed c;
     isLeftPressed := v; isRightPressed := isRightPressed c |}.

Definition set_isRightPressed (v : bool) (c : CameraController) :=
  {| speed := speed c; isForwardPressed := isForwardPressed c;
     isBackwardPressed := isBackwardPressed c;
     isLeftPressed := isLeftPressed c; isRightPressed := v |}.

(** [func (c *CameraController) UpdateCamera(camera *Camera)], on a camera
    and a controller that are not nil. *)
Definition CameraController_UpdateCamera (c : CameraController)
    (camera : Camera) : Camera :=
  let forward := Vec3_Sub (target camera) (eye camera) in
  let forwardNorm := Vec3_Normalize forward in
  let forwardMag := Vec3_Magnitude forward in
  let camera :=
    if isForwardPressed c && f32_gt forwardMag (speed c)
    then set_eye (Vec3_Add (eye camera) (Vec3_MulScalar forwardNorm (speed c)))
           camera
    else camera in
  let camera :=
    if isBackwardPressed c
    then set_eye (Vec3_Sub (eye camera) (Vec3_MulScalar forwardNorm (speed c)))
           camera
    else camera in
  let right := Vec3_Cross forwardNorm (up camera) in
  let forward := Vec3_Sub (target camera) (eye camera) in
  let forwardMag := Vec3_Magnitude forward in
  let camera :=
    if isRightPressed c
    then set_eye
           (Vec3_Sub (target camera)
              (Vec3_MulScalar
                 (Vec3_Normalize
                    (Vec3_Add forward (Vec3_MulScalar right (speed c))))
                 forwardMag))
           camera
    else camera in
  let camera :=
    if isLeftPressed c
    then set_eye
           (Vec3_Sub (target camera)
              (Vec3_MulScalar
                 (Vec3_Normalize
                    (Vec3_Sub forward (Vec3_MulScalar right (speed c))))
                 forwardMag))
           camera
    else camera in
  camera.

Record State := {
  surface : option handle;
  swapChain : option handle;
  device : option handle;
  queue : option handle;
  config : option SwapChainDescriptor;
  size : dpi.PhysicalSize;
  renderPipeline : option handle;
  vertexBuffer : option handle;
  indexBuffer : option handle;
  numIndices : N;
  diffuseTexture : option Texture;
  diffuseBindGroup : option handle;
  cameraController : option CameraController;
  cameraUniform : option CameraUniform;
  cameraBuffer : option handle;
  cameraBindGroup : option handle;
  cameraStaging : option CameraStaging
}.

Definition set_surface (v : option handle) (s : State) : State :=
  {| surface := v; swapChain := swapChain s; device := device s;
     queue := queue s; config := config s; size := size s;
     renderPipeline := renderPipeline s; vertexBuffer := vertexBuffer s;
     indexBuffer := indexBuffer s; numIndices := numIndices s;
     diffuseTexture := diffuseTexture s;
     diffuseBindGroup := diffuseBindGroup s;
     cameraController := cameraController s;
     cameraUniform := cameraUniform s; cameraBuffer := cameraBuffer s;
     cameraBindGroup := cameraBindGroup s;
     cameraStaging := cameraStaging s |}.
Definition set_swapChain (v : option handle) (s : State) : State :=
  {| surface := surface s; swapChain := v; device := device s;
     queue := queue s; config := config s; size := size s;
     renderPipeline := renderPipeline s; vertexBuffer := vertexBuffer s;
     indexBuffer := indexBuffer s; numIndices := numIndices s;
     diffuseTexture := diffuseTexture s;
     diffuseBindGroup := diffuseBindGroup s;
     cameraController := cameraController s;
     cameraUniform := cameraUniform s; cameraBuffer := cameraBuffer s;
     cameraBindGroup := cameraBindGroup s;
     cameraStaging := cameraStaging s |}.
Definition set_device (v : option handle) (s : State) : State :=
  {| surface := surface s; swapChain := swapChain s; device := v;
     queue := queue s; config := config s; size := size s;
     renderPipeline := renderPipeline s; vertexBuffer := vertexBuffer s;
     indexBuffer := indexBuffer s; numIndices := numIndices s;
     diffuseTexture := diffuseTexture s;
     diffuseBindGroup := diffuseBindGroup s;
     cameraController := cameraController s;
     cameraUniform := cameraUniform s; cameraBuffer := cameraBuffer s;
     cameraBindGroup := cameraBindGroup s;
     cameraStaging := cameraStaging s |}.
Definition set_queue (v : option handle) (s : State) : State :=
  {| surface := surface s; swapChain := swapChain s; device := device s;
     queue := v; config := config s; size := size s;
     renderPipeline := renderPipeline s; vertexBuffer := vertexBuffer s;
     indexBuffer := indexBuffer s; numIndices := numIndices s;
     diffuseTexture := diffuseTexture s;
     diffuseBindGroup := diffuseBindGroup s;
     cameraController := cameraController s;
     cameraUniform := cameraUniform s; cameraBuffer := cameraBuffer s;
     cameraBindGroup := cameraBindGroup s;
     cameraStaging := cameraStaging s |}.
Definition set_config (v : option SwapChainDescriptor) (s : State) : State :=
  {| surface := surface s; swapChain := swapChain s; device := device s;
     queue := queue s; config := v; size := size s;
     renderPipeline := renderPipeline s; vertexBuffer := vertexBuffer s;
     indexBuffer := indexBuffer s; numIndices := numIndices s;
     diffuseTexture := diffuseTexture s;
     diffuseBindGroup := diffuseBindGroup s;
     cameraController := cameraController s;
     cameraUniform := cameraUniform s; cameraBuffer := cameraBuffer s;
     cameraBindGroup := cameraBindGroup s;
     cameraStaging := cameraStaging s |}.
Definition set_size (v : dpi.PhysicalSize) (s : State) : State :=
  {| surface := surface s; swapChain := swapChain s; device := device s;
     queue := queue s; config := config s; size := v;
     renderPipeline := renderPipeline s; vertexBuffer := vertexBuffer s;
     indexBuffer := indexBuffer s; numIndices := numIndices s;
     diffuseTexture := diffuseTexture s;
     diffuseBindGroup := diffuseBindGroup s;
     cameraController := cameraController s;
     cameraUniform := cameraUniform s; cameraBuffer := cameraBuffer s;
     cameraBindGroup := cameraBindGroup s;
     cameraStaging := cameraStaging s |}.
Definition set_renderPipeline (v : option handle) (s : State) : State :=
  {| surface := surface s; swapChain := swapChain s; device := device s;
     queue := queue s; config := config s; size := size s;
     renderPipeline := v; vertexBuffer := vertexBuffer s;
     indexBuffer := indexBuffer s; numIndices := numIndices s;
     diffuseTexture := diffuseTexture s;
     diffuseBindGroup := diffuseBindGroup s;
     cameraController := cameraController s;
     cameraUniform := cameraUniform s; cameraBuffer := cameraBuffer s;
     cameraBindGroup := cameraBindGroup s;
     cameraStaging := cameraStaging s |}.
Definition set_vertexBuffer (v : option handle) (s : State) : State :=
  {| surface := surface s; swapChain := swapChain s; device := device s;
     queue := queue s; config := config s; size := size s;
     renderPipeline := renderPipeline s; vertexBuffer := v;
     indexBuffer := indexBuffer s; numIndices := numIndices s;
     diffuseTexture := diffuseTexture s;
     diffuseBindGroup := diffuseBindGroup s;
     cameraController := cameraController s;
     cameraUniform := cameraUniform s; cameraBuffer := cameraBuffer s;
     cameraBindGroup := cameraBindGroup s;
     cameraStaging := cameraStaging s |}.
Definition set_indexBuffer (v : option handle) (s : State) : State :=
  {| surface := surface s; swapChain := swapChain s; device := device s;
     queue := queue s; config := config s; size := size s;
     renderPipeline := renderPipeline s; vertexBuffer := vertexBuffer s;
     indexBuffer := v; numIndices := numIndices s;
     diffuseTexture := diffuseTexture s;
     diffuseBindGroup := diffuseBindGroup s;
     cameraController := cameraController s;
     cameraUniform := cameraUniform s; cameraBuffer := cameraBuffer s;
     cameraBindGroup := cameraBindGroup s;
     cameraStaging := cameraStaging s |}.
Definition set_numIndices (v : N) (s : State) : State :=
  {| surface := surface s; swapChain := swapChain s; device := device s;
     queue := queue s; config := config s; size := size s;
     renderPipeline := renderPipeline s; vertexBuffer := vertexBuffer s;
     indexBuffer := indexBuffer s; numIndices := v;
     diffuseTexture := diffuseTexture s;
     diffuseBindGroup := diffuseBindGroup s;
     cameraController := cameraController s;
     cameraUniform := cameraUniform s; cameraBuffer := cameraBuffer s;
     cameraBindGroup := cameraBindGroup s;
     cameraStaging := cameraStaging s |}.
Definition set_diffuseTexture (v : option Texture) (s : State) : State :=
  {| surface := surface s; swapChain := swapChain s; device := device s;
     queue := queue s; config := config s; size := size s;
     renderPipeline := renderPipeline s; vertexBuffer := vertexBuffer s;
     indexBuffer := indexBuffer s; numIndices := numIndices s;
     diffuseTexture := v; diffuseBindGroup := diffuseBindGroup s;
     cameraController := cameraController s;
     cameraUniform := cameraUniform s; cameraBuffer := cameraBuffer s;
     cameraBindGroup := cameraBindGroup s;
     cameraStaging := cameraStaging s |}.
Definition set_diffuseBindGroup (v : option handle) (s : State) : State :=
  {| surface := surface s; swapChain := swapChain s; device := device s;
     queue := queue s; config := config s; size := size s;
     renderPipeline := renderPipeline s; vertexBuffer := vertexBuffer s;
     indexBuffer := indexBuffer s; numIndices := numIndices s;
     diffuseTexture := diffuseTexture s; diffuseBindGroup := v;
     cameraController := cameraController s;
     cameraUniform := cameraUniform s; cameraBuffer := cameraBuffer s;
     cameraBindGroup := cameraBindGroup s;
     cameraStaging := cameraStaging s |}.
Definition set_cameraController (v : option CameraController) (s : State) : State :=
  {| surface := surface s; swapChain := swapChain s; device := device s;
     queue := queue s; config := config s; size := size s;
     renderPipeline := renderPipeline s; vertexBuffer := vertexBuffer s;
     indexBuffer := indexBuffer s; numIndices := numIndices s;
     diffuseTexture := diffuseTexture s;
     diffuseBindGroup := diffuseBindGroup s; cameraController := v;
     cameraUniform := cameraUniform s; cameraBuffer := cameraBuffer s;
     cameraBindGroup := cameraBindGroup s;
     cameraStaging := cameraStaging s |}.
Definition set_cameraUniform (v : option CameraUniform) (s : State) : State :=
  {| surface := surface s; swapChain := swapChain s; device := device s;
     queue := queue s; config := config s; size := size s;
     renderPipeline := renderPipeline s; vertexBuffer := vertexBuffer s;
     indexBuffer := indexBuffer s; numIndices := numIndices s;
     diffuseTexture := diffuseTexture s;
     diffuseBindGroup := diffuseBindGroup s;
     cameraController := cameraController s; cameraUniform := v;
     cameraBuffer := cameraBuffer s;
     cameraBindGroup := cameraBindGroup s;
     cameraStaging := cameraStaging s |}.
Definition set_cameraBuffer (v : option handle) (s : State) : State :=
  {| surface := surface s; swapChain := swapChain s; device := device s;
     queue := queue s; config := config s; size := size s;
     renderPipeline := renderPipeline s; vertexBuffer := vertexBuffer s;
     indexBuffer := indexBuffer s; numIndices := numIndices s;
     diffuseTexture := diffuseTexture s;
     diffuseBindGroup := diffuseBindGroup s;
     cameraController := cameraController s;
     cameraUniform := cameraUniform s; cameraBuffer := v;
     cameraBindGroup := cameraBindGroup s;
     cameraStaging := cameraStaging s |}.
Definition set_cameraBindGroup (v : option handle) (s : State) : State :=
  {| surface := surface s; swapChain := swapChain s; device := device s;
     queue := queue s; config := config s; size := size s;
     renderPipeline := renderPipeline s; vertexBuffer := vertexBuffer s;
     indexBuffer := indexBuffer s; numIndices := numIndices s;
     diffuseTexture := diffuseTexture s;
     diffuseBindGroup := diffuseBindGroup s;
     cameraController := cameraController s;
     cameraUniform := cameraUniform s; cameraBuffer := cameraBuffer s;
     cameraBindGroup := v; cameraStaging := cameraStaging s |}.
Definition set_cameraStaging (v : option CameraStaging) (s : State) : State :=
  {| surface := surface s; swapChain := swapChain s; device := device s;
     queue := queue s; config := config s; size := size s;
     renderPipeline := renderPipeline s; vertexBuffer := vertexBuffer s;
     indexBuffer := indexBuffer s; numIndices := numIndices s;
     diffuseTexture := diffuseTexture s;
     diffuseBindGroup := diffuseBindGroup s;
     cameraController := cameraController s;
     cameraUniform := cameraUniform s; cameraBuffer := cameraBuffer s;
     cameraBindGroup := cameraBindGroup s; cameraStaging := v |}.

(** [func (s *State) Update()] *)
Definition Update (s : State) : M State :=
  staging <- deref (cameraStaging s);
  cam <- deref (camera staging);
  ctrl <- deref (cameraController s);
  let cam := CameraController_UpdateCamera ctrl cam in
  let staging := {| camera := Some cam;
                    modelRotationDeg := modelRotationDeg staging |} in
  let s := set_cameraStaging (Some staging) s in
  staging <- deref (cameraStaging s);
  let staging :=
    {| camera := camera staging;
       modelRotationDeg := f32_add (modelRotationDeg staging) (f32_lit 2) |} in
  let s := set_cameraStaging (Some staging) s in
  staging <- deref (cameraStaging s);
  u <- CameraStaging_UpdateCamera staging (cameraUniform s);
  let s := set_cameraUniform (Some u) s in
  _ <- deref (cameraUniform s);
  _ <- Queue_WriteBuffer (queue s) (cameraBuffer s) 0;
  ret s.

(** [func (s *State) Resize(newSize dpi.PhysicalSize[uint32])] *)
Definition Resize (newSize : dpi.PhysicalSize) (s : State) : M State :=
  _ <- emit (EnteredResize newSize);
  if (0 <? dpi.Width newSize)%N && (0 <? dpi.Height newSize)%N then
    let s := set_size newSize s in
    c <- deref (config s);
    let s := set_config (Some (set_Width (dpi.Width newSize) c)) s in
    c <- deref (config s);
    let s := set_config (Some (set_Height (dpi.Height newSize) c)) s in
    _ <- match swapChain s with
         | Some h => Drop SwapChain h
         | None => ret tt
         end;
    c <- deref (config s);
    '(sc, err) <- Device_CreateSwapChain (device s) (surface s) c;
    let s := set_swapChain sc s in
    match err with
    | Some msg => panic (PanicError msg)
    | None =>
      staging <- deref (cameraStaging s);
      cam <- deref (camera staging);
      let cam := set_aspect (f32_div (f32_of_uint32 (dpi.Width newSize))
                                     (f32_of_uint32 (dpi.Height newSize)))
                   cam in
      ret (set_cameraStaging
             (Some {| camera := Some cam;
                      modelRotationDeg := modelRotationDeg staging |}) s)
    end
  else ret s.

(** [func (s *State) Render() error] *)
Definition Render (s : State) : M error :=
  '(view, err) <- SwapChain_GetCurrentTextureView (swapChain s);
  match err with
  | Some _ => ret err
  | None =>
    defer (Drop_ptr TextureView view) (
    '(encoder, err) <- Device_CreateCommandEncoder (device s);
    match err with
    | Some _ => ret err
    | None =>
      renderPass <- CommandEncoder_BeginRenderPass encoder view
                      LoadOp_Clear clearColor StoreOp_Store;
      _ <- emit (SetPipeline renderPass (renderPipeline s));
      _ <- emit (SetBindGroup renderPass 0 (diffuseBindGroup s));
      _ <- emit (SetBindGroup renderPass 1 (cameraBindGroup s));
      _ <- emit (SetVertexBuffer renderPass 0 (vertexBuffer s));
      _ <- emit (SetIndexBuffer renderPass (indexBuffer s) IndexFormat_Uint16);
      _ <- emit (DrawIndexed renderPass (numIndices s) 1 0 0 0);
      _ <- emit (Ended renderPass);
      commands <- CommandEncoder_Finish encoder;
      _ <- Queue_Submit (queue s) [commands];
      _ <- SwapChain_Present (swapChain s);
      ret None
    end)
  end.

(** [func (s *State) Destroy()] *)
Definition Destroy (s : State) : M State :=
  s <- release Buffer (indexBuffer s) (set_indexBuffer None s) s;
  s <- release Buffer (vertexBuffer s) (set_vertexBuffer None s) s;
  s <- release RenderPipeline (renderPipeline s) (set_renderPipeline None s) s;
  s <- release BindGroup (cameraBindGroup s) (set_cameraBindGroup None s) s;
  s <- release Buffer (cameraBuffer s) (set_cameraBuffer None s) s;
  s <- forget (cameraStaging s) (set_cameraStaging None s) s;
  s <- forget (cameraUniform s) (set_cameraUniform None s) s;
  s <- forget (cameraController s) (set_cameraController None s) s;
  s <- release BindGroup (diffuseBindGroup s) (set_diffuseBindGroup None s) s;
  s <- release_texture (diffuseTexture s) (set_diffuseTexture None s) s;
  s <- release SwapChain (swapChain s) (set_swapChain None s) s;
  s <- forget (config s) (set_config None s) s;
  s <- forget (queue s) (set_queue None s) s;
  s <- release Device (device s) (set_device None s) s;
  release Surface (surface s) (set_surface None s) s.

(** The callbacks that [main] registers on the window. *)
Definition onEvent (e : display.Event) (s : State) : M State :=
  match e with
  | display.Resized w h => Resize {| dpi.Width := w; dpi.Height := h |} s
  | display.KeyboardInput state _ virtualKeyCode =>
    let isPressed := events.isPressed state in
    match virtualKeyCode with
    | events.VirtualKeyW | events.VirtualKeyUp =>
      c <- deref (cameraController s);
      ret (set_cameraController (Some (set_isForwardPressed isPressed c)) s)
    | events.VirtualKeyA | events.VirtualKeyLeft =>
      c <- deref (cameraController s);
      ret (set_cameraController (Some (set_isLeftPressed isPressed c)) s)
    | events.VirtualKeyS | events.VirtualKeyDown =>
      c <- deref (cameraController s);
      ret (set_cameraController (Some (set_isBackwardPressed isPressed c)) s)
    | events.VirtualKeyD | events.VirtualKeyRight =>
      c <- deref (cameraController s);
      ret (set_cameraController (Some (set_isRightPressed isPressed c)) s)
    | _ => ret s
    end
  | display.CloseRequested => ret s
  end.

(** The switch of the loop of [main] on the text of a render error. *)
Definition recover (err : error) (s : State) : M State :=
  match err with
  | Some errstr =>
    _ <- emit (Printed errstr);
    if strings.Contains errstr "Lost" then Resize (size s) s
    else if strings.Contains errstr "Outdated" then Resize (size s) s
    else if strings.Contains errstr "Timeout" then ret s
    else panic (PanicError errstr)
  | None => ret s
  end.

(** One turn of the loop of [main] after a [Poll] that returned true. *)
Definition frame (s : State) : M State :=
  s <- Update s; err <- Render s; recover err s.

(** [d.Poll()], as in [Part000.Poll]. *)
Fixpoint Poll (evs : list display.Event) (s : State) : M (State * bool) :=
  match evs with
  | [] => ret (s, true)
  | display.CloseRequested :: _ => ret (s, false)
  | e :: rest => s <- onEvent e s; Poll rest s
  end.

(** The loop of [main]. *)
Fixpoint mainLoop (ticks : list (list display.Event)) (s : State) : M State :=
  match ticks with
  | [] => ret s
  | evs :: ticks' =>
    '(s, alive) <- Poll evs s;
    if alive then (s <- frame s; mainLoop ticks' s) else ret s
  end.

End WithGlm.

(** The setters unfold under [simpl]. *)
Arguments set_eye {_} v _ /.
Arguments set_aspect {_} v _ /.
Arguments set_isForwardPressed {_} v _ /.
Arguments set_isBackwardPressed {_} v _ /.
Arguments set_isLeftPressed {_} v _ /.
Arguments set_isRightPressed {_} v _ /.
Arguments set_surface {_} v _ /.
Arguments set_swapChain {_} v _ /.
Arguments set_device {_} v _ /.
Arguments set_queue {_} v _ /.
Arguments set_config {_} v _ /.
Arguments set_size {_} v _ /.
Arguments set_renderPipeline {_} v _ /.
Arguments set_vertexBuffer {_} v _ /.
Arguments set_indexBuffer {_} v _ /.
Arguments set_numIndices {_} v _ /.
Arguments set_diffuseTexture {_} v _ /.
Arguments set_diffuseBindGroup {_} v _ /.
Arguments set_cameraController {_} v _ /.
Arguments set_cameraUniform {_} v _ /.
Arguments set_cameraBuffer {_} v _ /.
Arguments set_cameraBindGroup {_} v _ /.
Arguments set_cameraStaging {_} v _ /.

End Tutorial6Challenge.

(* ===================================================================== *)
(** ** Observations on worlds and logs                                    *)
(* ===================================================================== *)

(** The world in which a call ends, whether it returned or panicked. *)
Definition final {A} (o : outcome A) : World :=
  match o with
  | Ret _ g => g
  | Panic _ g => g
  end.

(** The reply that the next fallible call will get, and the world once it
    has been consumed. *)
Definition next_reply (g : World) : option string :=
  match replies g with
  | [] => None
  | r :: _ => r
  end.

Definition pop_reply (g : World) : World := with_replies (tl (replies g)) g.

(** The world after the events [d] have been logged. *)
Definition logged (d : list event) (g : World) : World :=
  with_log (log g ++ d) g.

(** The world after an object has been handed out. *)
Definition bumped (g : World) : World := with_fresh (S (fresh g)) g.

Fixpoint count_if (p : event -> bool) (l : list event) : nat :=
  match l with
  | [] => 0
  | e :: l' => (if p e then 1 else 0) + count_if p l'
  end.

Definition isEnteredResize (e : event) : bool :=
  match e with EnteredResize _ => true | _ => false end.

Definition isSwapChainCreation (e : event) : bool :=
  match e with Created SwapChain _ _ => true | _ => false end.

Definition isRenderPass (e : event) : bool :=
  match e with BeganRenderPass _ _ _ => true | _ => false end.

Definition isClearingPass (e : event) : bool :=
  match e with
  | BeganRenderPass _ _ [a] =>
    match LoadOp_ a with LoadOp_Clear => true | LoadOp_Load => false end
  | _ => false
  end.

Definition isSubmitOfOne (e : event) : bool :=
  match e with Submitted _ [_] => true | _ => false end.

Definition isSubmit (e : event) : bool :=
  match e with Submitted _ _ => true | _ => false end.

Definition isPresent (e : event) : bool :=
  match e with Presented _ => true | _ => false end.

Definition isDrop (e : event) : bool :=
  match e with Dropped _ _ => true | _ => false end.

Definition isDraw (e : event) : bool :=
  match e with DrawIndexed _ _ _ _ _ _ => true | _ => false end.

Definition isPrinted (e : event) : bool :=
  match e with Printed _ => true | _ => false end.

Definition kind_eqb (a b : kind) : bool :=
  match a, b with
  | Instance, Instance | Surface, Surface | Adapter, Adapter
  | Device, Device | SwapChain, SwapChain
  | BindGroupLayout, BindGroupLayout | BindGroup, BindGroup
  | ShaderModule, ShaderModule | PipelineLayout, PipelineLayout
  | RenderPipeline, RenderPipeline | Buffer, Buffer
  | wgpu.Texture, wgpu.Texture | TextureView, TextureView
  | Sampler, Sampler | CommandEncoder, CommandEncoder
  | RenderPassEncoder, RenderPassEncoder | CommandBuffer, CommandBuffer => true
  | _, _ => false
  end.

Definition isDropOf (k : kind) (h : handle) (e : event) : bool :=
  match e with
  | Dropped k' h' => kind_eqb k k' && Nat.eqb h h'
  | _ => false
  end.

(** Every object created within [d] is released within [d]. *)
Definition all_released (d : list event) : bool :=
  forallb (fun e => match e with
                    | Created k h _ => existsb (isDropOf k h) d
                    | _ => true
                    end) d.

(** [olist f p]: the event of a guarded release, if the pointer is set. *)
Definition olist {A} (f : A -> event) (p : option A) : list event :=
  match p with
  | Some a => [f a]
  | None => []
  end.

(** *** What a destroy chain releases, and what it leaves *)

Definition Texture_drops (t : Texture) : list event :=
  olist (Dropped Sampler) (sampler t)
  ++ olist (Dropped TextureView) (view t)
  ++ olist (Dropped wgpu.Texture) (texture t).

Definition otexture_drops (p : option Texture) : list event :=
  match p with
  | Some t => Texture_drops t
  | None => []
  end.

Definition Part000_drops (s : Part000.State) : list event :=
  olist (Dropped Buffer) (Part000.indexBuffer s)
  ++ olist (Dropped Buffer) (Part000.vertexBuffer s)
  ++ olist (Dropped RenderPipeline) (Part000.renderPipeline s)
  ++ olist (Dropped BindGroup) (Part000.cartoonBindGroup s)
  ++ otexture_drops (Part000.cartoonTexture s)
  ++ olist (Dropped BindGroup) (Part000.diffuseBindGroup s)
  ++ otexture_drops (Part000.diffuseTexture s)
  ++ olist (Dropped SwapChain) (Part000.swapChain s)
  ++ olist (Dropped Device) (Part000.device s)
  ++ olist (Dropped Surface) (Part000.surface s).

(** The state with every pointer nil and the plain values kept. *)
Definition Part000_cleared (s : Part000.State) : Part000.State :=
  {| Part000.surface := None; Part000.swapChain := None;
     Part000.device := None; Part000.queue := None;
     Part000.config := None; Part000.size := Part000.size s;
     Part000.renderPipeline := None; Part000.vertexBuffer := None;
     Part000.indexBuffer := None; Part000.numIndices := Part000.numIndices s;
     Part000.diffuseTexture := None; Part000.diffuseBindGroup := None;
     Part000.cartoonTexture := None; Part000.cartoonBindGroup := None;
     Part000.isSpacePressed := Part000.isSpacePressed s |}.

Definition Tutorial6_drops `{Glm} (s : Tutorial6Challenge.State) : list event :=
  olist (Dropped Buffer) (Tutorial6Challenge.indexBuffer s)
  ++ olist (Dropped Buffer) (Tutorial6Challenge.vertexBuffer s)
  ++ olist (Dropped RenderPipeline) (Tutorial6Challenge.renderPipeline s)
  ++ olist (Dropped BindGroup) (Tutorial6Challenge.cameraBindGroup s)
  ++ olist (Dropped Buffer) (Tutorial6Challenge.cameraBuffer s)
  ++ olist (Dropped BindGroup) (Tutorial6Challenge.diffuseBindGroup s)
  ++ otexture_drops (Tutorial6Challenge.diffuseTexture s)
  ++ olist (Dropped SwapChain) (Tutorial6Challenge.swapChain s)
  ++ olist (Dropped Device) (Tutorial6Challenge.device s)
  ++ olist (Dropped Surface) (Tutorial6Challenge.surface s).

Definition Tutorial6_cleared `{Glm} (s : Tutorial6Challenge.State)
  : Tutorial6Challenge.State :=
  {| Tutorial6Challenge.surface := None;
     Tutorial6Challenge.swapChain := None;
     Tutorial6Challenge.device := None;
     Tutorial6Challenge.queue := None;
     Tutorial6Challenge.config := None;
     Tutorial6Challenge.size := Tutorial6Challenge.size s;
     Tutorial6Challenge.renderPipeline := None;
     Tutorial6Challenge.vertexBuffer := None;
     Tutorial6Challenge.indexBuffer := None;
     Tutorial6Challenge.numIndices := Tutorial6Challenge.numIndices s;
     Tutorial6Challenge.diffuseTexture := None;
     Tutorial6Challenge.diffuseBindGroup := None;
     Tutorial6Challenge.cameraController := None;
     Tutorial6Challenge.cameraUniform := None;
     Tutorial6Challenge.cameraBuffer := None;
     Tutorial6Challenge.cameraBindGroup := None;
     Tutorial6Challenge.cameraStaging := None |}.

(** The swap-chain descriptor after [Resize] has stored the new size. *)
Definition resized (newSize : dpi.PhysicalSize) (c : SwapChainDescriptor)
  : SwapChainDescriptor :=
  set_Height (dpi.Height newSize) (set_Width (dpi.Width newSize) c).

(** What [Resize] logs before it asks for the new swap chain. *)
Definition resize_prefix (newSize : dpi.PhysicalSize) (old : option handle)
  : list event :=
  EnteredResize newSize :: olist (Dropped SwapChain) old.

(** An instance of the camera arithmetic in which every number is the same
    value; it only serves to run the code on examples. *)
Definition trivialGlm : Glm :=
  {| float32 := unit; Vec3 := unit; Mat4 := unit;
     f32_of_uint32 := fun _ => tt; f32_lit := fun _ => tt;
     f32_add := fun _ _ => tt; f32_div := fun _ _ => tt;
     f32_gt := fun _ _ => false;
     Vec3_Add := fun _ _ => tt; Vec3_Sub := fun _ _ => tt;
     Vec3_Cross := fun _ _ => tt; Vec3_MulScalar := fun _ _ => tt;
     Vec3_Normalize := fun _ => tt; Vec3_Magnitude := fun _ => tt;
     LookAtRH := fun _ _ _ => tt; Perspective := fun _ _ _ _ => tt;
     Mat4_Mul4 := fun _ _ => tt; Mat4FromAngleZ := fun _ => tt;
     DegToRad := fun _ => tt; OpenGlToWgpuMatrix := tt |}.

(** A world to run examples in: a healthy backend that has handed out
    nothing yet. *)
Definition world0 : World :=
  {| fresh := 0; replies := []; preferredFormat := 23%N;
     capFormats := [23%N]; capPresentModes := [PresentMode_Fifo];
     capAlphaModes := [AlphaMode_code 1%N]; log := [] |}.

(** The same world with a script of replies. *)
Definition scripted (rs : list (option string)) : World :=
  with_replies rs world0.

(** *** The events of one successful frame

    [v] is the handle the acquired view gets; the encoder, the pass and the
    command buffer get the next three. *)

Definition clearAttachment (v : handle) : RenderPassColorAttachment :=
  {| View := v; LoadOp_ := LoadOp_Clear; ClearValue := clearColor;
     StoreOp_ := StoreOp_Store |}.

Definition Part000_frame_events (s : Part000.State) (sc q v : handle)
  : list event :=
  [ Created TextureView v NoDescr;
    Created CommandEncoder (v + 1) NoDescr;
    BeganRenderPass (v + 1) (v + 2) [clearAttachment v];
    SetPipeline (v + 2) (Part000.renderPipeline s);
    SetBindGroup (v + 2) 0
      (if Part000.isSpacePressed s then Part000.cartoonBindGroup s
       else Part000.diffuseBindGroup s);
    SetVertexBuffer (v + 2) 0 (Part000.vertexBuffer s);
    SetIndexBuffer (v + 2) (Part000.indexBuffer s) IndexFormat_Uint16;
    DrawIndexed (v + 2) (Part000.numIndices s) 1 0 0 0;
    Ended (v + 2);
    Finished (v + 1) (v + 3);
    Submitted q [v + 3];
    Presented sc;
    Dropped TextureView v ].

Definition Tutorial6_frame_events `{Glm} (s : Tutorial6Challenge.State)
    (sc q v : handle) : list event :=
  [ Created TextureView v NoDescr;
    Created CommandEncoder (v + 1) NoDescr;
    BeganRenderPass (v + 1) (v + 2) [clearAttachment v];
    SetPipeline (v + 2) (Tutorial6Challenge.renderPipeline s);
    SetBindGroup (v + 2) 0 (Tutorial6Challenge.diffuseBindGroup s);
    SetBindGroup (v + 2) 1 (Tutorial6Challenge.cameraBindGroup s);
    SetVertexBuffer (v + 2) 0 (Tutorial6Challenge.vertexBuffer s);
    SetIndexBuffer (v + 2) (Tutorial6Challenge.indexBuffer s)
      IndexFormat_Uint16;
    DrawIndexed (v + 2) (Tutorial6Challenge.numIndices s) 1 0 0 0;
    Ended (v + 2);
    Finished (v + 1) (v + 3);
    Submitted q [v + 3];
    Presented sc;
    Dropped TextureView v ].

(** The draw of tutorial4-challenge: which buffers are bound and how many
    indices are drawn. *)
Definition Tutorial4_draw (s : Tutorial4Challenge.State) (p : handle)
  : list event :=
  if Tutorial4Challenge.useComplex s then
    [ SetVertexBuffer p 0 (Tutorial4Challenge.challengeVertexBuffer s);
      SetIndexBuffer p (Tutorial4Challenge.challengeIndexBuffer s)
        IndexFormat_Uint16;
      DrawIndexed p (Tutorial4Challenge.numChallengeIndices s) 1 0 0 0 ]
  else
    [ SetVertexBuffer p 0 (Tutorial4Challenge.vertexBuffer s);
      SetIndexBuffer p (Tutorial4Challenge.indexBuffer s) IndexFormat_Uint16;
      DrawIndexed p (Tutorial4Challenge.numIndices s) 1 0 0 0 ].

Definition Tutorial4_frame_events (s : Tutorial4Challenge.State)
    (sc q v : handle) : list event :=
  [ Created TextureView v NoDescr;
    Created CommandEncoder (v + 1) NoDescr;
    BeganRenderPass (v + 1) (v + 2) [clearAttachment v];
    SetPipeline (v + 2) (Tutorial4Challenge.renderPipeline s) ]
  ++ Tutorial4_draw s (v + 2)
  ++ [ Ended (v + 2);
       Finished (v + 1) (v + 3);
       Submitted q [v + 3];
       Presented sc;
       Dropped TextureView v ].

(** A healthy backend: no reply is scripted, every call succeeds. *)
Definition healthy (g : World) : Prop := replies g = [].

(** The index count of every draw in a log is [n]. *)
Definition draws_have_count (n : N) (d : list event) : bool :=
  forallb (fun e => match e with
                    | DrawIndexed _ c _ _ _ _ => N.eqb c n
                    | _ => true
                    end) d.

(** *** States to run examples on: every pointer set, as after a successful
    initialisation; the handles are arbitrary. *)

Definition cfg0 : SwapChainDescriptor :=
  {| Usage := TextureUsage_RenderAttachment; Format := 23%N;
     Width := 640; Height := 480;
     PresentMode_ := PresentMode_Fifo; AlphaMode_ := AlphaMode_unset |}.

Definition size0 : dpi.PhysicalSize :=
  {| dpi.Width := 640; dpi.Height := 480 |}.

Definition Part000_sample : Part000.State :=
  {| Part000.surface := Some 1; Part000.swapChain := Some 5;
     Part000.device := Some 3; Part000.queue := Some 4;
     Part000.config := Some cfg0; Part000.size := size0;
     Part000.renderPipeline := Some 17; Part000.vertexBuffer := Some 18;
     Part000.indexBuffer := Some 19; Part000.numIndices := 9;
     Part000.diffuseTexture :=
       Some {| texture := Some 7; view := Some 8; sampler := Some 9 |};
     Part000.diffuseBindGroup := Some 10;
     Part000.cartoonTexture :=
       Some {| texture := Some 11; view := Some 12; sampler := Some 13 |};
     Part000.cartoonBindGroup := Some 14;
     Part000.isSpacePressed := false |}.

Definition Tutorial4_sample : Tutorial4Challenge.State :=
  {| Tutorial4Challenge.surface := Some 1;
     Tutorial4Challenge.swapChain := Some 5;
     Tutorial4Challenge.device := Some 3;
     Tutorial4Challenge.queue := Some 4;
     Tutorial4Challenge.config := Some cfg0;
     Tutorial4Challenge.size := size0;
     Tutorial4Challenge.renderPipeline := Some 8;
     Tutorial4Challenge.vertexBuffer := Some 9;
     Tutorial4Challenge.indexBuffer := Some 10;
     Tutorial4Challenge.numIndices := 9;
     Tutorial4Challenge.challengeVertexBuffer := Some 11;
     Tutorial4Challenge.challengeIndexBuffer := Some 12;
     Tutorial4Challenge.numChallengeIndices := 0;
     Tutorial4Challenge.useComplex := true |}.

Definition Tutorial6_sample : @Tutorial6Challenge.State trivialGlm :=
  {| Tutorial6Challenge.surface := Some 1;
     Tutorial6Challenge.swapChain := Some 5;
     Tutorial6Challenge.device := Some 3;
     Tutorial6Challenge.queue := Some 4;
     Tutorial6Challenge.config := Some cfg0;
     Tutorial6Challenge.size := size0;
     Tutorial6Challenge.renderPipeline := Some 17;
     Tutorial6Challenge.vertexBuffer := Some 18;
     Tutorial6Challenge.indexBuffer := Some 19;
     Tutorial6Challenge.numIndices := 9;
     Tutorial6Challenge.diffuseTexture :=
       Some {| texture := Some 7; view := Some 8; sampler := Some 9 |};
     Tutorial6Challenge.diffuseBindGroup := Some 10;
     Tutorial6Challenge.cameraController :=
       Some (@Tutorial6Challenge.Build_CameraController trivialGlm
               tt false false false false);
     Tutorial6Challenge.cameraUniform :=
       Some (@Tutorial6Challenge.Build_CameraUniform trivialGlm tt);
     Tutorial6Challenge.cameraBuffer := Some 11;
     Tutorial6Challenge.cameraBindGroup := Some 13;
     Tutorial6Challenge.cameraStaging :=
       Some (@Tutorial6Challenge.Build_CameraStaging trivialGlm
               (Some (@Tutorial6Challenge.Build_Camera trivialGlm
                        tt tt tt tt tt tt tt))
               tt) |}.

(** The world of the examples once initialisation has handed out its
    objects. *)
Definition world1 : World := with_fresh 20 world0.

Definition scripted1 (rs : list (option string)) : World :=
  with_replies rs world1.

(** *** The triangle fan of tutorial4-challenge, as a list: the triples
    [(i+1, i, 0)] for [i] from 1 to [n]. *)
Definition fan (n : nat) : list N :=
  flat_map (fun i => [N.of_nat i + 1; N.of_nat i; 0]%N) (seq 1 n).

(** *** The steps of an initialisation that can fail

    A call into the binding takes the next reply of the script (an
    exhausted script grants every call); a decoding has the result that the
    decoder gives.  [first_error steps rs] is the error of the first step
    that fails when the steps run in order, or nil when none does. *)
Inductive step :=
| GpuCall
| Decoding (r : image.Image + string).

Fixpoint first_error (steps : list step) (rs : list (option string)) : error :=
  match steps with
  | [] => None
  | GpuCall :: steps' =>
    match rs with
    | [] => first_error steps' []
    | Some msg :: _ => Some msg
    | None :: rs' => first_error steps' rs'
    end
  | Decoding (inr msg) :: _ => Some msg
  | Decoding (inl _) :: steps' => first_error steps' rs
  end.

(** The fallible steps of [InitState] of part_000, in the order of the
    source: adapter, device, swap chain, bind group layout; decoding,
    texture, sampler and bind group of the diffuse texture; the same four of
    the cartoon texture; shader module, pipeline layout, render pipeline,
    vertex buffer, index buffer. *)
Definition Part000_steps (tree cartoon : image.Image + string) : list step :=
  [GpuCall; GpuCall; GpuCall; GpuCall;
   Decoding tree; GpuCall; GpuCall; GpuCall;
   Decoding cartoon; GpuCall; GpuCall; GpuCall;
   GpuCall; GpuCall; GpuCall; GpuCall; GpuCall].

(** The fallible steps of [TextureFromImage]: texture, sampler. *)
Definition TextureFromImage_steps : list step := [GpuCall; GpuCall].

(** A texture with its three handles set. *)
Definition Texture_complete (ot : option Texture) : Prop :=
  exists x v sm : handle,
    ot = Some {| texture := Some x; view := Some v; sampler := Some sm |}.

(** A fully initialised state of part_000: every pointer is set. *)
Definition Part000_complete (s : Part000.State) : Prop :=
  Part000.surface s <> None /\ Part000.swapChain s <> None
  /\ Part000.device s <> None /\ Part000.queue s <> None
  /\ Part000.config s <> None /\ Part000.renderPipeline s <> None
  /\ Part000.vertexBuffer s <> None /\ Part000.indexBuffer s <> None
  /\ Part000.diffuseBindGroup s <> None
  /\ Part000.cartoonBindGroup s <> None
  /\ Texture_complete (Part000.diffuseTexture s)
  /\ Texture_complete (Part000.cartoonTexture s)
  /\ Part000.numIndices s = 9%N.

(** Assets to run examples with: a decoder that accepts every non-empty
    buffer as an RGBA image of 256 by 256, and two small buffers. *)
Definition sampleAssets : Assets :=
  {| png_Decode := fun buf =>
       match buf with
       | [] => inr "png: invalid format: not enough data"
       | _ :: _ => inl {| image.Dx := 256; image.Dy := 256;
                          image.isRGBA := true |}
       end;
     happyTreePng := [Byte.x89; Byte.x50; Byte.x4e; Byte.x47];
     happyTreeCartoonPng := [Byte.x89; Byte.x50; Byte.x4e; Byte.x47] |}.

Definition window0 : display.Window := {| display.InnerSize := size0 |}.

(** When a call returns, its result and final world satisfy [P]. *)
Definition on_return {A} (o : outcome A) (P : A -> World -> Prop) : Prop :=
  match o with
  | Ret a g => P a g
  | Panic _ _ => True
  end.

(* ===================================================================== *)
(** ** Further observations                                               *)
(* ===================================================================== *)

Definition Tutorial4_drops (s : Tutorial4Challenge.State) : list event :=
  olist (Dropped Buffer) (Tutorial4Challenge.challengeIndexBuffer s)
  ++ olist (Dropped Buffer) (Tutorial4Challenge.challengeVertexBuffer s)
  ++ olist (Dropped Buffer) (Tutorial4Challenge.indexBuffer s)
  ++ olist (Dropped Buffer) (Tutorial4Challenge.vertexBuffer s)
  ++ olist (Dropped RenderPipeline) (Tutorial4Challenge.renderPipeline s)
  ++ olist (Dropped SwapChain) (Tutorial4Challenge.swapChain s)
  ++ olist (Dropped Device) (Tutorial4Challenge.device s)
  ++ olist (Dropped Surface) (Tutorial4Challenge.surface s).

Definition Tutorial4_cleared (s : Tutorial4Challenge.State)
  : Tutorial4Challenge.State :=
  {| Tutorial4Challenge.surface := None;
     Tutorial4Challenge.swapChain := None;
     Tutorial4Challenge.device := None;
     Tutorial4Challenge.queue := None;
     Tutorial4Challenge.config := None;
     Tutorial4Challenge.size := Tutorial4Challenge.size s;
     Tutorial4Challenge.renderPipeline := None;
     Tutorial4Challenge.vertexBuffer := None;
     Tutorial4Challenge.indexBuffer := None;
     Tutorial4Challenge.numIndices := Tutorial4Challenge.numIndices s;
     Tutorial4Challenge.challengeVertexBuffer := None;
     Tutorial4Challenge.challengeIndexBuffer := None;
     Tutorial4Challenge.numChallengeIndices :=
       Tutorial4Challenge.numChallengeIndices s;
     Tutorial4Challenge.useComplex := Tutorial4Challenge.useComplex s |}.

(** The events that a call added to the log of [g]. *)
Definition added {A} (g : World) (o : outcome A) : list event :=
  skipn (length (log g)) (log (final o)).

(** What a call of [Render] may leave in the log, by the way it ends:
    a return of nil goes with one submission and one presentation; a return
    of an error or a panic goes with no presentation. *)
Definition frame_accounted {A} (o : outcome (option A)) (d : list event)
  : Prop :=
  count_if isSwapChainCreation d = 0 /\ count_if isEnteredResize d = 0
  /\ match o with
     | Ret None _ =>
       count_if isPresent d = 1 /\ count_if isSubmit d = 1
       /\ count_if isRenderPass d = 1 /\ count_if isDraw d = 1
     | Ret (Some _) _ =>
       count_if isPresent d = 0 /\ count_if isSubmit d = 0
       /\ count_if isRenderPass d = 0 /\ count_if isDraw d = 0
     | Panic _ _ => count_if isPresent d = 0
     end.

(** The state that a successful [Resize] leaves, in part_000 and in
    tutorial4-challenge: [sc] is the new swap chain, [c] the descriptor
    before the call. *)
Definition Part000_after_resize (newSize : dpi.PhysicalSize)
    (c : SwapChainDescriptor) (sc : handle) (s : Part000.State)
  : Part000.State :=
  Part000.set_swapChain (Some sc)
    (Part000.set_config (Some (resized newSize c))
       (Part000.set_size newSize s)).

Definition Tutorial4_after_resize (newSize : dpi.PhysicalSize)
    (c : SwapChainDescriptor) (sc : handle) (s : Tutorial4Challenge.State)
  : Tutorial4Challenge.State :=
  Tutorial4Challenge.set_swapChain (Some sc)
    (Tutorial4Challenge.set_config (Some (resized newSize c))
       (Tutorial4Challenge.set_size newSize s)).

(** In tutorial6-challenge the aspect of the camera is updated as well. *)
Definition Tutorial6_after_resize `{Glm} (newSize : dpi.PhysicalSize)
    (c : SwapChainDescriptor) (sc : handle)
    (st : Tutorial6Challenge.CameraStaging) (cam : Tutorial6Challenge.Camera)
    (s : Tutorial6Challenge.State) : Tutorial6Challenge.State :=
  Tutorial6Challenge.set_cameraStaging
    (Some {| Tutorial6Challenge.camera :=
               Some (Tutorial6Challenge.set_aspect
                       (f32_div (f32_of_uint32 (dpi.Width newSize))
                                (f32_of_uint32 (dpi.Height newSize))) cam);
             Tutorial6Challenge.modelRotationDeg :=
               Tutorial6Challenge.modelRotationDeg st |})
    (Tutorial6Challenge.set_swapChain (Some sc)
       (Tutorial6Challenge.set_config (Some (resized newSize c))
          (Tutorial6Challenge.set_size newSize s))).

(** The log of a [Resize] that got its swap chain. *)
Definition resize_events (newSize : dpi.PhysicalSize)
    (old surface : option handle) (c : SwapChainDescriptor) (sc : handle)
  : list event :=
  resize_prefix newSize old
  ++ [Created SwapChain sc (ForSwapChain surface (resized newSize c))].

(** *** The life of objects along a log

    A log is replayed on a stack of live objects: a creation pushes the
    object, a release removes it, and a release of an object that is not
    live (never created, or released before) is an error. *)

Definition obj := (kind * handle)%type.

Definition obj_eqb (a b : obj) : bool :=
  kind_eqb (fst a) (fst b) && Nat.eqb (snd a) (snd b).

Fixpoint is_live (o : obj) (l : list obj) : bool :=
  match l with
  | [] => false
  | x :: l' => if obj_eqb o x then true else is_live o l'
  end.

Fixpoint unlive (o : obj) (l : list obj) : list obj :=
  match l with
  | [] => []
  | x :: l' => if obj_eqb o x then l' else x :: unlive o l'
  end.

Fixpoint replay (d : list event) (live : list obj) : option (list obj) :=
  match d with
  | [] => Some live
  | Created k h _ :: d' => replay d' ((k, h) :: live)
  | Dropped k h :: d' =>
    if is_live (k, h) live then replay d' (unlive (k, h) live) else None
  | _ :: d' => replay d' live
  end.

(** The objects live after [d], the most recently created first. *)
Definition live_after (d : list event) : option (list obj) := replay d [].

(** The releases of a list of objects, in order. *)
Definition releases (l : list obj) : list event :=
  map (fun o => Dropped (fst o) (snd o)) l.

(** The state is ready for the loop: the pointers that [Render] and
    [Resize] go through are set. *)
Definition Part000_ready (s : Part000.State) : Prop :=
  Part000.swapChain s <> None /\ Part000.device s <> None
  /\ Part000.queue s <> None /\ Part000.config s <> None.

Definition Tutorial4_ready (s : Tutorial4Challenge.State) : Prop :=
  Tutorial4Challenge.swapChain s <> None
  /\ Tutorial4Challenge.device s <> None
  /\ Tutorial4Challenge.queue s <> None
  /\ Tutorial4Challenge.config s <> None.

(** The descriptor of the swap chain agrees with the last known size. *)
Definition synced (size : dpi.PhysicalSize) (config : option SwapChainDescriptor)
  : Prop :=
  exists c : SwapChainDescriptor,
    config = Some c /\ Width c = dpi.Width size /\ Height c = dpi.Height size.

Definition Part000_inv (s : Part000.State) : Prop :=
  Part000_ready s /\ synced (Part000.size s) (Part000.config s).

Definition Tutorial4_inv (s : Tutorial4Challenge.State) : Prop :=
  Tutorial4_ready s
  /\ synced (Tutorial4Challenge.size s) (Tutorial4Challenge.config s).

(** A call keeps [P] when it returns, and if it panics it is with an error
    value: never on a nil pointer or an index. *)
Definition keeps {S} (P : S -> Prop) (o : outcome S) : Prop :=
  match o with
  | Ret s _ => P s
  | Panic (PanicError _) _ => True
  | Panic _ _ => False
  end.

(** The surface reports at least one format, present mode and alpha mode. *)
Definition has_capabilities (g : World) : Prop :=
  capFormats g <> [] /\ capPresentModes g <> [] /\ capAlphaModes g <> [].
Lemma with_log_id (g : World) : with_log (log g) g = g.
Proof. destruct g; reflexivity. Qed.

Lemma logged_nil (g : World) : logged [] g = g.
Proof. unfold logged. rewrite app_nil_r. apply with_log_id. Qed.

Lemma logged_logged (d1 d2 : list event) (g : World) :
  logged d2 (logged d1 g) = logged (d1 ++ d2) g.
Proof. unfold logged, with_log; simpl. now rewrite <- app_assoc. Qed.

(** Both sides are worlds or outcomes built from the same world: unfold the
    updates and reassociate the logs. *)
Ltac world_eq :=
  repeat match goal with g : World |- _ => destruct g end;
  unfold logged, bumped, pop_reply, with_log, with_fresh, with_replies,
    ret, emit; simpl;
  rewrite <- ?app_assoc, ?app_nil_r; simpl;
  try reflexivity.

Lemma emit_run (e : event) (g : World) : emit e g = Ret tt (logged [e] g).
Proof. reflexivity. Qed.

Lemma bind_run {A B} (m : M A) (k : A -> M B) (g g' : World) (a : A) :
  m g = Ret a g' -> bind m k g = k a g'.
Proof. unfold bind. now intros ->. Qed.

Lemma bind_panic {A B} (m : M A) (k : A -> M B) (g g' : World) p :
  m g = Panic p g' -> bind m k g = Panic p g'.
Proof. unfold bind. now intros ->. Qed.

Lemma release_run {S} (k : kind) (p : option handle) (reset s : S) (g : World) :
  (p = None -> reset = s) ->
  release k p reset s g = Ret reset (logged (olist (Dropped k) p) g).
Proof.
  intros Hnil. destruct p as [h|]; simpl.
  - reflexivity.
  - rewrite logged_nil, Hnil; reflexivity.
Qed.

Lemma forget_run {S A} (p : option A) (reset s : S) (g : World) :
  (p = None -> reset = s) -> forget p reset s g = Ret reset g.
Proof.
  intros Hnil. destruct p; simpl; [reflexivity|]. now rewrite Hnil.
Qed.



Lemma Texture_Destroy_run (t : Texture) (g : World) :
  Texture_Destroy t g = Ret Texture_zero (logged (Texture_drops t) g).
Proof.
  destruct t as [[x|] [v|] [sm|]];
    unfold Texture_Destroy, Texture_drops, bind, Drop; simpl; world_eq.
Qed.

Lemma release_texture_run {S} (p : option Texture) (reset s : S) (g : World) :
  (p = None -> reset = s) ->
  release_texture p reset s g = Ret reset (logged (otexture_drops p) g).
Proof.
  intros Hnil. destruct p as [t|]; simpl.
  - unfold bind. rewrite Texture_Destroy_run. reflexivity.
  - rewrite logged_nil, Hnil; reflexivity.
Qed.

(** One guarded step of a destroy chain, run and composed with the rest. *)
Ltac destroy_step :=
  first
    [ erewrite bind_run by (apply release_run; intros ->; reflexivity)
    | erewrite bind_run by (apply release_texture_run; intros ->; reflexivity)
    | erewrite bind_run by (apply forget_run; intros ->; reflexivity) ];
  simpl.

Lemma Part000_Destroy_run (s : Part000.State) (g : World) :
  Part000.Destroy s g = Ret (Part000_cleared s) (logged (Part000_drops s) g).
Proof.
  destruct s. unfold Part000.Destroy, Part000_drops, Part000_cleared.
  simpl.
  repeat destroy_step.
  rewrite release_run by (intros ->; reflexivity).
  rewrite ?logged_logged, <- ?app_assoc. reflexivity.
Qed.

Lemma Tutorial6_Destroy_run `{Glm} (s : Tutorial6Challenge.State) (g : World) :
  Tutorial6Challenge.Destroy s g
  = Ret (Tutorial6_cleared s) (logged (Tutorial6_drops s) g).
Proof.
  destruct s. unfold Tutorial6Challenge.Destroy, Tutorial6_drops, Tutorial6_cleared.
  simpl.
  repeat destroy_step.
  rewrite release_run by (intros ->; reflexivity).
  rewrite ?logged_logged, <- ?app_assoc. reflexivity.
Qed.

Lemma Part000_drops_cleared (s : Part000.State) :
  Part000_drops (Part000_cleared s) = [].
Proof. reflexivity. Qed.

Lemma Tutorial6_drops_cleared `{Glm} (s : Tutorial6Challenge.State) :
  Tutorial6_drops (Tutorial6_cleared s) = [].
Proof. reflexivity. Qed.

(** C7. The destroy path is idempotent.  One call of [Destroy] always
    returns, releases each handle that a field holds once, in the order of
    the chain, and leaves every pointer field nil; a further call returns
    with the same state and the same world, so it releases nothing.  This
    holds for [State.Destroy] of part_000 and of tutorial6-challenge and for
    [Texture.Destroy]. *)
Theorem C7_destroy_idempotent :
  (forall (s : Part000.State) (g : World),
      let s1 := Part000_cleared s in
      let g1 := logged (Part000_drops s) g in
      Part000.Destroy s g = Ret s1 g1
      /\ Part000.Destroy s1 g1 = Ret s1 g1)
  /\ (forall (G : Glm) (s : Tutorial6Challenge.State) (g : World),
      let s1 := Tutorial6_cleared s in
      let g1 := logged (Tutorial6_drops s) g in
      Tutorial6Challenge.Destroy s g = Ret s1 g1
      /\ Tutorial6Challenge.Destroy s1 g1 = Ret s1 g1)
  /\ (forall (t : Texture) (g : World),
      let g1 := logged (Texture_drops t) g in
      Texture_Destroy t g = Ret Texture_zero g1
      /\ Texture_Destroy Texture_zero g1 = Ret Texture_zero g1).
Proof.
  split; [|split].
  - intros s g s1 g1. split; [apply Part000_Destroy_run|].
    subst s1. rewrite Part000_Destroy_run.
    now rewrite Part000_drops_cleared, logged_nil.
  - intros G s g s1 g1. split; [apply Tutorial6_Destroy_run|].
    subst s1. rewrite Tutorial6_Destroy_run.
    now rewrite Tutorial6_drops_cleared, logged_nil.
  - intros t g g1. split; [apply Texture_Destroy_run|].
    rewrite Texture_Destroy_run. now rewrite logged_nil.
Qed.

Create HintDb go discriminated.
#[local] Hint Unfold bind ret panic deref index0 emit alloc reply ask create
  try_create Drop Drop_ptr defer
  CreateInstance Instance_CreateSurface Instance_RequestAdapter
  Adapter_RequestDevice Device_GetQueue Surface_GetPreferredFormat
  Device_CreateSwapChain Device_CreateBindGroupLayout Device_CreateBindGroup
  Device_CreateShaderModule Device_CreatePipelineLayout
  Device_CreateRenderPipeline Device_CreateBufferInit Device_CreateTexture
  Device_CreateSampler Queue_WriteTexture Queue_WriteBuffer Texture_CreateView
  SwapChain_GetCurrentTextureView SwapChain_Present
  Device_CreateCommandEncoder CommandEncoder_BeginRenderPass
  CommandEncoder_Finish Queue_Submit : go.

(** Run the monadic code of the goal as far as the data allow. *)
Ltac run := autounfold with go; simpl.

Lemma pos_guard (newSize : dpi.PhysicalSize) :
  (0 < dpi.Width newSize)%N -> (0 < dpi.Height newSize)%N ->
  (0 <? dpi.Width newSize)%N && (0 <? dpi.Height newSize)%N = true.
Proof.
  intros Hw Hh. apply andb_true_intro; split; now apply N.ltb_lt.
Qed.

Lemma zero_guard (newSize : dpi.PhysicalSize) :
  dpi.Width newSize = 0%N \/ dpi.Height newSize = 0%N ->
  (0 <? dpi.Width newSize)%N && (0 <? dpi.Height newSize)%N = false.
Proof.
  intros [-> | ->]; simpl; [reflexivity | apply andb_false_r].
Qed.

Lemma Part000_Resize_zero (newSize : dpi.PhysicalSize) (s : Part000.State)
    (g : World) :
  dpi.Width newSize = 0%N \/ dpi.Height newSize = 0%N ->
  Part000.Resize newSize s g = Ret s (logged [EnteredResize newSize] g).
Proof.
  intros Hz. unfold Part000.Resize, bind, emit.
  now rewrite (zero_guard _ Hz).
Qed.

Lemma Tutorial6_Resize_zero `{Glm} (newSize : dpi.PhysicalSize)
    (s : Tutorial6Challenge.State) (g : World) :
  dpi.Width newSize = 0%N \/ dpi.Height newSize = 0%N ->
  Tutorial6Challenge.Resize newSize s g
  = Ret s (logged [EnteredResize newSize] g).
Proof.
  intros Hz. unfold Tutorial6Challenge.Resize, bind, emit.
  now rewrite (zero_guard _ Hz).
Qed.

Lemma Tutorial4_Resize_zero (newSize : dpi.PhysicalSize)
    (s : Tutorial4Challenge.State) (g : World) :
  dpi.Width newSize = 0%N \/ dpi.Height newSize = 0%N ->
  Tutorial4Challenge.Resize newSize s g
  = Ret s (logged [EnteredResize newSize] g).
Proof.
  intros Hz. unfold Tutorial4Challenge.Resize, bind, emit.
  now rewrite (zero_guard _ Hz).
Qed.

(** C3. A [Resize] to a size whose width or height is 0 is a no-op and not
    an error: it returns, the state (the size, the swap-chain descriptor,
    the swap chain and every other field) is the one it was given, and the
    world only gains the note that [Resize] was entered: no call into the
    binding is made.  Shown for part_000 and tutorial6-challenge. *)
Theorem C3_resize_zero_is_noop :
  (forall (newSize : dpi.PhysicalSize) (s : Part000.State) (g : World),
      dpi.Width newSize = 0%N \/ dpi.Height newSize = 0%N ->
      Part000.Resize newSize s g = Ret s (logged [EnteredResize newSize] g))
  /\ (forall (G : Glm) (newSize : dpi.PhysicalSize)
             (s : Tutorial6Challenge.State) (g : World),
      dpi.Width newSize = 0%N \/ dpi.Height newSize = 0%N ->
      Tutorial6Challenge.Resize newSize s g
      = Ret s (logged [EnteredResize newSize] g)).
Proof.
  split.
  - intros; now apply Part000_Resize_zero.
  - intros; now apply Tutorial6_Resize_zero.
Qed.

Lemma Part000_Resize_positive (newSize : dpi.PhysicalSize) (s : Part000.State)
    (g : World) (c : SwapChainDescriptor) (d : handle) :
  (0 < dpi.Width newSize)%N -> (0 < dpi.Height newSize)%N ->
  Part000.config s = Some c -> Part000.device s = Some d ->
  let c' := resized newSize c in
  let before := resize_prefix newSize (Part000.swapChain s) in
  match next_reply g with
  | None =>
    Part000.Resize newSize s g
    = Ret (Part000.set_swapChain (Some (fresh g))
             (Part000.set_config (Some c') (Part000.set_size newSize s)))
          (logged (before ++ [Created SwapChain (fresh g)
                                (ForSwapChain (Part000.surface s) c')])
             (bumped (pop_reply g)))
  | Some msg =>
    Part000.Resize newSize s g
    = Panic (PanicError msg)
        (logged (before ++ [Rejected SwapChain msg]) (pop_reply g))
  end.
Proof.
  intros Hw Hh Hc Hd c' before. subst c' before.
  destruct s; simpl in *; subst.
  unfold Part000.Resize, next_reply.
  unfold bind at 1. rewrite emit_run, (pos_guard _ Hw Hh).
  destruct g as [n rs pf cf cp ca l].
  destruct rs as [|[msg|] rest]; destruct swapChain; run; world_eq.
Qed.

Lemma Tutorial4_Resize_positive (newSize : dpi.PhysicalSize)
    (s : Tutorial4Challenge.State) (g : World) (c : SwapChainDescriptor)
    (d : handle) :
  (0 < dpi.Width newSize)%N -> (0 < dpi.Height newSize)%N ->
  Tutorial4Challenge.config s = Some c ->
  Tutorial4Challenge.device s = Some d ->
  let c' := resized newSize c in
  let before := resize_prefix newSize (Tutorial4Challenge.swapChain s) in
  match next_reply g with
  | None =>
    Tutorial4Challenge.Resize newSize s g
    = Ret (Tutorial4Challenge.set_swapChain (Some (fresh g))
             (Tutorial4Challenge.set_config (Some c')
                (Tutorial4Challenge.set_size newSize s)))
          (logged (before ++ [Created SwapChain (fresh g)
                                (ForSwapChain (Tutorial4Challenge.surface s) c')])
             (bumped (pop_reply g)))
  | Some msg =>
    Tutorial4Challenge.Resize newSize s g
    = Panic (PanicError msg)
        (logged (before ++ [Rejected SwapChain msg]) (pop_reply g))
  end.
Proof.
  intros Hw Hh Hc Hd c' before. subst c' before.
  destruct s; simpl in *; subst.
  unfold Tutorial4Challenge.Resize, next_reply.
  unfold bind at 1. rewrite emit_run, (pos_guard _ Hw Hh).
  destruct g as [n rs pf cf cp ca l].
  destruct rs as [|[msg|] rest]; destruct swapChain; run; world_eq.
Qed.

Lemma resized_size (newSize : dpi.PhysicalSize) (c : SwapChainDescriptor) :
  Width (resized newSize c) = dpi.Width newSize
  /\ Height (resized newSize c) = dpi.Height newSize
  /\ Usage (resized newSize c) = Usage c
  /\ Format (resized newSize c) = Format c
  /\ PresentMode_ (resized newSize c) = PresentMode_ c
  /\ AlphaMode_ (resized newSize c) = AlphaMode_ c.
Proof. repeat split. Qed.

(** C4. A [Resize] to a size with positive width and height, on a state
    whose descriptor and device are set: the size and the width and height
    of the descriptor become the new values, the old swap chain (if any) is
    dropped, and a swap chain is requested with the updated descriptor.  If
    the device accepts, the new swap chain is stored and its descriptor has
    exactly the new width and height; if the device rejects with [msg], the
    call panics with that error.  Shown for part_000 and
    tutorial4-challenge. *)
Theorem C4_resize_rebuilds_swap_chain :
  (forall (newSize : dpi.PhysicalSize) (s : Part000.State) (g : World)
          (c : SwapChainDescriptor) (d : handle),
      (0 < dpi.Width newSize)%N -> (0 < dpi.Height newSize)%N ->
      Part000.config s = Some c -> Part000.device s = Some d ->
      let c' := resized newSize c in
      let before := resize_prefix newSize (Part000.swapChain s) in
      Width c' = dpi.Width newSize /\ Height c' = dpi.Height newSize
      /\ match next_reply g with
         | None =>
           Part000.Resize newSize s g
           = Ret (Part000.set_swapChain (Some (fresh g))
                    (Part000.set_config (Some c')
                       (Part000.set_size newSize s)))
                 (logged (before ++ [Created SwapChain (fresh g)
                                       (ForSwapChain (Part000.surface s) c')])
                    (bumped (pop_reply g)))
         | Some msg =>
           Part000.Resize newSize s g
           = Panic (PanicError msg)
               (logged (before ++ [Rejected SwapChain msg]) (pop_reply g))
         end)
  /\ (forall (newSize : dpi.PhysicalSize) (s : Tutorial4Challenge.State)
             (g : World) (c : SwapChainDescriptor) (d : handle),
      (0 < dpi.Width newSize)%N -> (0 < dpi.Height newSize)%N ->
      Tutorial4Challenge.config s = Some c ->
      Tutorial4Challenge.device s = Some d ->
      let c' := resized newSize c in
      let before := resize_prefix newSize (Tutorial4Challenge.swapChain s) in
      Width c' = dpi.Width newSize /\ Height c' = dpi.Height newSize
      /\ match next_reply g with
         | None =>
           Tutorial4Challenge.Resize newSize s g
           = Ret (Tutorial4Challenge.set_swapChain (Some (fresh g))
                    (Tutorial4Challenge.set_config (Some c')
                       (Tutorial4Challenge.set_size newSize s)))
                 (logged (before ++ [Created SwapChain (fresh g)
                                       (ForSwapChain
                                          (Tutorial4Challenge.surface s) c')])
                    (bumped (pop_reply g)))
         | Some msg =>
           Tutorial4Challenge.Resize newSize s g
           = Panic (PanicError msg)
               (logged (before ++ [Rejected SwapChain msg]) (pop_reply g))
         end).
Proof.
  split.
  - intros newSize s g c d Hw Hh Hc Hd c' before.
    split; [reflexivity | split; [reflexivity|]].
    exact (Part000_Resize_positive newSize s g c d Hw Hh Hc Hd).
  - intros newSize s g c d Hw Hh Hc Hd c' before.
    split; [reflexivity | split; [reflexivity|]].
    exact (Tutorial4_Resize_positive newSize s g c d Hw Hh Hc Hd).
Qed.

Lemma count_if_app (p : event -> bool) (a b : list event) :
  count_if p (a ++ b) = count_if p a + count_if p b.
Proof.
  induction a as [|e a IH]; simpl; [reflexivity|]. rewrite IH. lia.
Qed.

(** Evaluate the monadic code of the goal; the logs stay as appends. *)
Ltac exec := cbv -[app Nat.add]; rewrite <- ?app_assoc; cbn [app].

Lemma Part000_Render_healthy (s : Part000.State) (g : World)
    (sc d q : handle) :
  Part000.swapChain s = Some sc -> Part000.device s = Some d ->
  Part000.queue s = Some q -> healthy g ->
  Part000.Render s g
  = Ret None (logged (Part000_frame_events s sc q (fresh g))
                (with_fresh (fresh g + 4) g)).
Proof.
  unfold healthy. intros Hsc Hd Hq Hg.
  destruct s; simpl in *; subst.
  destruct g as [n rs pf cf cp ca l]; simpl in *; subst.
  destruct isSpacePressed; exec.
  all: rewrite <- !plus_n_Sm, <- !plus_n_O; reflexivity.
Qed.

Lemma Tutorial6_Render_healthy `{Glm} (s : Tutorial6Challenge.State)
    (g : World) (sc d q : handle) :
  Tutorial6Challenge.swapChain s = Some sc ->
  Tutorial6Challenge.device s = Some d ->
  Tutorial6Challenge.queue s = Some q -> healthy g ->
  Tutorial6Challenge.Render s g
  = Ret None (logged (Tutorial6_frame_events s sc q (fresh g))
                (with_fresh (fresh g + 4) g)).
Proof.
  unfold healthy. intros Hsc Hd Hq Hg.
  destruct s; simpl in *; subst.
  destruct g as [n rs pf cf cp ca l]; simpl in *; subst.
  exec. rewrite <- !plus_n_Sm, <- !plus_n_O; reflexivity.
Qed.

Lemma Tutorial4_Render_healthy (s : Tutorial4Challenge.State)
    (g : World) (sc d q : handle) :
  Tutorial4Challenge.swapChain s = Some sc ->
  Tutorial4Challenge.device s = Some d ->
  Tutorial4Challenge.queue s = Some q -> healthy g ->
  Tutorial4Challenge.Render s g
  = Ret None (logged (Tutorial4_frame_events s sc q (fresh g))
                (with_fresh (fresh g + 4) g)).
Proof.
  unfold healthy. intros Hsc Hd Hq Hg.
  destruct s; simpl in *; subst.
  destruct g as [n rs pf cf cp ca l]; simpl in *; subst.
  destruct useComplex; exec.
  all: rewrite <- !plus_n_Sm, <- !plus_n_O; reflexivity.
Qed.

(** A failed acquisition: [Render] returns the error at once. *)
Lemma Part000_Render_not_acquired (s : Part000.State) (g : World)
    (sc : handle) (msg : string) :
  Part000.swapChain s = Some sc -> next_reply g = Some msg ->
  Part000.Render s g
  = Ret (Some msg) (logged [Rejected TextureView msg] (pop_reply g)).
Proof.
  intros Hsc Hr. destruct s; simpl in *; subst.
  destruct g as [n rs pf cf cp ca l]. unfold next_reply in Hr; simpl in Hr.
  destruct rs as [|[m|] rest]; try discriminate. injection Hr as ->.
  reflexivity.
Qed.

Lemma Tutorial4_Render_not_acquired (s : Tutorial4Challenge.State) (g : World)
    (sc : handle) (msg : string) :
  Tutorial4Challenge.swapChain s = Some sc -> next_reply g = Some msg ->
  Tutorial4Challenge.Render s g
  = Ret (Some msg) (logged [Rejected TextureView msg] (pop_reply g)).
Proof.
  intros Hsc Hr. destruct s; simpl in *; subst.
  destruct g as [n rs pf cf cp ca l]. unfold next_reply in Hr; simpl in Hr.
  destruct rs as [|[m|] rest]; try discriminate. injection Hr as ->.
  reflexivity.
Qed.

Lemma Tutorial6_Render_not_acquired `{Glm} (s : Tutorial6Challenge.State)
    (g : World) (sc : handle) (msg : string) :
  Tutorial6Challenge.swapChain s = Some sc -> next_reply g = Some msg ->
  Tutorial6Challenge.Render s g
  = Ret (Some msg) (logged [Rejected TextureView msg] (pop_reply g)).
Proof.
  intros Hsc Hr. destruct s; simpl in *; subst.
  destruct g as [n rs pf cf cp ca l]. unfold next_reply in Hr; simpl in Hr.
  destruct rs as [|[m|] rest]; try discriminate. injection Hr as ->.
  reflexivity.
Qed.

Lemma isDropOf_refl (k : kind) (h : handle) :
  isDropOf k h (Dropped k h) = true.
Proof. simpl. rewrite Nat.eqb_refl. now destruct k. Qed.

(** After a successful acquisition, whatever happens next, the view is
    dropped once and nothing else is dropped. *)
Lemma Part000_Render_acquired (s : Part000.State) (g : World) (sc : handle) :
  Part000.swapChain s = Some sc -> next_reply g = None ->
  exists d : list event,
    log (final (Part000.Render s g))
    = log g ++ Created TextureView (fresh g) NoDescr :: d
    /\ count_if (isDropOf TextureView (fresh g)) d = 1
    /\ count_if isDrop d = 1.
Proof.
  intros Hsc Hr. destruct s; simpl in *; subst.
  destruct g as [n rs pf cf cp ca l]. unfold next_reply in Hr; simpl in Hr.
  destruct rs as [|[m|] [|[m'|] rest]]; try discriminate;
    destruct device as [dv|]; destruct queue as [q|];
    destruct isSpacePressed;
    cbv -[app Nat.add count_if isDropOf isDrop];
    rewrite <- ?app_assoc; cbn [app];
    (eexists; split; [reflexivity|]);
    cbn [count_if isDropOf isDrop kind_eqb andb];
    rewrite ?Nat.eqb_refl; split; reflexivity.
Qed.

Lemma Tutorial4_Render_acquired (s : Tutorial4Challenge.State) (g : World)
    (sc : handle) :
  Tutorial4Challenge.swapChain s = Some sc -> next_reply g = None ->
  exists d : list event,
    log (final (Tutorial4Challenge.Render s g))
    = log g ++ Created TextureView (fresh g) NoDescr :: d
    /\ count_if (isDropOf TextureView (fresh g)) d = 1
    /\ count_if isDrop d = 1.
Proof.
  intros Hsc Hr. destruct s; simpl in *; subst.
  destruct g as [n rs pf cf cp ca l]. unfold next_reply in Hr; simpl in Hr.
  destruct rs as [|[m|] [|[m'|] rest]]; try discriminate;
    destruct device as [dv|]; destruct queue as [q|];
    destruct useComplex;
    cbv -[app Nat.add count_if isDropOf isDrop];
    rewrite <- ?app_assoc; cbn [app];
    (eexists; split; [reflexivity|]);
    cbn [count_if isDropOf isDrop kind_eqb andb];
    rewrite ?Nat.eqb_refl; split; reflexivity.
Qed.

(** The early return of [Render]: the encoder is refused after the view was
    acquired. *)
Lemma Part000_Render_no_encoder (s : Part000.State) (g : World)
    (sc dv : handle) (msg : string) (rest : list (option string)) :
  Part000.swapChain s = Some sc -> Part000.device s = Some dv ->
  replies g = None :: Some msg :: rest ->
  Part000.Render s g
  = Ret (Some msg)
      (logged [Created TextureView (fresh g) NoDescr;
               Rejected CommandEncoder msg;
               Dropped TextureView (fresh g)]
         (with_replies rest (bumped g))).
Proof.
  intros Hsc Hd Hr. destruct s; simpl in *; subst.
  destruct g as [n rs pf cf cp ca l]; simpl in *; subst.
  exec. reflexivity.
Qed.

Lemma Tutorial4_Render_no_encoder (s : Tutorial4Challenge.State) (g : World)
    (sc dv : handle) (msg : string) (rest : list (option string)) :
  Tutorial4Challenge.swapChain s = Some sc ->
  Tutorial4Challenge.device s = Some dv ->
  replies g = None :: Some msg :: rest ->
  Tutorial4Challenge.Render s g
  = Ret (Some msg)
      (logged [Created TextureView (fresh g) NoDescr;
               Rejected CommandEncoder msg;
               Dropped TextureView (fresh g)]
         (with_replies rest (bumped g))).
Proof.
  intros Hsc Hd Hr. destruct s; simpl in *; subst.
  destruct g as [n rs pf cf cp ca l]; simpl in *; subst.
  exec. reflexivity.
Qed.

(** C6. In [Render], with a swap chain to ask:
    - if the acquisition of the view succeeds, then on every way out of
      [Render] (a return of nil, a return of an error, a panic) the log of
      the call holds exactly one release, and it is the release of the
      acquired view;
    - in particular, when the command encoder is refused, [Render] returns
      that error having logged only the acquisition, the refusal and the
      release of the view: nothing was drawn;
    - if the acquisition fails, [Render] returns the error having logged
      only the refusal: nothing is drawn and nothing is released.
    Shown for part_000 and tutorial4-challenge. *)
Theorem C6_view_released_on_every_path :
  (forall (s : Part000.State) (g : World) (sc : handle),
      Part000.swapChain s = Some sc ->
      match next_reply g with
      | None =>
        exists d : list event,
          log (final (Part000.Render s g))
          = log g ++ Created TextureView (fresh g) NoDescr :: d
          /\ count_if (isDropOf TextureView (fresh g)) d = 1
          /\ count_if isDrop d = 1
      | Some msg =>
        Part000.Render s g
        = Ret (Some msg) (logged [Rejected TextureView msg] (pop_reply g))
      end)
  /\ (forall (s : Part000.State) (g : World) (sc dv : handle) (msg : string)
             (rest : list (option string)),
      Part000.swapChain s = Some sc -> Part000.device s = Some dv ->
      replies g = None :: Some msg :: rest ->
      Part000.Render s g
      = Ret (Some msg)
          (logged [Created TextureView (fresh g) NoDescr;
                   Rejected CommandEncoder msg;
                   Dropped TextureView (fresh g)]
             (with_replies rest (bumped g))))
  /\ (forall (s : Tutorial4Challenge.State) (g : World) (sc : handle),
      Tutorial4Challenge.swapChain s = Some sc ->
      match next_reply g with
      | None =>
        exists d : list event,
          log (final (Tutorial4Challenge.Render s g))
          = log g ++ Created TextureView (fresh g) NoDescr :: d
          /\ count_if (isDropOf TextureView (fresh g)) d = 1
          /\ count_if isDrop d = 1
      | Some msg =>
        Tutorial4Challenge.Render s g
        = Ret (Some msg) (logged [Rejected TextureView msg] (pop_reply g))
      end)
  /\ (forall (s : Tutorial4Challenge.State) (g : World) (sc dv : handle)
             (msg : string) (rest : list (option string)),
      Tutorial4Challenge.swapChain s = Some sc ->
      Tutorial4Challenge.device s = Some dv ->
      replies g = None :: Some msg :: rest ->
      Tutorial4Challenge.Render s g
      = Ret (Some msg)
          (logged [Created TextureView (fresh g) NoDescr;
                   Rejected CommandEncoder msg;
                   Dropped TextureView (fresh g)]
             (with_replies rest (bumped g)))).
Proof.
  repeat split.
  - intros s g sc Hsc. destruct (next_reply g) as [msg|] eqn:Hr.
    + now apply Part000_Render_not_acquired with sc.
    + now apply Part000_Render_acquired with sc.
  - intros. now apply Part000_Render_no_encoder with sc dv.
  - intros s g sc Hsc. destruct (next_reply g) as [msg|] eqn:Hr.
    + now apply Tutorial4_Render_not_acquired with sc.
    + now apply Tutorial4_Render_acquired with sc.
  - intros. now apply Tutorial4_Render_no_encoder with sc dv.
Qed.

Lemma C6_witness :
  Part000.Render Part000_sample (scripted1 [None; Some "out of memory"])
  = Ret (Some "out of memory")
      (logged [Created TextureView 20 NoDescr;
               Rejected CommandEncoder "out of memory";
               Dropped TextureView 20]
         (with_replies [] (bumped (scripted1 [None; Some "out of memory"]))))
  /\ Tutorial4Challenge.Render Tutorial4_sample (scripted1 [Some "Outdated"])
     = Ret (Some "Outdated")
         (logged [Rejected TextureView "Outdated"]
            (pop_reply (scripted1 [Some "Outdated"]))).
Proof.
  split.
  - exact (proj1 (proj2 C6_view_released_on_every_path)
             Part000_sample (scripted1 [None; Some "out of memory"])
             5 3 "out of memory" [] eq_refl eq_refl eq_refl).
  - exact (proj1 (proj2 (proj2 C6_view_released_on_every_path))
             Tutorial4_sample (scripted1 [Some "Outdated"]) 5 eq_refl).
Defined.

Lemma C3_witness :
  Part000.Resize {| dpi.Width := 0; dpi.Height := 480 |} Part000_sample world1
  = Ret Part000_sample
      (logged [EnteredResize {| dpi.Width := 0; dpi.Height := 480 |}] world1)
  /\ Tutorial6Challenge.Resize {| dpi.Width := 640; dpi.Height := 0 |}
       Tutorial6_sample world1
     = Ret Tutorial6_sample
         (logged [EnteredResize {| dpi.Width := 640; dpi.Height := 0 |}]
            world1).
Proof.
  split.
  - apply (proj1 C3_resize_zero_is_noop). left. reflexivity.
  - apply (proj2 C3_resize_zero_is_noop). right. reflexivity.
Defined.

Lemma C4_witness :
  (let newSize := {| dpi.Width := 800; dpi.Height := 600 |} in
   Part000.Resize newSize Part000_sample world1
   = Ret (Part000.set_swapChain (Some 20)
            (Part000.set_config (Some (resized newSize cfg0))
               (Part000.set_size newSize Part000_sample)))
         (logged [EnteredResize newSize; Dropped SwapChain 5;
                  Created SwapChain 20
                    (ForSwapChain (Some 1) (resized newSize cfg0))]
            (bumped (pop_reply world1))))
  /\ (let newSize := {| dpi.Width := 800; dpi.Height := 600 |} in
      Tutorial4Challenge.Resize newSize Tutorial4_sample
        (scripted1 [Some "surface is not supported"])
      = Panic (PanicError "surface is not supported")
          (logged [EnteredResize newSize; Dropped SwapChain 5;
                   Rejected SwapChain "surface is not supported"]
             (pop_reply (scripted1 [Some "surface is not supported"])))).
Proof.
  split.
  - intro newSize.
    exact (proj2 (proj2 (proj1 C4_resize_rebuilds_swap_chain newSize
             Part000_sample world1 cfg0 3 eq_refl eq_refl eq_refl eq_refl))).
  - intro newSize.
    exact (proj2 (proj2 (proj2 C4_resize_rebuilds_swap_chain newSize
             Tutorial4_sample (scripted1 [Some "surface is not supported"])
             cfg0 3 eq_refl eq_refl eq_refl eq_refl))).
Defined.

(** Every call of [Resize] is noted once, however it ends. *)
Lemma Part000_Resize_counted (newSize : dpi.PhysicalSize) (s : Part000.State)
    (g : World) :
  count_if isEnteredResize (log (final (Part000.Resize newSize s g)))
  = count_if isEnteredResize (log g) + 1.
Proof.
  destruct s, newSize as [[|w] [|h]], g as [n rs pf cf cp ca l].
  all: destruct config as [c|], swapChain as [sc|], device as [dv|],
         rs as [|[m|] rest];
    cbv -[app Nat.add count_if isEnteredResize];
    rewrite <- ?app_assoc, count_if_app; reflexivity.
Qed.

Lemma Tutorial4_Resize_counted (newSize : dpi.PhysicalSize)
    (s : Tutorial4Challenge.State) (g : World) :
  count_if isEnteredResize (log (final (Tutorial4Challenge.Resize newSize s g)))
  = count_if isEnteredResize (log g) + 1.
Proof.
  destruct s, newSize as [[|w] [|h]], g as [n rs pf cf cp ca l].
  all: destruct config as [c|], swapChain as [sc|], device as [dv|],
         rs as [|[m|] rest];
    cbv -[app Nat.add count_if isEnteredResize];
    rewrite <- ?app_assoc, count_if_app; reflexivity.
Qed.

Lemma Tutorial6_Resize_counted `{Glm} (newSize : dpi.PhysicalSize)
    (s : Tutorial6Challenge.State) (g : World) :
  count_if isEnteredResize (log (final (Tutorial6Challenge.Resize newSize s g)))
  = count_if isEnteredResize (log g) + 1.
Proof.
  destruct s, newSize as [[|w] [|h]], g as [n rs pf cf cp ca l].
  all: destruct config as [c|], swapChain as [sc|], device as [dv|],
         rs as [|[m|] rest], cameraStaging as [[[cam|] rot]|];
    cbv -[app Nat.add count_if isEnteredResize f32_div f32_of_uint32];
    rewrite <- ?app_assoc, count_if_app; reflexivity.
Qed.

(** The turn of the loop after a failed acquisition: the error is printed
    and the switch on its text is taken. *)
Lemma Part000_frame_not_acquired (s : Part000.State) (g : World)
    (sc : handle) (msg : string) :
  Part000.swapChain s = Some sc -> next_reply g = Some msg ->
  Part000.frame s g
  = (if strings.Contains msg "Lost" then Part000.Resize (Part000.size s) s
     else if strings.Contains msg "Outdated"
          then Part000.Resize (Part000.size s) s
          else if strings.Contains msg "Timeout" then ret s
               else panic (PanicError msg))
      (logged [Rejected TextureView msg; Printed msg] (pop_reply g)).
Proof.
  intros Hsc Hr. unfold Part000.frame.
  rewrite (bind_run _ _ _ _ _ (Part000_Render_not_acquired s g sc msg Hsc Hr)).
  unfold Part000.recover.
  rewrite (bind_run _ _ _ _ _ (emit_run _ _)), logged_logged. reflexivity.
Qed.

Lemma Tutorial4_frame_not_acquired (s : Tutorial4Challenge.State) (g : World)
    (sc : handle) (msg : string) :
  Tutorial4Challenge.swapChain s = Some sc -> next_reply g = Some msg ->
  Tutorial4Challenge.frame s g
  = (if strings.Contains msg "Lost"
     then Tutorial4Challenge.Resize (Tutorial4Challenge.size s) s
     else if strings.Contains msg "Outdated"
          then Tutorial4Challenge.Resize (Tutorial4Challenge.size s) s
          else if strings.Contains msg "Timeout" then ret s
               else panic (PanicError msg))
      (logged [Rejected TextureView msg; Printed msg] (pop_reply g)).
Proof.
  intros Hsc Hr. unfold Tutorial4Challenge.frame.
  rewrite (bind_run _ _ _ _ _
             (Tutorial4_Render_not_acquired s g sc msg Hsc Hr)).
  unfold Tutorial4Challenge.recover.
  rewrite (bind_run _ _ _ _ _ (emit_run _ _)), logged_logged. reflexivity.
Qed.

(** [Update] only touches the camera and writes its buffer: when it
    returns, the size, the swap chain and the script of replies are intact
    and nothing was noted but the write. *)
Lemma Tutorial6_Update_keeps `{Glm} (s s1 : Tutorial6Challenge.State)
    (g g0 : World) :
  Tutorial6Challenge.Update s g = Ret s1 g0 ->
  Tutorial6Challenge.size s1 = Tutorial6Challenge.size s
  /\ Tutorial6Challenge.swapChain s1 = Tutorial6Challenge.swapChain s
  /\ replies g0 = replies g
  /\ exists q : handle,
       Tutorial6Challenge.queue s = Some q
       /\ log g0
          = log g ++ [WroteBuffer q (Tutorial6Challenge.cameraBuffer s) 0].
Proof.
  destruct s, g as [n rs pf cf cp ca l].
  destruct cameraStaging as [[[cam|] rot]|], cameraController as [ctrl|],
    cameraUniform as [u|], queue as [q|];
    cbv -[app Tutorial6Challenge.CameraController_UpdateCamera
          Tutorial6Challenge.buildViewProjectionMatrix
          f32_add f32_lit Mat4_Mul4 Mat4FromAngleZ DegToRad
          OpenGlToWgpuMatrix];
    intros Heq; try discriminate; injection Heq as <- <-.
  repeat split. exists q. split; reflexivity.
Qed.

Lemma Tutorial6_frame_not_acquired `{Glm} (s s1 : Tutorial6Challenge.State)
    (g g0 : World) (sc : handle) (msg : string) :
  Tutorial6Challenge.Update s g = Ret s1 g0 ->
  Tutorial6Challenge.swapChain s = Some sc -> next_reply g = Some msg ->
  Tutorial6Challenge.frame s g
  = (if strings.Contains msg "Lost"
     then Tutorial6Challenge.Resize (Tutorial6Challenge.size s) s1
     else if strings.Contains msg "Outdated"
          then Tutorial6Challenge.Resize (Tutorial6Challenge.size s) s1
          else if strings.Contains msg "Timeout" then ret s1
               else panic (PanicError msg))
      (logged [Rejected TextureView msg; Printed msg] (pop_reply g0)).
Proof.
  intros Hu Hsc Hr. unfold Tutorial6Challenge.frame.
  destruct (Tutorial6_Update_keeps s s1 g g0 Hu) as (Hsz & Hsw & Hrs & _).
  rewrite (bind_run _ _ _ _ _ Hu).
  assert (Hsc1 : Tutorial6Challenge.swapChain s1 = Some sc) by congruence.
  assert (Hr1 : next_reply g0 = Some msg)
    by (unfold next_reply in *; now rewrite Hrs).
  rewrite (bind_run _ _ _ _ _
             (Tutorial6_Render_not_acquired s1 g0 sc msg Hsc1 Hr1)).
  unfold Tutorial6Challenge.recover.
  rewrite (bind_run _ _ _ _ _ (emit_run _ _)), logged_logged, Hsz.
  reflexivity.
Qed.

(** A [Poll] that returns true is followed by one turn of the loop and then
    by the rest of the loop. *)
Lemma Part000_mainLoop_turn (evs : list display.Event)
    (ticks : list (list display.Event)) (s0 s : Part000.State)
    (g0 g : World) :
  Part000.Poll evs s0 g0 = Ret (s, true) g ->
  Part000.mainLoop (evs :: ticks) s0 g0
  = bind (Part000.frame s) (Part000.mainLoop ticks) g.
Proof.
  intros Hp. cbn [Part000.mainLoop].
  now rewrite (bind_run _ _ _ _ _ Hp).
Qed.

Lemma Tutorial4_mainLoop_turn (evs : list display.Event)
    (ticks : list (list display.Event)) (s0 s : Tutorial4Challenge.State)
    (g0 g : World) :
  Tutorial4Challenge.Poll evs s0 g0 = Ret (s, true) g ->
  Tutorial4Challenge.mainLoop (evs :: ticks) s0 g0
  = bind (Tutorial4Challenge.frame s) (Tutorial4Challenge.mainLoop ticks) g.
Proof.
  intros Hp. cbn [Tutorial4Challenge.mainLoop].
  now rewrite (bind_run _ _ _ _ _ Hp).
Qed.

Lemma Tutorial6_mainLoop_turn `{Glm} (evs : list display.Event)
    (ticks : list (list display.Event)) (s0 s : Tutorial6Challenge.State)
    (g0 g : World) :
  Tutorial6Challenge.Poll evs s0 g0 = Ret (s, true) g ->
  Tutorial6Challenge.mainLoop (evs :: ticks) s0 g0
  = bind (Tutorial6Challenge.frame s) (Tutorial6Challenge.mainLoop ticks) g.
Proof.
  intros Hp. cbn [Tutorial6Challenge.mainLoop].
  now rewrite (bind_run _ _ _ _ _ Hp).
Qed.

Lemma count_logged (p : event -> bool) (d : list event) (g : World) :
  count_if p (log (logged d g)) = count_if p (log g) + count_if p d.
Proof. unfold logged; simpl. apply count_if_app. Qed.

Lemma log_pop_reply (g : World) : log (pop_reply g) = log g.
Proof. reflexivity. Qed.

(** C1 (amended).  A turn of the loop whose acquisition of the surface image
    fails with message [msg] prints the message and then:
    - if [msg] contains "Lost" or "Outdated", calls [Resize] exactly once,
      with the last known size [s.size]; the loop goes on with the state
      that [Resize] returns, and ends in the panic of [Resize] if it panics;
    - if [msg] contains "Timeout" and neither "Lost" nor "Outdated", calls
      [Resize] not at all and the loop goes on with the state unchanged.
    Shown for part_000 and for tutorial6-challenge (whose turn starts with
    [Update]). *)
Theorem C1_recovery_follows_message :
  (forall (evs : list display.Event) (ticks : list (list display.Event))
          (s0 s : Part000.State) (g0 g : World) (sc : handle) (msg : string),
      Part000.Poll evs s0 g0 = Ret (s, true) g ->
      Part000.swapChain s = Some sc -> next_reply g = Some msg ->
      let g1 := logged [Rejected TextureView msg; Printed msg] (pop_reply g) in
      (strings.Contains msg "Lost" = true
       \/ strings.Contains msg "Outdated" = true ->
       Part000.frame s g = Part000.Resize (Part000.size s) s g1
       /\ count_if isEnteredResize (log (final (Part000.frame s g)))
          = count_if isEnteredResize (log g) + 1
       /\ Part000.mainLoop (evs :: ticks) s0 g0
          = bind (Part000.Resize (Part000.size s) s)
              (Part000.mainLoop ticks) g1)
      /\ (strings.Contains msg "Lost" = false ->
          strings.Contains msg "Outdated" = false ->
          strings.Contains msg "Timeout" = true ->
          Part000.frame s g = Ret s g1
          /\ count_if isEnteredResize (log (final (Part000.frame s g)))
             = count_if isEnteredResize (log g)
          /\ Part000.mainLoop (evs :: ticks) s0 g0
             = Part000.mainLoop ticks s g1))
  /\ (forall (G : Glm) (evs : list display.Event)
             (ticks : list (list display.Event))
             (s0 s s1 : Tutorial6Challenge.State) (g0 g gu : World)
             (sc : handle) (msg : string),
      Tutorial6Challenge.Poll evs s0 g0 = Ret (s, true) g ->
      Tutorial6Challenge.Update s g = Ret s1 gu ->
      Tutorial6Challenge.swapChain s = Some sc -> next_reply g = Some msg ->
      let g1 := logged [Rejected TextureView msg; Printed msg] (pop_reply gu) in
      (strings.Contains msg "Lost" = true
       \/ strings.Contains msg "Outdated" = true ->
       Tutorial6Challenge.frame s g
       = Tutorial6Challenge.Resize (Tutorial6Challenge.size s) s1 g1
       /\ count_if isEnteredResize (log (final (Tutorial6Challenge.frame s g)))
          = count_if isEnteredResize (log g) + 1
       /\ Tutorial6Challenge.mainLoop (evs :: ticks) s0 g0
          = bind (Tutorial6Challenge.Resize (Tutorial6Challenge.size s) s1)
              (Tutorial6Challenge.mainLoop ticks) g1)
      /\ (strings.Contains msg "Lost" = false ->
          strings.Contains msg "Outdated" = false ->
          strings.Contains msg "Timeout" = true ->
          Tutorial6Challenge.frame s g = Ret s1 g1
          /\ count_if isEnteredResize
               (log (final (Tutorial6Challenge.frame s g)))
             = count_if isEnteredResize (log g)
          /\ Tutorial6Challenge.mainLoop (evs :: ticks) s0 g0
             = Tutorial6Challenge.mainLoop ticks s1 g1)).
Proof.
  split.
  - intros evs ticks s0 s g0 g sc msg Hp Hsc Hr g1.
    pose proof (Part000_frame_not_acquired s g sc msg Hsc Hr) as Hf.
    fold g1 in Hf.
    rewrite (Part000_mainLoop_turn evs ticks s0 s g0 g Hp).
    split.
    + intros Hlo.
      assert (Hfr : Part000.frame s g = Part000.Resize (Part000.size s) s g1).
      { rewrite Hf. destruct Hlo as [-> | Ho]; [reflexivity|].
        rewrite Ho. now destruct (strings.Contains msg "Lost"). }
      split; [exact Hfr|]. split.
      * rewrite Hfr, Part000_Resize_counted. subst g1.
        rewrite count_logged, log_pop_reply. simpl. lia.
      * unfold bind at 1. rewrite Hfr. reflexivity.
    + intros Hl Ho Ht.
      assert (Hfr : Part000.frame s g = Ret s g1).
      { rewrite Hf, Hl, Ho, Ht. reflexivity. }
      split; [exact Hfr|]. split.
      * rewrite Hfr. subst g1. simpl final.
        rewrite count_logged, log_pop_reply. simpl. lia.
      * unfold bind. rewrite Hfr. reflexivity.
  - intros G evs ticks s0 s s1 g0 g gu sc msg Hp Hu Hsc Hr g1.
    pose proof (Tutorial6_frame_not_acquired s s1 g gu sc msg Hu Hsc Hr) as Hf.
    fold g1 in Hf.
    destruct (Tutorial6_Update_keeps s s1 g gu Hu)
      as (_ & _ & _ & q & _ & Hlog).
    rewrite (Tutorial6_mainLoop_turn evs ticks s0 s g0 g Hp).
    split.
    + intros Hlo.
      assert (Hfr : Tutorial6Challenge.frame s g
                    = Tutorial6Challenge.Resize (Tutorial6Challenge.size s)
                        s1 g1).
      { rewrite Hf. destruct Hlo as [-> | Ho]; [reflexivity|].
        rewrite Ho. now destruct (strings.Contains msg "Lost"). }
      split; [exact Hfr|]. split.
      * rewrite Hfr, Tutorial6_Resize_counted. subst g1.
        rewrite count_logged, log_pop_reply, Hlog, count_if_app. simpl. lia.
      * unfold bind at 1. rewrite Hfr. reflexivity.
    + intros Hl Ho Ht.
      assert (Hfr : Tutorial6Challenge.frame s g = Ret s1 g1).
      { rewrite Hf, Hl, Ho, Ht. reflexivity. }
      split; [exact Hfr|]. split.
      * rewrite Hfr. subst g1. simpl final.
        rewrite count_logged, log_pop_reply, Hlog, count_if_app. simpl. lia.
      * unfold bind. rewrite Hfr. reflexivity.
Qed.

Lemma C1_witness :
  (let g := scripted1 [Some "Surface is Outdated"] in
   Part000.frame Part000_sample g
   = Part000.Resize size0 Part000_sample
       (logged [Rejected TextureView "Surface is Outdated";
                Printed "Surface is Outdated"] (pop_reply g)))
  /\ (let g := scripted1 [Some "Timeout"] in
      Tutorial6Challenge.frame Tutorial6_sample g
      = Ret Tutorial6_sample
          (logged [Rejected TextureView "Timeout"; Printed "Timeout"]
             (pop_reply (logged [WroteBuffer 4 (Some 11) 0] g)))).
Proof.
  split.
  - intro g.
    exact (proj1 (proj1 (proj1 C1_recovery_follows_message [] []
             Part000_sample Part000_sample g g 5 "Surface is Outdated"
             eq_refl eq_refl eq_refl) (or_intror eq_refl))).
  - intro g.
    exact (proj1 (proj2 (proj2 C1_recovery_follows_message trivialGlm [] []
             Tutorial6_sample Tutorial6_sample Tutorial6_sample g g
             (logged [WroteBuffer 4 (Some 11) 0] g) 5 "Timeout"
             eq_refl eq_refl eq_refl eq_refl) eq_refl eq_refl eq_refl)).
Defined.

(** C1 as it is written fails in two places.  A message may contain
    "Timeout" together with "Lost": the first case of the switch wins and
    [Resize] is called once, not zero times.  And after "Lost" the loop does
    not go on when the device rejects the new swap chain: [Resize] panics. *)
Lemma C1_counterexample :
  (let msg := "Timeout while the surface was Lost" in
   strings.Contains msg "Timeout" = true
   /\ count_if isEnteredResize
        (log (final (Part000.frame Part000_sample (scripted1 [Some msg]))))
      = 1)
  /\ Part000.mainLoop [[]; []; []] Part000_sample
       (scripted1 [Some "Lost"; Some "rejected"])
     = Panic (PanicError "rejected")
         (logged [Rejected TextureView "Lost"; Printed "Lost";
                  EnteredResize size0; Dropped SwapChain 5;
                  Rejected SwapChain "rejected"]
            world1).
Proof.
  split; [split|]; vm_compute; reflexivity.
Qed.

(** C2. A turn of the loop whose [Render] returns an error whose text
    contains none of "Lost", "Outdated" and "Timeout" prints the text and
    panics with that error; the loop ends there, whatever polls were still
    to come: the world of the panic is the world of the failed [Render] plus
    the printed line, so no further frame is attempted.  Shown for part_000
    and tutorial4-challenge. *)
Theorem C2_unknown_error_is_fatal :
  (forall (evs : list display.Event) (ticks : list (list display.Event))
          (s0 s : Part000.State) (g0 g g1 : World) (msg : string),
      Part000.Poll evs s0 g0 = Ret (s, true) g ->
      Part000.Render s g = Ret (Some msg) g1 ->
      strings.Contains msg "Lost" = false ->
      strings.Contains msg "Outdated" = false ->
      strings.Contains msg "Timeout" = false ->
      Part000.frame s g = Panic (PanicError msg) (logged [Printed msg] g1)
      /\ Part000.mainLoop (evs :: ticks) s0 g0
         = Panic (PanicError msg) (logged [Printed msg] g1))
  /\ (forall (evs : list display.Event) (ticks : list (list display.Event))
             (s0 s : Tutorial4Challenge.State) (g0 g g1 : World)
             (msg : string),
      Tutorial4Challenge.Poll evs s0 g0 = Ret (s, true) g ->
      Tutorial4Challenge.Render s g = Ret (Some msg) g1 ->
      strings.Contains msg "Lost" = false ->
      strings.Contains msg "Outdated" = false ->
      strings.Contains msg "Timeout" = false ->
      Tutorial4Challenge.frame s g
      = Panic (PanicError msg) (logged [Printed msg] g1)
      /\ Tutorial4Challenge.mainLoop (evs :: ticks) s0 g0
         = Panic (PanicError msg) (logged [Printed msg] g1)).
Proof.
  split.
  - intros evs ticks s0 s g0 g g1 msg Hp Hr Hl Ho Ht.
    assert (Hf : Part000.frame s g
                 = Panic (PanicError msg) (logged [Printed msg] g1)).
    { unfold Part000.frame. rewrite (bind_run _ _ _ _ _ Hr).
      unfold Part000.recover. rewrite (bind_run _ _ _ _ _ (emit_run _ _)).
      now rewrite Hl, Ho, Ht. }
    split; [exact Hf|].
    rewrite (Part000_mainLoop_turn evs ticks s0 s g0 g Hp).
    now apply bind_panic.
  - intros evs ticks s0 s g0 g g1 msg Hp Hr Hl Ho Ht.
    assert (Hf : Tutorial4Challenge.frame s g
                 = Panic (PanicError msg) (logged [Printed msg] g1)).
    { unfold Tutorial4Challenge.frame. rewrite (bind_run _ _ _ _ _ Hr).
      unfold Tutorial4Challenge.recover.
      rewrite (bind_run _ _ _ _ _ (emit_run _ _)).
      now rewrite Hl, Ho, Ht. }
    split; [exact Hf|].
    rewrite (Tutorial4_mainLoop_turn evs ticks s0 s g0 g Hp).
    now apply bind_panic.
Qed.

Lemma C2_witness :
  (let g := scripted1 [Some "Validation Error"] in
   Part000.mainLoop [[]; []] Part000_sample g
   = Panic (PanicError "Validation Error")
       (logged [Printed "Validation Error"]
          (logged [Rejected TextureView "Validation Error"] (pop_reply g))))
  /\ (let g := scripted1 [None; Some "Out of memory"] in
      Tutorial4Challenge.mainLoop [[]; []] Tutorial4_sample g
      = Panic (PanicError "Out of memory")
          (logged [Printed "Out of memory"]
             (logged [Created TextureView 20 NoDescr;
                      Rejected CommandEncoder "Out of memory";
                      Dropped TextureView 20]
                (with_replies [] (bumped g))))).
Proof.
  split.
  - intro g.
    exact (proj2 (proj1 C2_unknown_error_is_fatal [] [[]]
             Part000_sample Part000_sample g g _ "Validation Error"
             eq_refl eq_refl eq_refl eq_refl eq_refl)).
  - intro g.
    exact (proj2 (proj2 C2_unknown_error_is_fatal [] [[]]
             Tutorial4_sample Tutorial4_sample g g _ "Out of memory"
             eq_refl eq_refl eq_refl eq_refl eq_refl)).
Defined.

(** More fuel does not change the array that the loop produces. *)
Lemma fillIndices_more_fuel (fuel : nat) :
  forall (bound i : N) (index : nat) (a r : list N),
    Tutorial4Challenge.fillIndices fuel bound i index a
    = Tutorial4Challenge.Filled r ->
    Tutorial4Challenge.fillIndices (S fuel) bound i index a
    = Tutorial4Challenge.Filled r.
Proof.
  induction fuel as [|fuel IH]; intros bound i index a r Hf.
  - discriminate.
  - cbn [Tutorial4Challenge.fillIndices] in Hf |- *.
    destruct (i <? bound)%N; [|exact Hf].
    destruct (Tutorial4Challenge.store a index _) as [a1|]; [|discriminate].
    destruct (Tutorial4Challenge.store a1 (index + 1) i) as [a2|];
      [|discriminate].
    destruct (Tutorial4Challenge.store a2 (index + 2) 0%N) as [a3|];
      [|discriminate].
    apply IH, Hf.
Qed.

Lemma fillIndices_fuel_ge (k fuel : nat) (bound i : N) (index : nat)
    (a r : list N) :
  Tutorial4Challenge.fillIndices fuel bound i index a
  = Tutorial4Challenge.Filled r ->
  Tutorial4Challenge.fillIndices (k + fuel) bound i index a
  = Tutorial4Challenge.Filled r.
Proof.
  intros Hf. induction k as [|k IH]; [exact Hf|].
  now apply fillIndices_more_fuel.
Qed.

Lemma challengeIndices_filled :
  Tutorial4Challenge.challengeIndices = Tutorial4Challenge.Filled (fan 98).
Proof. vm_compute; reflexivity. Qed.

(** C10. The loop that fills the challenge indices, with [numVertices] =
    100 and [numTriangles] = 98: it ends without leaving the array (99
    turns of fuel are enough, and so is any larger amount, among them the
    [2^16] of [challengeIndices]); the array it leaves is the 294 entries
    [(i+1, i, 0)] for [i] from 1 to 98; and every entry is below
    [numVertices], that is, within [0, 99]. *)
Theorem C10_challenge_indices_in_bounds :
  Tutorial4Challenge.numVertices = 100%N
  /\ Tutorial4Challenge.numTriangles = 98%N
  /\ (forall fuel : nat,
         99 <= fuel ->
         Tutorial4Challenge.fillIndices fuel
           (Tutorial4Challenge.numTriangles + 1) 1 0
           (repeat 0%N (N.to_nat (Tutorial4Challenge.numTriangles * 3)))
         = Tutorial4Challenge.Filled (fan 98))
  /\ Tutorial4Challenge.challengeIndices = Tutorial4Challenge.Filled (fan 98)
  /\ length (fan 98) = 294
  /\ Forall (fun v => (v < Tutorial4Challenge.numVertices)%N) (fan 98).
Proof.
  assert (H99 : Tutorial4Challenge.fillIndices 99
                  (Tutorial4Challenge.numTriangles + 1) 1 0
                  (repeat 0%N (N.to_nat (Tutorial4Challenge.numTriangles * 3)))
                = Tutorial4Challenge.Filled (fan 98))
    by (vm_compute; reflexivity).
  split; [reflexivity|]. split; [reflexivity|]. split; [|split; [|split]].
  - intros fuel Hge.
    replace fuel with ((fuel - 99) + 99) by lia.
    now apply fillIndices_fuel_ge.
  - exact challengeIndices_filled.
  - reflexivity.
  - apply Stdlib.Lists.List.Forall_forall. intros v Hin.
    unfold fan in Hin. apply in_flat_map in Hin as (i & Hi & Hv).
    apply in_seq in Hi. unfold Tutorial4Challenge.numVertices.
    simpl in Hv. destruct Hv as [<- | [<- | [<- | []]]]; lia.
Qed.

Lemma C10_witness :
  Tutorial4Challenge.fillIndices 100
    (Tutorial4Challenge.numTriangles + 1) 1 0
    (repeat 0%N (N.to_nat (Tutorial4Challenge.numTriangles * 3)))
  = Tutorial4Challenge.Filled (fan 98).
Proof.
  apply (proj1 (proj2 (proj2 C10_challenge_indices_in_bounds))). lia.
Defined.

Lemma all_released_intro (d : list event) :
  (forall k h x, In (Created k h x) d -> In (Dropped k h) d) ->
  all_released d = true.
Proof.
  intros Hall. unfold all_released.
  apply Stdlib.Lists.List.forallb_forall. intros e Hin.
  destruct e; try reflexivity.
  apply Stdlib.Lists.List.existsb_exists. exists (Dropped k h).
  split; [now apply Hall with d0 | apply isDropOf_refl].
Qed.

(** Membership in an explicit list. *)
Ltac in_list := cbn [In]; repeat first [left; reflexivity | right].

(** Every creation of an explicit log has its release in it. *)
Ltac released :=
  apply all_released_intro;
  let k := fresh "k" in let h := fresh "h" in let x := fresh "x" in
  let Hin := fresh "Hin" in
  intros k h x Hin; cbn [In] in Hin;
  repeat (destruct Hin as [Hin | Hin];
          [ first [ discriminate Hin
                  | injection Hin as <- <- <-; in_list ] | ]);
  destruct Hin.


(** Case analysis on the script of replies as far as the run of [H] asks
    for it; each case is run to its end. *)
Ltac eval_in H :=
  cbv -[app Nat.add all_released count_if png_Decode happyTreePng
        happyTreeCartoonPng uint32 mul32 image.Dx image.Dy
        Tutorial4Challenge.challengeIndices] in H.

Ltac split_replies H :=
  repeat (eval_in H;
          match type of H with
          | context [match ?rs with [] => _ | _ :: _ => _ end] =>
            is_var rs; destruct rs as [|[?|] ?]
          end);
  eval_in H.

Lemma TextureFromImage_outcome (device queue : option handle)
    (img : image.Image) (label : string) (g g' : World)
    (ot : option Texture) (err : error) :
  TextureFromImage device queue img label g = Ret (ot, err) g' ->
  exists d : list event,
    log g' = log g ++ d
    /\ match err with
       | Some _ => ot = None /\ all_released d = true
       | None => exists x v sm : handle,
                   ot = Some {| texture := Some x; view := Some v;
                                sampler := Some sm |}
       end.
Proof.
  intros H. destruct g as [n rs pf cf cp ca l].
  destruct device as [dv|], queue as [q|]; split_replies H;
    try discriminate H; injection H as <- <- <-; cbn [log];
    rewrite <- ?app_assoc; cbn [app];
    (eexists; split; [try reflexivity; symmetry; apply app_nil_r|]);
    first [ split; [reflexivity | released]
          | do 3 eexists; reflexivity ].
Qed.

(** The cases of a script of replies up to [n] calls: it ends, it refuses
    the next call, or it grants it and goes on. *)
Ltac split_script rs n :=
  lazymatch n with
  | O => idtac
  | S ?n' =>
    let rs' := fresh "rs" in
    destruct rs as [|[?|] rs']; [ | | split_script rs' n']
  end.

(** Run the code of the goal on data that decide every question. *)
Ltac eval_goal :=
  cbv -[app Nat.add all_released count_if uint32 mul32 image.Dx image.Dy
        Tutorial4Challenge.challengeIndices fan];
  rewrite <- ?app_assoc; cbn [app].

(** [TextureFromImage] with a device and a queue always returns, with the
    error of its first failing step. *)
Lemma TextureFromImage_total (dv q : handle) (img : image.Image)
    (label : string) (g : World) :
  exists (ot : option Texture) (err : error) (g' : World) (d : list event),
    TextureFromImage (Some dv) (Some q) img label g = Ret (ot, err) g'
    /\ err = first_error TextureFromImage_steps (replies g)
    /\ log g' = log g ++ d
    /\ match err with
       | Some _ => ot = None /\ all_released d = true
       | None => Texture_complete ot
       end.
Proof.
  destruct g as [n rs pf cf cp ca l].
  unfold TextureFromImage, TextureFromImage_body.
  split_script rs 3.
  all: do 4 eexists.
  all: eval_goal.
  all: (split; [reflexivity|]).
  all: (split; [reflexivity|]).
  all: cbn [log].
  all: (split; [reflexivity|]).
  all: first [ split; [reflexivity | released]
             | do 3 eexists; reflexivity ].
Qed.

(** [InitState] of part_000 always returns; the error it returns is the
    error of the first step that fails; with an error there is no state and
    nothing is left unreleased, without one the state is complete. *)
Lemma Part000_InitState_outcome `{Assets} (window : display.Window)
    (g : World) :
  exists (os : option Part000.State) (err : error) (g' : World)
         (d : list event),
    Part000.InitState window g = Ret (os, err) g'
    /\ err = first_error
               (Part000_steps (png_Decode happyTreePng)
                  (png_Decode happyTreeCartoonPng)) (replies g)
    /\ log g' = log g ++ d
    /\ match err with
       | Some _ => os = None /\ all_released d = true
       | None => exists s : Part000.State,
                   os = Some s /\ Part000_complete s
       end.
Proof.
  destruct g as [n rs pf cf cp ca l], window as [sz].
  unfold Part000.InitState, Part000.InitState_body, TextureFromPNGBytes.
  destruct (png_Decode happyTreePng) as [img1|e1],
           (png_Decode happyTreeCartoonPng) as [img2|e2].
  all: split_script rs 16.
  all: do 4 eexists.
  all: eval_goal.
  all: (split; [reflexivity|]).
  all: (split; [reflexivity|]).
  all: cbn [log].
  all: (split; [reflexivity|]).
  all: first [ split; [reflexivity | released]
             | eexists; split; [reflexivity|];
               repeat split; try discriminate; do 3 eexists; reflexivity ].
Qed.



(** A turn of the loop on a healthy backend renders and changes nothing in
    the state. *)
Lemma Part000_frame_healthy (s : Part000.State) (g : World)
    (sc dv q : handle) :
  Part000.swapChain s = Some sc -> Part000.device s = Some dv ->
  Part000.queue s = Some q -> healthy g ->
  Part000.frame s g
  = Ret s (logged (Part000_frame_events s sc q (fresh g))
             (with_fresh (fresh g + 4) g)).
Proof.
  intros Hsc Hd Hq Hg. unfold Part000.frame.
  rewrite (bind_run _ _ _ _ _ (Part000_Render_healthy s g sc dv q Hsc Hd Hq Hg)).
  reflexivity.
Qed.

Lemma Part000_frame_events_counts (s : Part000.State) (sc q v : handle) :
  let d := Part000_frame_events s sc q v in
  count_if isRenderPass d = 1 /\ count_if isClearingPass d = 1
  /\ count_if isSubmit d = 1 /\ count_if isSubmitOfOne d = 1
  /\ count_if isPresent d = 1 /\ count_if isSwapChainCreation d = 0
  /\ count_if isPrinted d = 0 /\ count_if isEnteredResize d = 0.
Proof. repeat split. Qed.

Lemma Tutorial6_frame_events_counts `{Glm} (s : Tutorial6Challenge.State)
    (sc q v : handle) :
  let d := Tutorial6_frame_events s sc q v in
  count_if isRenderPass d = 1 /\ count_if isClearingPass d = 1
  /\ count_if isSubmit d = 1 /\ count_if isSubmitOfOne d = 1
  /\ count_if isPresent d = 1 /\ count_if isSwapChainCreation d = 0
  /\ count_if isPrinted d = 0 /\ count_if isEnteredResize d = 0.
Proof. repeat split. Qed.

(** [n] turns of the loop on a healthy backend, no window event arriving:
    the loop returns with the state it started from, [n] frames were
    presented, and no swap chain was created. *)
Lemma Part000_mainLoop_healthy (n : nat) :
  forall (s : Part000.State) (g : World) (sc dv q : handle),
    Part000.swapChain s = Some sc -> Part000.device s = Some dv ->
    Part000.queue s = Some q -> healthy g ->
    exists (g' : World) (d : list event),
      Part000.mainLoop (repeat [] n) s g = Ret s g'
      /\ healthy g' /\ log g' = log g ++ d
      /\ count_if isSwapChainCreation d = 0
      /\ count_if isPresent d = n
      /\ count_if isClearingPass d = n
      /\ count_if isSubmitOfOne d = n
      /\ count_if isPrinted d = 0.
Proof.
  induction n as [|n IH]; intros s g sc dv q Hsc Hd Hq Hg.
  - exists g, []. cbn. rewrite app_nil_r. repeat split; assumption.
  - cbn [repeat].
    rewrite (Part000_mainLoop_turn [] (repeat [] n) s s g g eq_refl).
    rewrite (bind_run _ _ _ _ _ (Part000_frame_healthy s g sc dv q Hsc Hd Hq Hg)).
    set (g1 := logged _ _).
    assert (Hg1 : healthy g1) by exact Hg.
    destruct (IH s g1 sc dv q Hsc Hd Hq Hg1)
      as (g' & d & Hrun & Hh & Hlog & Hc1 & Hc2 & Hc3 & Hc4 & Hc5).
    exists g', (Part000_frame_events s sc q (fresh g) ++ d).
    split; [exact Hrun|]. split; [exact Hh|].
    split; [rewrite Hlog; subst g1; cbn [log logged with_log with_fresh];
            now rewrite <- app_assoc|].
    rewrite !count_if_app, Hc1, Hc2, Hc3, Hc4, Hc5.
    repeat split.
Qed.

(** [InitState] of part_000 on a healthy backend with decodable assets. *)
Lemma Part000_InitState_healthy `{Assets} (window : display.Window)
    (g : World) (img1 img2 : image.Image) :
  healthy g ->
  png_Decode happyTreePng = inl img1 ->
  png_Decode happyTreeCartoonPng = inl img2 ->
  exists (s : Part000.State) (g1 : World) (d : list event)
         (c : SwapChainDescriptor) (sc dv q : handle),
    Part000.InitState window g = Ret (Some s, None) g1
    /\ healthy g1 /\ log g1 = log g ++ d
    /\ count_if isSwapChainCreation d = 1
    /\ Part000.swapChain s = Some sc /\ Part000.device s = Some dv
    /\ Part000.queue s = Some q
    /\ Part000.config s = Some c
    /\ Width c = dpi.Width (display.InnerSize window)
    /\ Height c = dpi.Height (display.InnerSize window)
    /\ Part000.size s = display.InnerSize window.
Proof.
  unfold healthy. intros Hg E1 E2.
  destruct g as [n rs pf cf cp ca l], window as [[w h]]; cbn in Hg; subst rs.
  unfold Part000.InitState, Part000.InitState_body, TextureFromPNGBytes.
  rewrite E1, E2.
  do 7 eexists. eval_goal.
  split; [reflexivity|]. cbn.
  split; [reflexivity|]. split; [reflexivity|].
  repeat split.
Qed.

(** C5. On a healthy backend, with the swap chain, the device and the queue
    set, one call of [Render] returns nil and logs exactly the events of one
    frame: one render pass, whose single colour attachment is cleared, one
    submission, of one command buffer, one presentation, and no creation
    of a swap chain (part_000 and tutorial6-challenge).  And after
    [InitState] of part_000 on a healthy backend, which creates exactly one
    swap chain, any number [n] of turns of the loop present [n] frames,
    print no error and create no further swap chain. *)
Theorem C5_healthy_frames :
  (forall (s : Part000.State) (g : World) (sc dv q : handle),
      Part000.swapChain s = Some sc -> Part000.device s = Some dv ->
      Part000.queue s = Some q -> healthy g ->
      let d := Part000_frame_events s sc q (fresh g) in
      Part000.Render s g = Ret None (logged d (with_fresh (fresh g + 4) g))
      /\ count_if isRenderPass d = 1 /\ count_if isClearingPass d = 1
      /\ count_if isSubmit d = 1 /\ count_if isSubmitOfOne d = 1
      /\ count_if isPresent d = 1 /\ count_if isSwapChainCreation d = 0)
  /\ (forall (G : Glm) (s : Tutorial6Challenge.State) (g : World)
             (sc dv q : handle),
      Tutorial6Challenge.swapChain s = Some sc ->
      Tutorial6Challenge.device s = Some dv ->
      Tutorial6Challenge.queue s = Some q -> healthy g ->
      let d := Tutorial6_frame_events s sc q (fresh g) in
      Tutorial6Challenge.Render s g
      = Ret None (logged d (with_fresh (fresh g + 4) g))
      /\ count_if isRenderPass d = 1 /\ count_if isClearingPass d = 1
      /\ count_if isSubmit d = 1 /\ count_if isSubmitOfOne d = 1
      /\ count_if isPresent d = 1 /\ count_if isSwapChainCreation d = 0)
  /\ (forall (A : Assets) (window : display.Window) (g : World)
             (img1 img2 : image.Image) (n : nat),
      healthy g ->
      png_Decode happyTreePng = inl img1 ->
      png_Decode happyTreeCartoonPng = inl img2 ->
      exists (s : Part000.State) (g1 g2 : World) (d1 d2 : list event),
        Part000.InitState window g = Ret (Some s, None) g1
        /\ Part000.mainLoop (repeat [] n) s g1 = Ret s g2
        /\ log g1 = log g ++ d1 /\ log g2 = log g1 ++ d2
        /\ count_if isSwapChainCreation d1 = 1
        /\ count_if isSwapChainCreation d2 = 0
        /\ count_if isPresent d2 = n
        /\ count_if isClearingPass d2 = n
        /\ count_if isSubmitOfOne d2 = n
        /\ count_if isPrinted d2 = 0).
Proof.
  split; [|split].
  - intros s g sc dv q Hsc Hd Hq Hg d.
    split; [now apply Part000_Render_healthy with dv|].
    repeat split.
  - intros G s g sc dv q Hsc Hd Hq Hg d.
    split; [now apply Tutorial6_Render_healthy with dv|].
    repeat split.
  - intros A window g img1 img2 n Hg E1 E2.
    destruct (Part000_InitState_healthy window g img1 img2 Hg E1 E2)
      as (s & g1 & d1 & c & sc & dv & q & Hrun & Hg1 & Hlog1 & Hc & Hsc & Hd
          & Hq & _).
    destruct (Part000_mainLoop_healthy n s g1 sc dv q Hsc Hd Hq Hg1)
      as (g2 & d2 & Hloop & _ & Hlog2 & Hc1 & Hc2 & Hc3 & Hc4 & Hc5).
    exists s, g1, g2, d1, d2. repeat split; assumption.
Qed.

Lemma C5_witness :
  (Part000.Render Part000_sample world1
   = Ret None (logged (Part000_frame_events Part000_sample 5 4 20)
                 (with_fresh 24 world1)))
  /\ (Tutorial6Challenge.Render Tutorial6_sample world1
      = Ret None (logged (Tutorial6_frame_events Tutorial6_sample 5 4 20)
                    (with_fresh 24 world1)))
  /\ (exists (s : Part000.State) (g1 g2 : World) (d1 d2 : list event),
        @Part000.InitState sampleAssets window0 world0 = Ret (Some s, None) g1
        /\ Part000.mainLoop (repeat [] 10) s g1 = Ret s g2
        /\ log g1 = log world0 ++ d1 /\ log g2 = log g1 ++ d2
        /\ count_if isSwapChainCreation d1 = 1
        /\ count_if isSwapChainCreation d2 = 0
        /\ count_if isPresent d2 = 10
        /\ count_if isClearingPass d2 = 10
        /\ count_if isSubmitOfOne d2 = 10
        /\ count_if isPrinted d2 = 0).
Proof.
  split; [|split].
  - exact (proj1 (proj1 C5_healthy_frames Part000_sample world1 5 3 4
                    eq_refl eq_refl eq_refl eq_refl)).
  - exact (proj1 (proj1 (proj2 C5_healthy_frames) trivialGlm
                    Tutorial6_sample world1 5 3 4
                    eq_refl eq_refl eq_refl eq_refl)).
  - exact (proj2 (proj2 C5_healthy_frames) sampleAssets window0 world0
             _ _ 10 eq_refl eq_refl eq_refl).
Defined.

Lemma on_return_elim {A} (o : outcome A) (P : A -> World -> Prop)
    (a : A) (g : World) :
  on_return o P -> o = Ret a g -> P a g.
Proof. intros Hr ->. exact Hr. Qed.

(** [Resize] never assigns [numChallengeIndices]. *)
Lemma Tutorial4_Resize_keeps (newSize : dpi.PhysicalSize)
    (s : Tutorial4Challenge.State) (g : World) :
  on_return (Tutorial4Challenge.Resize newSize s g)
    (fun s' _ => Tutorial4Challenge.numChallengeIndices s'
                 = Tutorial4Challenge.numChallengeIndices s).
Proof.
  destruct s, newSize as [[|w] [|h]], g as [n rs pf cf cp ca l].
  all: destruct config as [c|], swapChain as [sc|], device as [dv|],
         rs as [|[m|] rest]; exact I || reflexivity.
Qed.

Lemma Tutorial4_onEvent_keeps (e : display.Event)
    (s : Tutorial4Challenge.State) (g : World) :
  on_return (Tutorial4Challenge.onEvent e s g)
    (fun s' _ => Tutorial4Challenge.numChallengeIndices s'
                 = Tutorial4Challenge.numChallengeIndices s).
Proof.
  destruct e as [state code vk|w h|]; cbn [Tutorial4Challenge.onEvent].
  - destruct (events.isSpace vk); destruct s; reflexivity.
  - apply Tutorial4_Resize_keeps.
  - reflexivity.
Qed.

Lemma Tutorial4_Poll_keeps (evs : list display.Event) :
  forall (s : Tutorial4Challenge.State) (g : World),
    on_return (Tutorial4Challenge.Poll evs s g)
      (fun r _ => Tutorial4Challenge.numChallengeIndices (fst r)
                  = Tutorial4Challenge.numChallengeIndices s).
Proof.
  induction evs as [|e evs IH]; intros s g; [reflexivity|].
  pose proof (Tutorial4_onEvent_keeps e s g) as He.
  destruct e as [state code vk|w h|]; cbn [Tutorial4Challenge.Poll];
    try reflexivity; unfold bind;
    destruct (Tutorial4Challenge.onEvent _ s g) as [s1 g1|p g1];
    cbn [on_return] in He |- *; try exact I;
    specialize (IH s1 g1);
    destruct (Tutorial4Challenge.Poll evs s1 g1) as [[s2 b] g2|p g2];
    cbn [on_return fst] in IH |- *; congruence.
Qed.

Lemma Tutorial4_frame_keeps (s : Tutorial4Challenge.State) (g : World) :
  on_return (Tutorial4Challenge.frame s g)
    (fun s' _ => Tutorial4Challenge.numChallengeIndices s'
                 = Tutorial4Challenge.numChallengeIndices s).
Proof.
  unfold Tutorial4Challenge.frame, bind.
  destruct (Tutorial4Challenge.Render s g) as [[msg|] g1|p g1];
    cbn [on_return Tutorial4Challenge.recover]; try reflexivity.
  unfold bind. rewrite emit_run.
  destruct (strings.Contains msg "Lost");
    [apply Tutorial4_Resize_keeps|].
  destruct (strings.Contains msg "Outdated");
    [apply Tutorial4_Resize_keeps|].
  destruct (strings.Contains msg "Timeout"); reflexivity.
Qed.

Lemma Tutorial4_mainLoop_keeps (ticks : list (list display.Event)) :
  forall (s : Tutorial4Challenge.State) (g : World),
    on_return (Tutorial4Challenge.mainLoop ticks s g)
      (fun s' _ => Tutorial4Challenge.numChallengeIndices s'
                   = Tutorial4Challenge.numChallengeIndices s).
Proof.
  induction ticks as [|evs ticks IH]; intros s g; [reflexivity|].
  cbn [Tutorial4Challenge.mainLoop]. unfold bind.
  pose proof (Tutorial4_Poll_keeps evs s g) as Hp.
  destruct (Tutorial4Challenge.Poll evs s g) as [[s1 [|]] g1|p g1];
    cbn [on_return fst] in Hp |- *; try exact Hp; try exact I.
  pose proof (Tutorial4_frame_keeps s1 g1) as Hf.
  destruct (Tutorial4Challenge.frame s1 g1) as [s2 g2|p g2];
    cbn [on_return] in Hf |- *; try exact I.
  specialize (IH s2 g2).
  destruct (Tutorial4Challenge.mainLoop ticks s2 g2) as [s3 g3|p g3];
    cbn [on_return] in IH |- *; congruence.
Qed.

(** [InitState] of tutorial4-challenge, when it returns a state: the count
    of challenge indices is still the zero of [&State{}], although the
    buffer of the 294 indices has been created and stored. *)
Lemma Tutorial4_InitState_outcome (window : display.Window) (g : World) :
  on_return (Tutorial4Challenge.InitState window g)
    (fun r g' =>
       match fst r with
       | Some s =>
         snd r = None
         /\ Tutorial4Challenge.numChallengeIndices s = 0%N
         /\ Tutorial4Challenge.numIndices s = 9%N
         /\ Tutorial4Challenge.useComplex s = false
         /\ exists (h : handle) (d : list event),
              Tutorial4Challenge.challengeIndexBuffer s = Some h
              /\ log g' = log g ++ d
              /\ In (Created Buffer h
                       (ForBufferInit "Challenge Index Buffer"
                          BufferUsage_Index (IndexData (fan 98)))) d
       | None => snd r <> None
       end).
Proof.
  destruct g as [n rs pf cf cp ca l], window as [sz].
  unfold Tutorial4Challenge.InitState, Tutorial4Challenge.InitState_body.
  rewrite challengeIndices_filled.
  destruct cf as [|f0 cf], cp as [|p0 cp], ca as [|a0 ca].
  all: split_script rs 11.
  all: eval_goal.
  all: try exact I.
  all: try discriminate.
  all: repeat (split; [reflexivity|]).
  all: do 2 eexists; split; [reflexivity|]; split; [reflexivity|]; in_list.
Qed.

(** Every draw that [Render] issues in the complex mode has the index count
    [numChallengeIndices]. *)
Lemma Tutorial4_Render_draws (s : Tutorial4Challenge.State) (g : World) :
  Tutorial4Challenge.useComplex s = true ->
  exists d : list event,
    log (final (Tutorial4Challenge.Render s g)) = log g ++ d
    /\ draws_have_count (Tutorial4Challenge.numChallengeIndices s) d = true.
Proof.
  intros Hc. destruct s; cbn in Hc; subst.
  destruct g as [n rs pf cf cp ca l].
  destruct swapChain as [sc|], device as [dv|], queue as [q|],
    rs as [|[m|] [|[m'|] rest]];
    cbv -[app Nat.add draws_have_count];
    rewrite <- ?app_assoc; cbn [app];
    (eexists; split; [try reflexivity; symmetry; apply app_nil_r|]);
    cbn [draws_have_count forallb andb]; rewrite ?N.eqb_refl; reflexivity.
Qed.

(** C9. In tutorial4-challenge the field [numChallengeIndices] is never
    assigned: a state returned by [InitState] has it at 0, although the
    buffer of the 294 challenge indices was created and stored, and neither
    the callbacks run by [Poll], nor a turn of the loop, nor the whole loop
    change it.  So a [Render] in the complex mode only issues draws of 0
    indices, whatever the backend does, and on a healthy backend it binds
    the challenge vertex and index buffers and draws 0 indices. *)
Theorem C9_challenge_geometry_never_drawn :
  (forall (window : display.Window) (g g' : World)
          (s : Tutorial4Challenge.State) (err : error),
      Tutorial4Challenge.InitState window g = Ret (Some s, err) g' ->
      Tutorial4Challenge.numChallengeIndices s = 0%N
      /\ exists (h : handle) (d : list event),
           Tutorial4Challenge.challengeIndexBuffer s = Some h
           /\ log g' = log g ++ d
           /\ In (Created Buffer h
                    (ForBufferInit "Challenge Index Buffer"
                       BufferUsage_Index (IndexData (fan 98)))) d)
  /\ (forall (evs : list display.Event) (s s' : Tutorial4Challenge.State)
             (alive : bool) (g g' : World),
      Tutorial4Challenge.Poll evs s g = Ret (s', alive) g' ->
      Tutorial4Challenge.numChallengeIndices s'
      = Tutorial4Challenge.numChallengeIndices s)
  /\ (forall (s s' : Tutorial4Challenge.State) (g g' : World),
      Tutorial4Challenge.frame s g = Ret s' g' ->
      Tutorial4Challenge.numChallengeIndices s'
      = Tutorial4Challenge.numChallengeIndices s)
  /\ (forall (ticks : list (list display.Event))
             (s s' : Tutorial4Challenge.State) (g g' : World),
      Tutorial4Challenge.mainLoop ticks s g = Ret s' g' ->
      Tutorial4Challenge.numChallengeIndices s'
      = Tutorial4Challenge.numChallengeIndices s)
  /\ (forall (s : Tutorial4Challenge.State) (g : World),
      Tutorial4Challenge.useComplex s = true ->
      Tutorial4Challenge.numChallengeIndices s = 0%N ->
      exists d : list event,
        log (final (Tutorial4Challenge.Render s g)) = log g ++ d
        /\ draws_have_count 0 d = true)
  /\ (forall (s : Tutorial4Challenge.State) (g : World) (sc dv q : handle),
      Tutorial4Challenge.useComplex s = true ->
      Tutorial4Challenge.numChallengeIndices s = 0%N ->
      Tutorial4Challenge.swapChain s = Some sc ->
      Tutorial4Challenge.device s = Some dv ->
      Tutorial4Challenge.queue s = Some q -> healthy g ->
      Tutorial4Challenge.Render s g
      = Ret None (logged (Tutorial4_frame_events s sc q (fresh g))
                    (with_fresh (fresh g + 4) g))
      /\ forall p : handle,
           Tutorial4_draw s p
           = [ SetVertexBuffer p 0 (Tutorial4Challenge.challengeVertexBuffer s);
               SetIndexBuffer p (Tutorial4Challenge.challengeIndexBuffer s)
                 IndexFormat_Uint16;
               DrawIndexed p 0 1 0 0 0 ]).
Proof.
  split; [|split; [|split; [|split; [|split]]]].
  - intros window g g' s err Hi.
    pose proof (on_return_elim _ _ _ _
                  (Tutorial4_InitState_outcome window g) Hi) as Ho.
    cbn [fst snd] in Ho. destruct Ho as (_ & Hz & _ & _ & Hb).
    split; [exact Hz | exact Hb].
  - intros evs s s' alive g g' Hp.
    exact (on_return_elim _ _ _ _ (Tutorial4_Poll_keeps evs s g) Hp).
  - intros s s' g g' Hf.
    exact (on_return_elim _ _ _ _ (Tutorial4_frame_keeps s g) Hf).
  - intros ticks s s' g g' Hm.
    exact (on_return_elim _ _ _ _ (Tutorial4_mainLoop_keeps ticks s g) Hm).
  - intros s g Hc Hz.
    destruct (Tutorial4_Render_draws s g Hc) as (d & Hlog & Hd).
    rewrite Hz in Hd. now exists d.
  - intros s g sc dv q Hc Hz Hsc Hd Hq Hg.
    split; [now apply Tutorial4_Render_healthy with dv|].
    intros p. unfold Tutorial4_draw. now rewrite Hc, Hz.
Qed.

Lemma C9_witness :
  Tutorial4Challenge.Render Tutorial4_sample world1
  = Ret None (logged (Tutorial4_frame_events Tutorial4_sample 5 4 20)
                (with_fresh 24 world1))
  /\ Tutorial4_draw Tutorial4_sample 22
     = [ SetVertexBuffer 22 0 (Some 11);
         SetIndexBuffer 22 (Some 12) IndexFormat_Uint16;
         DrawIndexed 22 0 1 0 0 0 ].
Proof.
  destruct (proj2 (proj2 (proj2 (proj2 (proj2
              C9_challenge_geometry_never_drawn))))
              Tutorial4_sample world1 5 3 4
              eq_refl eq_refl eq_refl eq_refl eq_refl eq_refl)
    as [Hr Hd].
  split; [exact Hr | exact (Hd 22)].
Defined.

(* ===================================================================== *)
(** ** Further properties of the programs                                 *)
(* ===================================================================== *)

Lemma Tutorial4_Destroy_run (s : Tutorial4Challenge.State) (g : World) :
  Tutorial4Challenge.Destroy s g
  = Ret (Tutorial4_cleared s) (logged (Tutorial4_drops s) g).
Proof.
  destruct s. unfold Tutorial4Challenge.Destroy, Tutorial4_drops,
    Tutorial4_cleared.
  simpl.
  repeat destroy_step.
  rewrite release_run by (intros ->; reflexivity).
  rewrite ?logged_logged, <- ?app_assoc. reflexivity.
Qed.

(** X1. [Destroy] of tutorial4-challenge always returns; it releases each
    handle that a field holds once, the challenge buffers first and the
    surface last, leaves every pointer nil and the plain values as they
    were; a second call changes neither the state nor the world. *)
Theorem X1_Tutorial4_Destroy_idempotent :
  forall (s : Tutorial4Challenge.State) (g : World),
    let s1 := Tutorial4_cleared s in
    let g1 := logged (Tutorial4_drops s) g in
    Tutorial4Challenge.Destroy s g = Ret s1 g1
    /\ Tutorial4Challenge.Destroy s1 g1 = Ret s1 g1.
Proof.
  intros s g s1 g1. split; [apply Tutorial4_Destroy_run|].
  subst s1. rewrite Tutorial4_Destroy_run.
  change (Tutorial4_drops (Tutorial4_cleared s)) with (@nil event).
  now rewrite logged_nil.
Qed.

Lemma added_app {A} (g : World) (o : outcome A) (d : list event) :
  log (final o) = log g ++ d -> added g o = d.
Proof.
  intros Hl. unfold added. rewrite Hl.
  now rewrite drop_app_length.
Qed.

(** Close a goal [exists d, log .. = l ++ d /\ P d] on an evaluated log. *)
Ltac log_delta :=
  eexists; split; [try reflexivity; symmetry; apply app_nil_r|].

Lemma Part000_Render_accounted (s : Part000.State) (g : World) :
  exists d : list event,
    log (final (Part000.Render s g)) = log g ++ d
    /\ frame_accounted (Part000.Render s g) d.
Proof.
  destruct s, g as [n rs pf cf cp ca l].
  destruct swapChain as [sc|], device as [dv|], queue as [q|],
    isSpacePressed, rs as [|[m|] [|[m'|] rest]];
    unfold frame_accounted; cbv -[app Nat.add count_if];
    rewrite <- ?app_assoc; cbn [app]; log_delta; repeat split.
Qed.

Lemma Tutorial4_Render_accounted (s : Tutorial4Challenge.State) (g : World) :
  exists d : list event,
    log (final (Tutorial4Challenge.Render s g)) = log g ++ d
    /\ frame_accounted (Tutorial4Challenge.Render s g) d.
Proof.
  destruct s, g as [n rs pf cf cp ca l].
  destruct swapChain as [sc|], device as [dv|], queue as [q|],
    useComplex, rs as [|[m|] [|[m'|] rest]];
    unfold frame_accounted; cbv -[app Nat.add count_if];
    rewrite <- ?app_assoc; cbn [app]; log_delta; repeat split.
Qed.

Lemma Tutorial6_Render_accounted `{Glm} (s : Tutorial6Challenge.State)
    (g : World) :
  exists d : list event,
    log (final (Tutorial6Challenge.Render s g)) = log g ++ d
    /\ frame_accounted (Tutorial6Challenge.Render s g) d.
Proof.
  destruct s, g as [n rs pf cf cp ca l].
  destruct swapChain as [sc|], device as [dv|], queue as [q|],
    rs as [|[m|] [|[m'|] rest]];
    unfold frame_accounted; cbv -[app Nat.add count_if];
    rewrite <- ?app_assoc; cbn [app]; log_delta; repeat split.
Qed.

(** X2. Whatever the backend replies and whatever pointers of the state are
    nil, a call of [Render] never creates a swap chain and never calls
    [Resize]; if it returns nil it has begun one render pass, issued one
    draw, submitted once and presented once; if it returns an error it has
    begun no pass, drawn, submitted and presented nothing; if it panics it
    has presented nothing.  For the three programs. *)
Theorem X2_Render_presents_iff_nil :
  (forall (s : Part000.State) (g : World),
      frame_accounted (Part000.Render s g) (added g (Part000.Render s g)))
  /\ (forall (s : Tutorial4Challenge.State) (g : World),
      frame_accounted (Tutorial4Challenge.Render s g)
        (added g (Tutorial4Challenge.Render s g)))
  /\ (forall (G : Glm) (s : Tutorial6Challenge.State) (g : World),
      frame_accounted (Tutorial6Challenge.Render s g)
        (added g (Tutorial6Challenge.Render s g))).
Proof.
  split; [|split].
  - intros s g. destruct (Part000_Render_accounted s g) as (d & Hl & Hd).
    now rewrite (added_app _ _ _ Hl).
  - intros s g. destruct (Tutorial4_Render_accounted s g) as (d & Hl & Hd).
    now rewrite (added_app _ _ _ Hl).
  - intros G s g. destruct (Tutorial6_Render_accounted s g) as (d & Hl & Hd).
    now rewrite (added_app _ _ _ Hl).
Qed.

(** X3. [Resize] of tutorial6-challenge to a positive size, on a state with
    descriptor and device set.  If the device rejects the new swap chain the
    call panics with the error.  If it accepts, the size and the descriptor
    hold the new values, the new swap chain is stored and the aspect of the
    camera becomes width / height; but if the camera (or its staging
    record) is nil the call panics on the nil pointer, after the swap
    chain was created. *)
Theorem X3_Tutorial6_Resize_positive :
  forall (G : Glm) (newSize : dpi.PhysicalSize)
         (s : Tutorial6Challenge.State) (g : World)
         (c : SwapChainDescriptor) (dv : handle),
    (0 < dpi.Width newSize)%N -> (0 < dpi.Height newSize)%N ->
    Tutorial6Challenge.config s = Some c ->
    Tutorial6Challenge.device s = Some dv ->
    let old := Tutorial6Challenge.swapChain s in
    let ok := logged (resize_events newSize old
                        (Tutorial6Challenge.surface s) c (fresh g))
                (bumped (pop_reply g)) in
    match next_reply g with
    | Some msg =>
      Tutorial6Challenge.Resize newSize s g
      = Panic (PanicError msg)
          (logged (resize_prefix newSize old ++ [Rejected SwapChain msg])
             (pop_reply g))
    | None =>
      match Tutorial6Challenge.cameraStaging s with
      | Some {| Tutorial6Challenge.camera := Some cam;
                Tutorial6Challenge.modelRotationDeg := rot |} =>
        Tutorial6Challenge.Resize newSize s g
        = Ret (Tutorial6_after_resize newSize c (fresh g)
                 {| Tutorial6Challenge.camera := Some cam;
                    Tutorial6Challenge.modelRotationDeg := rot |} cam s) ok
      | _ => Tutorial6Challenge.Resize newSize s g = Panic PanicNilDeref ok
      end
    end.
Proof.
  intros G newSize s g c dv Hw Hh Hc Hd old ok. subst old ok.
  destruct s; cbn in Hc, Hd; subst.
  destruct newSize as [[|w] [|h]]; cbn in Hw, Hh; try lia.
  destruct g as [n rs pf cf cp ca l].
  destruct rs as [|[msg|] rest], swapChain as [sc|],
    cameraStaging as [[[cam|] rot]|];
    cbv -[app Nat.add f32_div f32_of_uint32];
    rewrite <- ?app_assoc; reflexivity.
Qed.

Lemma X3_witness :
  let newSize := {| dpi.Width := 800; dpi.Height := 600 |} in
  exists s' : Tutorial6Challenge.State,
    Tutorial6Challenge.Resize newSize Tutorial6_sample world1
    = Ret s' (logged (resize_events newSize (Some 5) (Some 1) cfg0 20)
                (bumped (pop_reply world1)))
    /\ Tutorial6Challenge.size s' = newSize
    /\ Tutorial6Challenge.swapChain s' = Some 20.
Proof.
  intro newSize. eexists. split.
  - exact (X3_Tutorial6_Resize_positive trivialGlm newSize Tutorial6_sample
             world1 cfg0 3 eq_refl eq_refl eq_refl eq_refl).
  - split; reflexivity.
Defined.

(** Bring [n + k] to the successor form that evaluation produces. *)
Ltac succ_form := rewrite <- ?plus_n_Sm, <- ?plus_n_O.

Lemma Part000_Resize_then_Render (newSize : dpi.PhysicalSize)
    (s : Part000.State) (g : World) (c : SwapChainDescriptor)
    (dv q : handle) :
  (0 < dpi.Width newSize)%N -> (0 < dpi.Height newSize)%N ->
  Part000.config s = Some c -> Part000.device s = Some dv ->
  Part000.queue s = Some q -> healthy g ->
  let s' := Part000_after_resize newSize c (fresh g) s in
  bind (Part000.Resize newSize s) Part000.Render g
  = Ret None
      (logged (resize_events newSize (Part000.swapChain s)
                 (Part000.surface s) c (fresh g)
               ++ Part000_frame_events s' (fresh g) q (fresh g + 1))
         (with_fresh (fresh g + 5) g)).
Proof.
  intros Hw Hh Hc Hd Hq Hg s'. subst s'. unfold healthy in Hg.
  destruct s; cbn in Hc, Hd, Hq; subst.
  destruct newSize as [[|w] [|h]]; cbn in Hw, Hh; try lia.
  destruct g as [n rs pf cf cp ca l]; cbn in Hg; subst rs.
  destruct swapChain as [sc|], isSpacePressed;
    cbv -[app Nat.add]; rewrite <- ?app_assoc; cbn [app]; succ_form;
    reflexivity.
Qed.

Lemma Tutorial4_Resize_then_Render (newSize : dpi.PhysicalSize)
    (s : Tutorial4Challenge.State) (g : World) (c : SwapChainDescriptor)
    (dv q : handle) :
  (0 < dpi.Width newSize)%N -> (0 < dpi.Height newSize)%N ->
  Tutorial4Challenge.config s = Some c ->
  Tutorial4Challenge.device s = Some dv ->
  Tutorial4Challenge.queue s = Some q -> healthy g ->
  let s' := Tutorial4_after_resize newSize c (fresh g) s in
  bind (Tutorial4Challenge.Resize newSize s) Tutorial4Challenge.Render g
  = Ret None
      (logged (resize_events newSize (Tutorial4Challenge.swapChain s)
                 (Tutorial4Challenge.surface s) c (fresh g)
               ++ Tutorial4_frame_events s' (fresh g) q (fresh g + 1))
         (with_fresh (fresh g + 5) g)).
Proof.
  intros Hw Hh Hc Hd Hq Hg s'. subst s'. unfold healthy in Hg.
  destruct s; cbn in Hc, Hd, Hq; subst.
  destruct newSize as [[|w] [|h]]; cbn in Hw, Hh; try lia.
  destruct g as [n rs pf cf cp ca l]; cbn in Hg; subst rs.
  destruct swapChain as [sc|], useComplex;
    cbv -[app Nat.add]; rewrite <- ?app_assoc; cbn [app]; succ_form;
    reflexivity.
Qed.

Lemma Tutorial6_Resize_then_Render `{Glm} (newSize : dpi.PhysicalSize)
    (s : Tutorial6Challenge.State) (g : World) (c : SwapChainDescriptor)
    (dv q : handle) (st : Tutorial6Challenge.CameraStaging)
    (cam : Tutorial6Challenge.Camera) :
  (0 < dpi.Width newSize)%N -> (0 < dpi.Height newSize)%N ->
  Tutorial6Challenge.config s = Some c ->
  Tutorial6Challenge.device s = Some dv ->
  Tutorial6Challenge.queue s = Some q ->
  Tutorial6Challenge.cameraStaging s = Some st ->
  Tutorial6Challenge.camera st = Some cam -> healthy g ->
  let s' := Tutorial6_after_resize newSize c (fresh g) st cam s in
  bind (Tutorial6Challenge.Resize newSize s) Tutorial6Challenge.Render g
  = Ret None
      (logged (resize_events newSize (Tutorial6Challenge.swapChain s)
                 (Tutorial6Challenge.surface s) c (fresh g)
               ++ Tutorial6_frame_events s' (fresh g) q (fresh g + 1))
         (with_fresh (fresh g + 5) g)).
Proof.
  intros Hw Hh Hc Hd Hq Hst Hcam Hg s'. subst s'. unfold healthy in Hg.
  destruct s; cbn in Hc, Hd, Hq, Hst; subst.
  destruct st as [ocam rot]; cbn in Hcam; subst.
  destruct newSize as [[|w] [|h]]; cbn in Hw, Hh; try lia.
  destruct g as [n rs pf cf cp ca l]; cbn in Hg; subst rs.
  destruct swapChain as [sc|];
    cbv -[app Nat.add f32_div f32_of_uint32]; rewrite <- ?app_assoc;
    cbn [app]; succ_form; reflexivity.
Qed.

(** X4. A [Resize] to a positive size followed by [Render], on a healthy
    backend and a state with descriptor, device and queue set (and, in
    tutorial6-challenge, a camera): the pair returns nil; the log is that of
    the resize, in which the swap chain is created with a descriptor of
    exactly the new width and height, followed by the events of one frame,
    and the frame is presented on the swap chain just created.  For the
    three programs. *)
Theorem X4_Resize_then_Render_presents :
  (forall (newSize : dpi.PhysicalSize) (s : Part000.State) (g : World)
          (c : SwapChainDescriptor) (dv q : handle),
      (0 < dpi.Width newSize)%N -> (0 < dpi.Height newSize)%N ->
      Part000.config s = Some c -> Part000.device s = Some dv ->
      Part000.queue s = Some q -> healthy g ->
      let s' := Part000_after_resize newSize c (fresh g) s in
      let frame := Part000_frame_events s' (fresh g) q (fresh g + 1) in
      bind (Part000.Resize newSize s) Part000.Render g
      = Ret None
          (logged (resize_events newSize (Part000.swapChain s)
                     (Part000.surface s) c (fresh g) ++ frame)
             (with_fresh (fresh g + 5) g))
      /\ In (Presented (fresh g)) frame
      /\ Width (resized newSize c) = dpi.Width newSize
      /\ Height (resized newSize c) = dpi.Height newSize)
  /\ (forall (newSize : dpi.PhysicalSize) (s : Tutorial4Challenge.State)
             (g : World) (c : SwapChainDescriptor) (dv q : handle),
      (0 < dpi.Width newSize)%N -> (0 < dpi.Height newSize)%N ->
      Tutorial4Challenge.config s = Some c ->
      Tutorial4Challenge.device s = Some dv ->
      Tutorial4Challenge.queue s = Some q -> healthy g ->
      let s' := Tutorial4_after_resize newSize c (fresh g) s in
      let frame := Tutorial4_frame_events s' (fresh g) q (fresh g + 1) in
      bind (Tutorial4Challenge.Resize newSize s) Tutorial4Challenge.Render g
      = Ret None
          (logged (resize_events newSize (Tutorial4Challenge.swapChain s)
                     (Tutorial4Challenge.surface s) c (fresh g) ++ frame)
             (with_fresh (fresh g + 5) g))
      /\ In (Presented (fresh g)) frame)
  /\ (forall (G : Glm) (newSize : dpi.PhysicalSize)
             (s : Tutorial6Challenge.State) (g : World)
             (c : SwapChainDescriptor) (dv q : handle)
             (st : Tutorial6Challenge.CameraStaging)
             (cam : Tutorial6Challenge.Camera),
      (0 < dpi.Width newSize)%N -> (0 < dpi.Height newSize)%N ->
      Tutorial6Challenge.config s = Some c ->
      Tutorial6Challenge.device s = Some dv ->
      Tutorial6Challenge.queue s = Some q ->
      Tutorial6Challenge.cameraStaging s = Some st ->
      Tutorial6Challenge.camera st = Some cam -> healthy g ->
      let s' := Tutorial6_after_resize newSize c (fresh g) st cam s in
      let frame := Tutorial6_frame_events s' (fresh g) q (fresh g + 1) in
      bind (Tutorial6Challenge.Resize newSize s) Tutorial6Challenge.Render g
      = Ret None
          (logged (resize_events newSize (Tutorial6Challenge.swapChain s)
                     (Tutorial6Challenge.surface s) c (fresh g) ++ frame)
             (with_fresh (fresh g + 5) g))
      /\ In (Presented (fresh g)) frame).
Proof.
  split; [|split].
  - intros newSize s g c dv q Hw Hh Hc Hd Hq Hg s' frame.
    split; [now apply Part000_Resize_then_Render with dv|].
    split; [subst frame; unfold Part000_frame_events; in_list|].
    split; reflexivity.
  - intros newSize s g c dv q Hw Hh Hc Hd Hq Hg s' frame.
    split; [now apply Tutorial4_Resize_then_Render with dv|].
    subst frame. unfold Tutorial4_frame_events.
    apply in_or_app; right. apply in_or_app; right. in_list.
  - intros G newSize s g c dv q st cam Hw Hh Hc Hd Hq Hst Hcam Hg s' frame.
    split; [now apply Tutorial6_Resize_then_Render with dv|].
    subst frame; unfold Tutorial6_frame_events; in_list.
Qed.

Lemma X4_witness :
  let newSize := {| dpi.Width := 1024; dpi.Height := 768 |} in
  bind (Part000.Resize newSize Part000_sample) Part000.Render world1
  = Ret None
      (logged (resize_events newSize (Some 5) (Some 1) cfg0 20
               ++ Part000_frame_events
                    (Part000_after_resize newSize cfg0 20 Part000_sample)
                    20 4 21)
         (with_fresh 25 world1)).
Proof.
  intro newSize.
  exact (proj1 (proj1 X4_Resize_then_Render_presents newSize Part000_sample
                  world1 cfg0 3 4 eq_refl eq_refl eq_refl eq_refl eq_refl
                  eq_refl)).
Defined.

(** Decide the comparisons of handles that evaluation leaves open. *)
Ltac decide_handles :=
  repeat (cbn [replay is_live unlive obj_eqb kind_eqb fst snd andb Nat.eqb
               app releases map live_after];
          match goal with
          | |- context [Nat.eqb ?a ?b] =>
            first [ rewrite (Nat.eqb_refl a)
                  | rewrite (proj2 (Nat.eqb_neq a b)) by lia ]
          end);
  cbn [replay is_live unlive obj_eqb kind_eqb fst snd andb Nat.eqb
       app releases map live_after].

Ltac eval_life :=
  cbv -[app Nat.add all_released count_if uint32 mul32 image.Dx image.Dy
        live_after releases replay fan Part000_inv Tutorial4_inv];
  rewrite <- ?app_assoc; cbn [app].

Ltac solve_inv :=
  repeat split; try discriminate; eexists; repeat split.

(** What a successful [InitState] of part_000 leaves: a state ready for the
    loop, and a stack of live objects that are exactly what [Destroy]
    releases, top first. *)
Lemma Part000_InitState_success `{Assets} (window : display.Window)
    (g : World) :
  on_return (Part000.InitState window g)
    (fun r g1 =>
       match fst r with
       | None => True
       | Some s =>
         Part000_inv s
         /\ exists (d1 : list event) (live : list obj),
              log g1 = log g ++ d1
              /\ live_after d1 = Some live
              /\ Part000_drops s = releases live
              /\ live_after (d1 ++ Part000_drops s) = Some []
       end).
Proof.
  destruct g as [n rs pf cf cp ca l], window as [[w h]].
  unfold Part000.InitState, Part000.InitState_body, TextureFromPNGBytes.
  destruct (png_Decode happyTreePng) as [img1|e1],
           (png_Decode happyTreeCartoonPng) as [img2|e2].
  all: split_script rs 16.
  all: eval_life.
  all: try exact I.
  all: split; [solve_inv|].
  all: do 2 eexists; split; [reflexivity|].
  all: split; [decide_handles; reflexivity|].
  all: split; [reflexivity|].
  all: decide_handles; reflexivity.
Qed.

Lemma Tutorial4_InitState_success (window : display.Window) (g : World) :
  on_return (Tutorial4Challenge.InitState window g)
    (fun r g1 =>
       match fst r with
       | None => True
       | Some s =>
         Tutorial4_inv s
         /\ exists (d1 : list event) (live : list obj),
              log g1 = log g ++ d1
              /\ live_after d1 = Some live
              /\ Tutorial4_drops s = releases live
              /\ live_after (d1 ++ Tutorial4_drops s) = Some []
       end).
Proof.
  destruct g as [n rs pf cf cp ca l], window as [[w h]].
  unfold Tutorial4Challenge.InitState, Tutorial4Challenge.InitState_body.
  rewrite challengeIndices_filled.
  destruct cf as [|f0 cf], cp as [|p0 cp], ca as [|a0 ca].
  all: split_script rs 11.
  all: eval_life.
  all: try exact I.
  all: split; [solve_inv|].
  all: do 2 eexists; split; [reflexivity|].
  all: split; [decide_handles; reflexivity|].
  all: split; [reflexivity|].
  all: decide_handles; reflexivity.
Qed.

(** X5. The objects that a successful [InitState] leaves alive are released
    by [Destroy] exactly once and in the reverse order of their creation.
    Replaying the log of [InitState] never meets a release of an object that
    is not live, and ends with a stack [live] of live objects, the most
    recently created on top; [Destroy] then logs exactly the releases of
    [live] from the top down; after them nothing is live.  For part_000 and
    tutorial4-challenge. *)
Theorem X5_owned_objects_released_in_reverse :
  (forall (A : Assets) (window : display.Window) (g g1 : World)
          (s : Part000.State) (err : error),
      Part000.InitState window g = Ret (Some s, err) g1 ->
      exists (d1 : list event) (live : list obj),
        log g1 = log g ++ d1
        /\ live_after d1 = Some live
        /\ Part000.Destroy s g1
           = Ret (Part000_cleared s) (logged (releases live) g1)
        /\ live_after (d1 ++ releases live) = Some [])
  /\ (forall (window : display.Window) (g g1 : World)
             (s : Tutorial4Challenge.State) (err : error),
      Tutorial4Challenge.InitState window g = Ret (Some s, err) g1 ->
      exists (d1 : list event) (live : list obj),
        log g1 = log g ++ d1
        /\ live_after d1 = Some live
        /\ Tutorial4Challenge.Destroy s g1
           = Ret (Tutorial4_cleared s) (logged (releases live) g1)
        /\ live_after (d1 ++ releases live) = Some []).
Proof.
  split.
  - intros A window g g1 s err Hi.
    pose proof (on_return_elim _ _ _ _
                  (Part000_InitState_success window g) Hi) as Hs.
    cbn [fst] in Hs. destruct Hs as (_ & d1 & live & Hl & Hlive & Hd & He).
    exists d1, live. rewrite <- Hd.
    repeat split; try assumption. apply Part000_Destroy_run.
  - intros window g g1 s err Hi.
    pose proof (on_return_elim _ _ _ _
                  (Tutorial4_InitState_success window g) Hi) as Hs.
    cbn [fst] in Hs. destruct Hs as (_ & d1 & live & Hl & Hlive & Hd & He).
    exists d1, live. rewrite <- Hd.
    repeat split; try assumption. apply Tutorial4_Destroy_run.
Qed.

Lemma X5_witness :
  exists (d1 : list event) (live : list obj),
    log (final (@Part000.InitState sampleAssets window0 world0))
    = log world0 ++ d1
    /\ live_after d1 = Some live
    /\ live_after (d1 ++ releases live) = Some [].
Proof.
  assert (Hrun : exists s,
             @Part000.InitState sampleAssets window0 world0
             = Ret (Some s, None)
                 (final (@Part000.InitState sampleAssets window0 world0)))
    by (eexists; vm_compute; reflexivity).
  destruct Hrun as (s & Hrun).
  destruct (proj1 X5_owned_objects_released_in_reverse sampleAssets window0
              world0 _ s None Hrun) as (d1 & live & Hl & Hlive & _ & He).
  exists d1, live. split; [exact Hl|]. split; [exact Hlive | exact He].
Defined.

Lemma keeps_bind {S T} (P : S -> Prop) (Q : T -> Prop) (m : M S)
    (k : S -> M T) (g : World) :
  keeps P (m g) -> (forall s g', P s -> keeps Q (k s g')) ->
  keeps Q (bind m k g).
Proof.
  intros Hm Hk. unfold bind.
  destruct (m g) as [s g'|[msg| |] g']; cbn in Hm |- *;
    [now apply Hk | exact I | contradiction | contradiction].
Qed.

Ltac eval_keeps :=
  cbv -[app Nat.add Part000_inv Tutorial4_inv].

Lemma Part000_Resize_keeps_inv (newSize : dpi.PhysicalSize)
    (s : Part000.State) (g : World) :
  Part000_inv s -> keeps Part000_inv (Part000.Resize newSize s g).
Proof.
  intros Hinv. pose proof Hinv as [(Hsc & Hd & Hq & Hc) (c & Hcfg & Hw & Hh)].
  destruct s; cbn in *; subst config.
  destruct swapChain as [sc|], device as [dv|], queue as [q|];
    try congruence.
  destruct newSize as [[|w] [|h]], g as [n rs pf cf cp ca l],
    rs as [|[m|] rest]; eval_keeps; try exact I; try exact Hinv.
  all: split; [repeat split; discriminate|].
  all: eexists; repeat split.
Qed.

Lemma Part000_Render_ready (s : Part000.State) (g : World) :
  Part000_ready s ->
  exists (err : error) (g' : World), Part000.Render s g = Ret err g'.
Proof.
  intros (Hsc & Hd & Hq & Hc). destruct s; cbn in *.
  destruct swapChain as [sc|], device as [dv|], queue as [q|];
    try congruence.
  destruct g as [n rs pf cf cp ca l], isSpacePressed,
    rs as [|[m|] [|[m'|] rest]]; do 2 eexists; cbv -[app Nat.add];
    reflexivity.
Qed.

Lemma Part000_frame_keeps_inv (s : Part000.State) (g : World) :
  Part000_inv s -> keeps Part000_inv (Part000.frame s g).
Proof.
  intros Hinv. unfold Part000.frame.
  destruct (Part000_Render_ready s g (proj1 Hinv)) as (err & g' & Hr).
  rewrite (bind_run _ _ _ _ _ Hr).
  destruct err as [msg|]; cbn [Part000.recover]; [|exact Hinv].
  rewrite (bind_run _ _ _ _ _ (emit_run _ _)).
  destruct (strings.Contains msg "Lost");
    [now apply Part000_Resize_keeps_inv|].
  destruct (strings.Contains msg "Outdated");
    [now apply Part000_Resize_keeps_inv|].
  destruct (strings.Contains msg "Timeout"); [exact Hinv | exact I].
Qed.

Lemma Part000_onEvent_keeps_inv (e : display.Event) (s : Part000.State)
    (g : World) :
  Part000_inv s -> keeps Part000_inv (Part000.onEvent e s g).
Proof.
  intros Hinv. destruct e as [state code vk|w h|]; cbn [Part000.onEvent].
  - destruct (events.isSpace vk); [|exact Hinv].
    destruct s; exact Hinv.
  - now apply Part000_Resize_keeps_inv.
  - exact Hinv.
Qed.

Lemma Part000_Poll_keeps_inv (evs : list display.Event) :
  forall (s : Part000.State) (g : World),
    Part000_inv s ->
    keeps (fun r => Part000_inv (fst r)) (Part000.Poll evs s g).
Proof.
  induction evs as [|e evs IH]; intros s g Hinv; [exact Hinv|].
  destruct e as [state code vk|w h|]; cbn [Part000.Poll]; try exact Hinv.
  - apply keeps_bind with (P := Part000_inv);
      [now apply Part000_onEvent_keeps_inv | intros; now apply IH].
  - apply keeps_bind with (P := Part000_inv);
      [now apply Part000_onEvent_keeps_inv | intros; now apply IH].
Qed.

Lemma Part000_mainLoop_keeps_inv (ticks : list (list display.Event)) :
  forall (s : Part000.State) (g : World),
    Part000_inv s -> keeps Part000_inv (Part000.mainLoop ticks s g).
Proof.
  induction ticks as [|evs ticks IH]; intros s g Hinv; [exact Hinv|].
  cbn [Part000.mainLoop].
  apply keeps_bind with (P := fun r => Part000_inv (fst r));
    [now apply Part000_Poll_keeps_inv|].
  intros [s1 [|]] g1 H1; cbn [fst] in H1; [|exact H1].
  apply keeps_bind with (P := Part000_inv);
    [now apply Part000_frame_keeps_inv | intros; now apply IH].
Qed.

Lemma Tutorial4_Resize_keeps_inv (newSize : dpi.PhysicalSize)
    (s : Tutorial4Challenge.State) (g : World) :
  Tutorial4_inv s -> keeps Tutorial4_inv (Tutorial4Challenge.Resize newSize s g).
Proof.
  intros Hinv. pose proof Hinv as [(Hsc & Hd & Hq & Hc) (c & Hcfg & Hw & Hh)].
  destruct s; cbn in *; subst config.
  destruct swapChain as [sc|], device as [dv|], queue as [q|];
    try congruence.
  destruct newSize as [[|w] [|h]], g as [n rs pf cf cp ca l],
    rs as [|[m|] rest]; eval_keeps; try exact I; try exact Hinv.
  all: split; [repeat split; discriminate|].
  all: eexists; repeat split.
Qed.

Lemma Tutorial4_Render_ready (s : Tutorial4Challenge.State) (g : World) :
  Tutorial4_ready s ->
  exists (err : error) (g' : World), Tutorial4Challenge.Render s g = Ret err g'.
Proof.
  intros (Hsc & Hd & Hq & Hc). destruct s; cbn in *.
  destruct swapChain as [sc|], device as [dv|], queue as [q|];
    try congruence.
  destruct g as [n rs pf cf cp ca l], useComplex,
    rs as [|[m|] [|[m'|] rest]]; do 2 eexists; cbv -[app Nat.add];
    reflexivity.
Qed.

Lemma Tutorial4_frame_keeps_inv (s : Tutorial4Challenge.State) (g : World) :
  Tutorial4_inv s -> keeps Tutorial4_inv (Tutorial4Challenge.frame s g).
Proof.
  intros Hinv. unfold Tutorial4Challenge.frame.
  destruct (Tutorial4_Render_ready s g (proj1 Hinv)) as (err & g' & Hr).
  rewrite (bind_run _ _ _ _ _ Hr).
  destruct err as [msg|]; cbn [Tutorial4Challenge.recover]; [|exact Hinv].
  rewrite (bind_run _ _ _ _ _ (emit_run _ _)).
  destruct (strings.Contains msg "Lost");
    [now apply Tutorial4_Resize_keeps_inv|].
  destruct (strings.Contains msg "Outdated");
    [now apply Tutorial4_Resize_keeps_inv|].
  destruct (strings.Contains msg "Timeout"); [exact Hinv | exact I].
Qed.

Lemma Tutorial4_onEvent_keeps_inv (e : display.Event) (s : Tutorial4Challenge.State)
    (g : World) :
  Tutorial4_inv s -> keeps Tutorial4_inv (Tutorial4Challenge.onEvent e s g).
Proof.
  intros Hinv. destruct e as [state code vk|w h|]; cbn [Tutorial4Challenge.onEvent].
  - destruct (events.isSpace vk); [|exact Hinv].
    destruct s; exact Hinv.
  - now apply Tutorial4_Resize_keeps_inv.
  - exact Hinv.
Qed.

Lemma Tutorial4_Poll_keeps_inv (evs : list display.Event) :
  forall (s : Tutorial4Challenge.State) (g : World),
    Tutorial4_inv s ->
    keeps (fun r => Tutorial4_inv (fst r)) (Tutorial4Challenge.Poll evs s g).
Proof.
  induction evs as [|e evs IH]; intros s g Hinv; [exact Hinv|].
  destruct e as [state code vk|w h|]; cbn [Tutorial4Challenge.Poll]; try exact Hinv.
  - apply keeps_bind with (P := Tutorial4_inv);
      [now apply Tutorial4_onEvent_keeps_inv | intros; now apply IH].
  - apply keeps_bind with (P := Tutorial4_inv);
      [now apply Tutorial4_onEvent_keeps_inv | intros; now apply IH].
Qed.

Lemma Tutorial4_mainLoop_keeps_inv (ticks : list (list display.Event)) :
  forall (s : Tutorial4Challenge.State) (g : World),
    Tutorial4_inv s -> keeps Tutorial4_inv (Tutorial4Challenge.mainLoop ticks s g).
Proof.
  induction ticks as [|evs ticks IH]; intros s g Hinv; [exact Hinv|].
  cbn [Tutorial4Challenge.mainLoop].
  apply keeps_bind with (P := fun r => Tutorial4_inv (fst r));
    [now apply Tutorial4_Poll_keeps_inv|].
  intros [s1 [|]] g1 H1; cbn [fst] in H1; [|exact H1].
  apply keeps_bind with (P := Tutorial4_inv);
    [now apply Tutorial4_frame_keeps_inv | intros; now apply IH].
Qed.

(** X6. After a successful [InitState] the loop never dereferences a nil
    pointer.  A state returned by [InitState] is ready (swap chain, device,
    queue and descriptor are set) and its descriptor agrees with its size;
    [Resize], the callbacks run by [Poll], a turn of the loop and the whole
    loop keep both facts whenever they return, and when they panic it is
    with an error value ([panic(err)]), never on a nil pointer or an index;
    [Render] on a ready state always returns.  For part_000 and
    tutorial4-challenge. *)
Theorem X6_loop_keeps_state_ready :
  (forall (A : Assets) (window : display.Window) (g g1 : World)
          (s : Part000.State) (err : error),
      Part000.InitState window g = Ret (Some s, err) g1 -> Part000_inv s)
  /\ (forall (ticks : list (list display.Event)) (s : Part000.State)
             (g : World),
      Part000_inv s -> keeps Part000_inv (Part000.mainLoop ticks s g))
  /\ (forall (newSize : dpi.PhysicalSize) (s : Part000.State) (g : World),
      Part000_inv s -> keeps Part000_inv (Part000.Resize newSize s g))
  /\ (forall (s : Part000.State) (g : World),
      Part000_ready s ->
      exists (err : error) (g' : World), Part000.Render s g = Ret err g')
  /\ (forall (window : display.Window) (g g1 : World)
             (s : Tutorial4Challenge.State) (err : error),
      Tutorial4Challenge.InitState window g = Ret (Some s, err) g1 ->
      Tutorial4_inv s)
  /\ (forall (ticks : list (list display.Event))
             (s : Tutorial4Challenge.State) (g : World),
      Tutorial4_inv s ->
      keeps Tutorial4_inv (Tutorial4Challenge.mainLoop ticks s g))
  /\ (forall (newSize : dpi.PhysicalSize) (s : Tutorial4Challenge.State)
             (g : World),
      Tutorial4_inv s ->
      keeps Tutorial4_inv (Tutorial4Challenge.Resize newSize s g))
  /\ (forall (s : Tutorial4Challenge.State) (g : World),
      Tutorial4_ready s ->
      exists (err : error) (g' : World),
        Tutorial4Challenge.Render s g = Ret err g').
Proof.
  split; [|split; [|split; [|split; [|split; [|split; [|split]]]]]].
  - intros A window g g1 s err Hi.
    pose proof (on_return_elim _ _ _ _
                  (Part000_InitState_success window g) Hi) as Hs.
    exact (proj1 Hs).
  - intros; now apply Part000_mainLoop_keeps_inv.
  - intros; now apply Part000_Resize_keeps_inv.
  - intros; now apply Part000_Render_ready.
  - intros window g g1 s err Hi.
    pose proof (on_return_elim _ _ _ _
                  (Tutorial4_InitState_success window g) Hi) as Hs.
    exact (proj1 Hs).
  - intros; now apply Tutorial4_mainLoop_keeps_inv.
  - intros; now apply Tutorial4_Resize_keeps_inv.
  - intros; now apply Tutorial4_Render_ready.
Qed.

Lemma X6_witness :
  keeps Part000_inv
    (Part000.mainLoop [[display.Resized 800 600]; []] Part000_sample
       (scripted1 [None; Some "Surface Lost"; Some "no memory"])).
Proof.
  apply (proj1 (proj2 X6_loop_keeps_state_ready)).
  split; [repeat split; discriminate|].
  exists cfg0. repeat split.
Defined.

Lemma Tutorial4_InitState_atomic (window : display.Window) (g : World) :
  has_capabilities g ->
  exists (os : option Tutorial4Challenge.State) (err : error) (g' : World)
         (d : list event),
    Tutorial4Challenge.InitState window g = Ret (os, err) g'
    /\ log g' = log g ++ d
    /\ match err with
       | Some _ => os = None /\ all_released d = true
       | None => exists s : Tutorial4Challenge.State, os = Some s
       end.
Proof.
  intros (Hf & Hp & Ha).
  destruct g as [n rs pf cf cp ca l], window as [sz]; cbn in Hf, Hp, Ha.
  destruct cf as [|f0 cf], cp as [|p0 cp], ca as [|a0 ca]; try congruence.
  unfold Tutorial4Challenge.InitState, Tutorial4Challenge.InitState_body.
  rewrite challengeIndices_filled.
  split_script rs 11.
  all: do 4 eexists.
  all: eval_goal.
  all: (split; [reflexivity|]).
  all: cbn [log].
  all: (split; [reflexivity|]).
  all: first [ split; [reflexivity | released]
             | eexists; reflexivity ].
Qed.

(** X7. Failure of initialisation is atomic in tutorial4-challenge as well.
    When the surface reports its capabilities, [InitState] always returns;
    if it returns an error the state pointer is nil and every object
    created during the call has been released before the return; if it
    returns no error the pointer is set. *)
Theorem X7_Tutorial4_init_failure_is_atomic :
  forall (window : display.Window) (g : World),
    has_capabilities g ->
    exists (os : option Tutorial4Challenge.State) (err : error) (g' : World)
           (d : list event),
      Tutorial4Challenge.InitState window g = Ret (os, err) g'
      /\ log g' = log g ++ d
      /\ match err with
         | Some _ => os = None /\ all_released d = true
         | None => exists s : Tutorial4Challenge.State, os = Some s
         end.
Proof. exact Tutorial4_InitState_atomic. Qed.

Lemma X7_witness :
  let g := scripted [None; None; None; None; None; None;
                     Some "buffer limit"] in
  exists (os : option Tutorial4Challenge.State) (err : error) (g' : World)
         (d : list event),
    Tutorial4Challenge.InitState window0 g = Ret (os, err) g'
    /\ log g' = log g ++ d
    /\ match err with
       | Some _ => os = None /\ all_released d = true
       | None => exists s : Tutorial4Challenge.State, os = Some s
       end.
Proof.
  intro g. apply X7_Tutorial4_init_failure_is_atomic.
  repeat split; discriminate.
Defined.

(** X8. [InitState] of tutorial4-challenge takes the first format, present
    mode and alpha mode of the surface without looking at the lengths.  If
    the adapter and the device are granted and one of the three lists is
    empty, the call panics on the index; the deferred closure sees a nil
    [err], so the state is not destroyed: the adapter and the instance have
    been released by their own deferred calls, the device and the surface
    stay live. *)
Theorem X8_Tutorial4_init_panics_without_capabilities :
  forall (window : display.Window) (g : World),
    capFormats g = [] \/ capPresentModes g = [] \/ capAlphaModes g = [] ->
    next_reply g = None -> next_reply (pop_reply g) = None ->
    exists g' : World,
      Tutorial4Challenge.InitState window g = Panic PanicIndex g'
      /\ log g'
         = log g ++ [ Created Instance (fresh g) NoDescr;
                      Created Surface (fresh g + 1) NoDescr;
                      Created Adapter (fresh g + 2) NoDescr;
                      Created Device (fresh g + 3) NoDescr;
                      GotQueue (fresh g + 3) (fresh g + 4);
                      Dropped Adapter (fresh g + 2);
                      Dropped Instance (fresh g) ]
      /\ live_after (added g (Tutorial4Challenge.InitState window g))
         = Some [(Device, fresh g + 3); (Surface, fresh g + 1)].
Proof.
  intros window g Hcaps Hr1 Hr2.
  destruct g as [n rs pf cf cp ca l], window as [sz].
  unfold next_reply, pop_reply in Hr1, Hr2; cbn in Hr1, Hr2, Hcaps.
  assert (Hlen : forall d : list event, skipn (length l) (l ++ d) = d)
    by (intros; apply drop_app_length).
  unfold added.
  destruct rs as [|[m|] [|[m'|] rest]]; try discriminate;
    destruct cf as [|f0 cf], cp as [|p0 cp], ca as [|a0 ca];
    try (destruct Hcaps as [Hc | [Hc | Hc]]; discriminate Hc);
    unfold Tutorial4Challenge.InitState, Tutorial4Challenge.InitState_body;
    eexists;
    cbv -[app Nat.add live_after skipn length];
    rewrite <- ?app_assoc; cbn [app]; succ_form;
    (split; [reflexivity|]); (split; [reflexivity|]);
    rewrite Hlen; decide_handles; reflexivity.
Qed.

Lemma X8_witness :
  exists g' : World,
    Tutorial4Challenge.InitState window0
      {| fresh := 0; replies := []; preferredFormat := 23%N;
         capFormats := []; capPresentModes := [PresentMode_Fifo];
         capAlphaModes := [AlphaMode_unset]; log := [] |}
    = Panic PanicIndex g'.
Proof.
  destruct (X8_Tutorial4_init_panics_without_capabilities window0
              {| fresh := 0; replies := []; preferredFormat := 23%N;
                 capFormats := []; capPresentModes := [PresentMode_Fifo];
                 capAlphaModes := [AlphaMode_unset]; log := [] |}
              (or_introl eq_refl) eq_refl eq_refl) as (g' & Hp & _).
  exists g'. exact Hp.
Defined.

Lemma uint32_small (z : Z) :
  (0 <= z < 2 ^ 32)%Z -> uint32 z = Z.to_N z.
Proof. intros Hz. unfold uint32. now rewrite Z.mod_small. Qed.

Lemma mul32_small (a b : N) :
  (a * b < 2 ^ 32)%N -> mul32 a b = (a * b)%N.
Proof. intros Hab. unfold mul32. now apply N.mod_small. Qed.



(** X10. The camera controller only ever moves the eye: after
    [UpdateCamera] the target, the up vector, the aspect, the field of view
    and the two planes are those of the camera it was given.  With no key
    pressed the camera is unchanged; and with only the forward key pressed
    it is unchanged as well when the distance to the target does not exceed
    the speed. *)
Theorem X10_controller_only_moves_the_eye :
  forall (G : Glm) (c : Tutorial6Challenge.CameraController)
         (cam : Tutorial6Challenge.Camera),
    let cam' := Tutorial6Challenge.CameraController_UpdateCamera c cam in
    (Tutorial6Challenge.target cam' = Tutorial6Challenge.target cam
     /\ Tutorial6Challenge.up cam' = Tutorial6Challenge.up cam
     /\ Tutorial6Challenge.aspect cam' = Tutorial6Challenge.aspect cam
     /\ Tutorial6Challenge.fovYRad cam' = Tutorial6Challenge.fovYRad cam
     /\ Tutorial6Challenge.znear cam' = Tutorial6Challenge.znear cam
     /\ Tutorial6Challenge.zfar cam' = Tutorial6Challenge.zfar cam)
    /\ (Tutorial6Challenge.isBackwardPressed c = false ->
        Tutorial6Challenge.isLeftPressed c = false ->
        Tutorial6Challenge.isRightPressed c = false ->
        Tutorial6Challenge.isForwardPressed c = false
        \/ f32_gt (Vec3_Magnitude
                     (Vec3_Sub (Tutorial6Challenge.target cam)
                               (Tutorial6Challenge.eye cam)))
                  (Tutorial6Challenge.speed c) = false ->
        cam' = cam).
Proof.
  intros G c cam cam'. subst cam'.
  destruct c as [sp fw bw lf rt], cam as [e t u a fv zn zf].
  unfold Tutorial6Challenge.CameraController_UpdateCamera.
  cbn [Tutorial6Challenge.isForwardPressed Tutorial6Challenge.isBackwardPressed
       Tutorial6Challenge.isLeftPressed Tutorial6Challenge.isRightPressed
       Tutorial6Challenge.speed Tutorial6Challenge.target
       Tutorial6Challenge.eye Tutorial6Challenge.up].
  split.
  - destruct fw, bw, lf, rt;
      destruct (f32_gt (Vec3_Magnitude (Vec3_Sub t e)) sp);
      repeat split.
  - intros -> -> -> [-> | Hgt]; [reflexivity|].
    rewrite Hgt. now destruct fw.
Qed.

Lemma X10_witness :
  Tutorial6Challenge.CameraController_UpdateCamera
    (@Tutorial6Challenge.Build_CameraController trivialGlm
       tt true false false false)
    (@Tutorial6Challenge.Build_Camera trivialGlm tt tt tt tt tt tt tt)
  = @Tutorial6Challenge.Build_Camera trivialGlm tt tt tt tt tt tt tt.
Proof.
  apply (proj2 (X10_controller_only_moves_the_eye trivialGlm _ _));
    try reflexivity.
  right. reflexivity.
Defined.

(** X11. [Update] of tutorial6-challenge.  With the camera, its staging
    record, the controller, the uniform and the queue set, it returns: the
    camera is the one the controller computes, the rotation has advanced by
    2, the uniform is recomputed from that camera and that rotation, and the
    only call into the binding is one write of the camera buffer at offset
    0; no other field changes.  If one of the five is nil it panics on the
    nil pointer and the world is untouched. *)
Theorem X11_Update_writes_camera_once :
  forall (G : Glm) (s : Tutorial6Challenge.State) (g : World),
    match Tutorial6Challenge.cameraStaging s,
          Tutorial6Challenge.cameraController s,
          Tutorial6Challenge.cameraUniform s,
          Tutorial6Challenge.queue s with
    | Some {| Tutorial6Challenge.camera := Some cam;
              Tutorial6Challenge.modelRotationDeg := rot |},
      Some ctrl, Some _, Some q =>
      let cam' := Tutorial6Challenge.CameraController_UpdateCamera ctrl cam in
      let rot' := f32_add rot (f32_lit 2) in
      Tutorial6Challenge.Update s g
      = Ret (Tutorial6Challenge.set_cameraUniform
               (Some {| Tutorial6Challenge.modelViewProj :=
                          Mat4_Mul4
                            (Mat4_Mul4 OpenGlToWgpuMatrix
                               (Tutorial6Challenge.buildViewProjectionMatrix
                                  cam'))
                            (Mat4FromAngleZ (DegToRad rot')) |})
               (Tutorial6Challenge.set_cameraStaging
                  (Some {| Tutorial6Challenge.camera := Some cam';
                           Tutorial6Challenge.modelRotationDeg := rot' |})
                  s))
          (logged [WroteBuffer q (Tutorial6Challenge.cameraBuffer s) 0] g)
    | _, _, _, _ => Tutorial6Challenge.Update s g = Panic PanicNilDeref g
    end.
Proof.
  intros G s g. destruct s, g as [n rs pf cf cp ca l].
  destruct cameraStaging as [[[cam|] rot]|], cameraController as [ctrl|],
    cameraUniform as [u|], queue as [q|]; reflexivity.
Qed.

(** X12. The keyboard callback and the next frame.  In part_000 a space-key
    event sets [isSpacePressed] to whether the key is down and the frame
    rendered next binds the cartoon bind group when it is down and the
    diffuse one when it is up; in tutorial4-challenge it sets [useComplex]
    and the next frame draws the challenge buffers with
    [numChallengeIndices] indices when down, the pentagon with [numIndices]
    indices when up.  An event of any other key changes neither the state
    nor the world. *)
Theorem X12_space_key_selects_what_is_drawn :
  (forall (s : Part000.State) (g : World) (state : events.ButtonState)
          (code : N) (sc dv q : handle),
      Part000.swapChain s = Some sc -> Part000.device s = Some dv ->
      Part000.queue s = Some q -> healthy g ->
      let s' := Part000.set_isSpacePressed (events.isPressed state) s in
      let d := Part000_frame_events s' sc q (fresh g) in
      bind (Part000.onEvent
              (display.KeyboardInput state code events.VirtualKeySpace) s)
        Part000.Render g
      = Ret None (logged d (with_fresh (fresh g + 4) g))
      /\ In (SetBindGroup (fresh g + 2) 0
               (if events.isPressed state then Part000.cartoonBindGroup s
                else Part000.diffuseBindGroup s)) d)
  /\ (forall (s : Part000.State) (g : World) (state : events.ButtonState)
             (code : N) (vk : events.VirtualKey),
      vk <> events.VirtualKeySpace ->
      Part000.onEvent (display.KeyboardInput state code vk) s g = Ret s g)
  /\ (forall (s : Tutorial4Challenge.State) (g : World)
             (state : events.ButtonState) (code : N) (sc dv q : handle),
      Tutorial4Challenge.swapChain s = Some sc ->
      Tutorial4Challenge.device s = Some dv ->
      Tutorial4Challenge.queue s = Some q -> healthy g ->
      let s' := Tutorial4Challenge.set_useComplex (events.isPressed state) s in
      let d := Tutorial4_frame_events s' sc q (fresh g) in
      bind (Tutorial4Challenge.onEvent
              (display.KeyboardInput state code events.VirtualKeySpace) s)
        Tutorial4Challenge.Render g
      = Ret None (logged d (with_fresh (fresh g + 4) g))
      /\ In (if events.isPressed state
             then DrawIndexed (fresh g + 2)
                    (Tutorial4Challenge.numChallengeIndices s) 1 0 0 0
             else DrawIndexed (fresh g + 2)
                    (Tutorial4Challenge.numIndices s) 1 0 0 0) d
      /\ In (SetIndexBuffer (fresh g + 2)
               (if events.isPressed state
                then Tutorial4Challenge.challengeIndexBuffer s
                else Tutorial4Challenge.indexBuffer s) IndexFormat_Uint16) d)
  /\ (forall (s : Tutorial4Challenge.State) (g : World)
             (state : events.ButtonState) (code : N)
             (vk : events.VirtualKey),
      vk <> events.VirtualKeySpace ->
      Tutorial4Challenge.onEvent (display.KeyboardInput state code vk) s g
      = Ret s g).
Proof.
  split; [|split; [|split]].
  - intros s g state code sc dv q Hsc Hd Hq Hg s' d.
    cbn [Part000.onEvent events.isSpace]. unfold bind at 1, ret. cbv beta iota.
    assert (Hsc' : Part000.swapChain s' = Some sc) by (destruct s; exact Hsc).
    assert (Hd' : Part000.device s' = Some dv) by (destruct s; exact Hd).
    assert (Hq' : Part000.queue s' = Some q) by (destruct s; exact Hq).
    split; [exact (Part000_Render_healthy s' g sc dv q Hsc' Hd' Hq' Hg)|].
    subst d s'. destruct s, state; cbn; in_list.
  - intros s g state code vk Hvk. cbn [Part000.onEvent].
    destruct vk; try reflexivity. congruence.
  - intros s g state code sc dv q Hsc Hd Hq Hg s' d.
    cbn [Tutorial4Challenge.onEvent events.isSpace].
    unfold bind at 1, ret. cbv beta iota.
    assert (Hsc' : Tutorial4Challenge.swapChain s' = Some sc)
      by (destruct s; exact Hsc).
    assert (Hd' : Tutorial4Challenge.device s' = Some dv)
      by (destruct s; exact Hd).
    assert (Hq' : Tutorial4Challenge.queue s' = Some q)
      by (destruct s; exact Hq).
    split; [exact (Tutorial4_Render_healthy s' g sc dv q Hsc' Hd' Hq' Hg)|].
    subst d s'. destruct s, state; cbn; split; in_list.
  - intros s g state code vk Hvk. cbn [Tutorial4Challenge.onEvent].
    destruct vk; try reflexivity. congruence.
Qed.

Lemma X12_witness :
  bind (Part000.onEvent
          (display.KeyboardInput events.ButtonStatePressed 57%N
             events.VirtualKeySpace) Part000_sample)
    Part000.Render world1
  = Ret None
      (logged (Part000_frame_events
                 (Part000.set_isSpacePressed true Part000_sample) 5 4 20)
         (with_fresh 24 world1))
  /\ Tutorial4Challenge.onEvent
       (display.KeyboardInput events.ButtonStatePressed 17%N events.VirtualKeyW)
       Tutorial4_sample world1
     = Ret Tutorial4_sample world1.
Proof.
  split.
  - exact (proj1 (proj1 X12_space_key_selects_what_is_drawn Part000_sample
                    world1 events.ButtonStatePressed 57%N 5 3 4
                    eq_refl eq_refl eq_refl eq_refl)).
  - apply (proj2 (proj2 (proj2 X12_space_key_selects_what_is_drawn))).
    discriminate.
Defined.

Lemma prefix_app (sub s : string) :
  String.prefix sub s = true <-> exists rest, s = String.append sub rest.
Proof.
  revert s. induction sub as [|a sub IH]; intros s.
  - split; [intros _; now exists s | intros _; now destruct s].
  - destruct s as [|b s]; cbn.
    + split; [discriminate | intros [rest Hr]; discriminate].
    + destruct (ascii_dec a b) as [->|Hne].
      * split.
        -- intros Hp. apply IH in Hp as [rest Hr]. exists rest. now rewrite Hr.
        -- intros [rest Hr]. apply IH. exists rest. now injection Hr.
      * split; [discriminate | intros [rest Hr]; congruence].
Qed.

(** X13. The test that the loop applies to the text of a render error is
    the substring test: [Contains s substr] holds exactly when [s] is some
    text, then [substr], then some text.  It is sensitive to case, so that a
    message saying "device lost" is not taken for a lost surface. *)
Theorem X13_Contains_is_substring :
  (forall s substr : string,
      strings.Contains s substr = true
      <-> exists pre post : string,
            s = String.append pre (String.append substr post))
  /\ strings.Contains "device lost" "Lost" = false.
Proof.
  split; [|reflexivity].
  intros s substr. induction s as [|a s IH].
  - cbn [strings.Contains]. destruct (String.prefix substr "") eqn:Hp.
    + split; [intros _|reflexivity].
      apply prefix_app in Hp as [rest Hr]. now exists "", rest.
    + split; [discriminate|]. intros (pre & post & Heq).
      destruct pre; [|discriminate Heq]. cbn in Heq.
      assert (Hp' : String.prefix substr "" = true)
        by (apply prefix_app; now exists post).
      congruence.
  - cbn [strings.Contains].
    destruct (String.prefix substr (String a s)) eqn:Hp.
    + split; [intros _|reflexivity].
      apply prefix_app in Hp as [rest Hr]. now exists "", rest.
    + rewrite IH. split.
      * intros (pre & post & Heq). exists (String a pre), post.
        cbn. now rewrite Heq.
      * intros (pre & post & Heq). destruct pre as [|b pre].
        -- cbn in Heq.
           assert (Hp' : String.prefix substr (String a s) = true)
             by (apply prefix_app; now exists post).
           congruence.
        -- cbn in Heq. injection Heq as -> ->. now exists pre, post.
Qed.
